(** * Landroid Cloud: state synchroniser, zone selector, schedule codec, setup

    A shallow embedding of the parts of
    [custom_components/landroid_cloud/device_base.py] and
    [custom_components/landroid_cloud/__init__.py] that carry the
    integration's behaviour, together with the properties the
    specification states about them.

    Python objects are mutable and methods may raise; methods are therefore
    embedded in a state-and-exception monad over the objects they touch.
    Logging calls have no effect on the modelled state; of a logging call
    only the evaluation of its arguments is kept, where that can raise. *)

From Stdlib Require Import ZArith String List Lia.
From stdpp Require Import base option list gmap strings pretty.

#[local] Set Warnings "-register-all".

Local Open Scope string_scope.
Local Open Scope list_scope.
Local Open Scope Z_scope.

(** ** Python values, exceptions, outcomes *)

(** The values that cross the boundaries of the modelled code: service-call
    fields, attribute values, JSON documents.  A [PDict] keeps its items in
    insertion order, as a Python [dict] does. *)
Inductive pyval : Type :=
| PNone
| PBool (b : bool)
| PInt (z : Z)
| PStr (s : string)
| PList (l : list pyval)
| PDict (items : list (string * pyval)).

Inductive exn : Type :=
| KeyError (key : string)
| TypeError (msg : string)
| IndexError (msg : string)
| AttributeError (msg : string)
| HomeAssistantError (msg : string)
| CloudError (msg : string).

Inductive outcome (A : Type) : Type :=
| Ok (a : A)
| Raise (e : exn).
Arguments Ok {A} a.
Arguments Raise {A} e.

Definition is_Ok {A} (o : outcome A) : Prop := ∃ a, o = Ok a.

Definition obind {A B} (o : outcome A) (k : A → outcome B) : outcome B :=
  match o with
  | Ok a => k a
  | Raise e => Raise e
  end.

(** [M St A]: a computation over mutable state [St] that returns an [A] or
    raises.  State changes made before a raise persist, as in Python. *)
Definition M (St A : Type) : Type := St → outcome A * St.

Definition ret {St A} (a : A) : M St A := λ s, (Ok a, s).
Definition raise {St A} (e : exn) : M St A := λ s, (Raise e, s).
Definition bind {St A B} (c : M St A) (k : A → M St B) : M St B :=
  λ s, match c s with
       | (Ok a, s') => k a s'
       | (Raise e, s') => (Raise e, s')
       end.
Definition get {St} : M St St := λ s, (Ok s, s).
Definition modify {St} (f : St → St) : M St unit := λ s, (Ok tt, f s).
Definition lift {St A} (o : outcome A) : M St A := λ s, (o, s).

Declare Scope py_scope.
Delimit Scope py_scope with py.
Notation "'let*' x ':=' c 'in' k" := (bind c (λ x, k))
  (at level 10, x pattern, c at level 100, k at level 200) : py_scope.
Notation "'try*' x ':=' o 'in' k" := (obind o (λ x, k))
  (at level 10, x pattern, o at level 100, k at level 200) : py_scope.

(** [for x in xs: body], threading the state and stopping at the first
    raise. *)
Fixpoint for_each {St A} (xs : list A) (body : A → M St unit) : M St unit :=
  match xs with
  | [] => ret tt
  | x :: rest => bind (body x) (λ _, for_each rest body)
  end.

(** Truth value testing, [bool(v)]. *)
Definition py_truthy (v : pyval) : bool :=
  match v with
  | PNone => false
  | PBool b => b
  | PInt z => negb (Z.eqb z 0)
  | PStr s => negb (String.eqb s "")
  | PList l => match l with [] => false | _ => true end
  | PDict d => match d with [] => false | _ => true end
  end.

(** [len(v)]. *)
Definition py_len (v : pyval) : outcome nat :=
  match v with
  | PStr s => Ok (String.length s)
  | PList l => Ok (length l)
  | PDict d => Ok (length d)
  | _ => Raise (TypeError "object has no len()")
  end.

(** [str(n)] for an integer. *)
Definition py_str (n : Z) : string := pretty n.

(** [d[k]] on a string-keyed dict, for a key of any value: a string is
    looked up, another hashable value is simply not a key, a list or a dict
    cannot be hashed. *)
Definition py_subscript {V} (d : gmap string V) (k : pyval) : outcome V :=
  match k with
  | PStr s => match d !! s with
              | Some v => Ok v
              | None => Raise (KeyError s)
              end
  | PList _ | PDict _ => Raise (TypeError "unhashable type")
  | _ => Raise (KeyError "<non-string key>")
  end.

(** Item assignment [d[k] = v] on an insertion-ordered dict: an existing key
    keeps its position, a new key goes last. *)
Fixpoint dict_set (d : list (string * pyval)) (k : string) (v : pyval)
  : list (string * pyval) :=
  match d with
  | [] => [(k, v)]
  | (k', v') :: rest =>
      if String.eqb k' k then (k, v) :: rest else (k', v') :: dict_set rest k v
  end.

Fixpoint dict_get (d : list (string * pyval)) (k : string) : option pyval :=
  match d with
  | [] => None
  | (k', v') :: rest => if String.eqb k' k then Some v' else dict_get rest k
  end.

Definition py_index {A} (l : list A) (i : nat) : outcome A :=
  match l !! i with
  | Some x => Ok x
  | None => Raise (IndexError "list index out of range")
  end.

(** ** The cloud device handle and the entity *)

(** One day of a schedule as the device handle reports it. *)
Record ScheduleEntry : Type := {
  entry_start : string;
  entry_end : string;
  entry_duration : Z;
  entry_boundary : bool;
}.

(** The blocking calls an entity dispatches on the handle. *)
Inductive call : Type :=
| CallStart
| CallPause
| CallHome
| CallSetzone (zone : string)
| CallSend (payload : pyval).

(** The handle of one mower.  The fields the code reads by name carry the
    types of the data model: the online flag, the error code and the raw
    status code (both may be [None]), the zone array, whose read may raise,
    and the two schedules keyed by type and by day.  [properties] is what
    [hasattr]/[getattr] see; [calls] records the calls dispatched so far,
    oldest first. *)
Record WorxCloud : Type := {
  online : bool;
  error : option Z;
  status : option Z;
  serial : pyval;
  battery_percent : pyval;
  zone : outcome (list Z);
  schedules : gmap string (gmap string ScheduleEntry);
  properties : gmap string pyval;
  calls : list call;
}.

(** The instance attributes of [LandroidCloudBaseEntity] and its
    subclasses that the modelled methods read or assign. *)
Record Entity : Type := {
  _attributes : gmap string pyval;
  _available : bool;
  _icon : option string;
  _attr_state : string;
  _serialnumber : pyval;
  _battery_level : pyval;
  _attr_options : list string;
  _attr_current_option : option string;
}.

(** An entity together with the handle it reaches through [self.api.device]. *)
Record World : Type := {
  self : Entity;
  device : WorxCloud;
}.

Definition with_self (f : Entity → Entity) (w : World) : World :=
  {| self := f (self w); device := device w |}.

Definition set_attr_options (v : list string) (e : Entity) : Entity :=
  {| _attributes := _attributes e; _available := _available e; _icon := _icon e;
     _attr_state := _attr_state e; _serialnumber := _serialnumber e;
     _battery_level := _battery_level e; _attr_options := v;
     _attr_current_option := _attr_current_option e |}.

Definition set_icon (v : option string) (e : Entity) : Entity :=
  {| _attributes := _attributes e; _available := _available e; _icon := v;
     _attr_state := _attr_state e; _serialnumber := _serialnumber e;
     _battery_level := _battery_level e; _attr_options := _attr_options e;
     _attr_current_option := _attr_current_option e |}.

Definition set_attributes (v : gmap string pyval) (e : Entity) : Entity :=
  {| _attributes := v; _available := _available e; _icon := _icon e;
     _attr_state := _attr_state e; _serialnumber := _serialnumber e;
     _battery_level := _battery_level e; _attr_options := _attr_options e;
     _attr_current_option := _attr_current_option e |}.

Definition set_available (v : bool) (e : Entity) : Entity :=
  {| _attributes := _attributes e; _available := v; _icon := _icon e;
     _attr_state := _attr_state e; _serialnumber := _serialnumber e;
     _battery_level := _battery_level e; _attr_options := _attr_options e;
     _attr_current_option := _attr_current_option e |}.

Definition set_attr_state (v : string) (e : Entity) : Entity :=
  {| _attributes := _attributes e; _available := _available e; _icon := _icon e;
     _attr_state := v; _serialnumber := _serialnumber e;
     _battery_level := _battery_level e; _attr_options := _attr_options e;
     _attr_current_option := _attr_current_option e |}.

Definition set_serialnumber (v : pyval) (e : Entity) : Entity :=
  {| _attributes := _attributes e; _available := _available e; _icon := _icon e;
     _attr_state := _attr_state e; _serialnumber := v;
     _battery_level := _battery_level e; _attr_options := _attr_options e;
     _attr_current_option := _attr_current_option e |}.

Definition set_battery_level (v : pyval) (e : Entity) : Entity :=
  {| _attributes := _attributes e; _available := _available e; _icon := _icon e;
     _attr_state := _attr_state e; _serialnumber := _serialnumber e;
     _battery_level := v; _attr_options := _attr_options e;
     _attr_current_option := _attr_current_option e |}.

Definition dispatch (c : call) (w : World) : World :=
  {| self := self w;
     device := {| online := online (device w); error := error (device w);
                  status := status (device w); serial := serial (device w);
                  battery_percent := battery_percent (device w);
                  zone := zone (device w); schedules := schedules (device w);
                  properties := properties (device w);
                  calls := calls (device w) ++ [c] |} |}.

(** ** Names imported from modules that are not among the sources

    [const.py], [attribute_map.py] and [utils.py] of the integration, the
    state names of the host's vacuum component and the description table of
    the cloud SDK are imported by the modelled code but not part of it.
    They are parameters of the development; every result holds for each
    value they can take. *)

(** One value of [SCHEDULE_TO_DAY]: the service-field names of a weekday
    and its clear name. *)
Record Day : Type := {
  day_start : string;
  day_end : string;
  day_clear : string;
}.

(** [const.py].  [SCHEDULE_TO_DAY] lists the values of the dict in
    iteration order. *)
Class Const : Type := {
  STATE_INITIALIZING : string;
  STATE_OFFLINE : string;
  STATE_RAINDELAY : string;
  STATE_MOWING : string;
  STATE_MAP : gmap Z string;
  SCHEDULE_TYPE_MAP : gmap string string;
  SCHEDULE_TO_DAY : list Day;
}.

(** The host platform: the state names of [homeassistant.components.vacuum]
    and [homeassistant.util.slugify]. *)
Class HomeAssistant : Type := {
  STATE_DOCKED : string;
  STATE_ERROR : string;
  STATE_RETURNING : string;
  util_slugify : string → string;
}.

(** The built-in [str.lower]. *)
Class Builtins : Type := {
  str_lower : string → string;
}.

(** [attribute_map.py]: [ATTR_MAP["default"]["state"]] as its items in
    iteration order, and [ATTR_MAP["default"]["icon"]]. *)
Class AttributeMap : Type := {
  ATTR_MAP_state : list (string * string);
  ATTR_MAP_icon : string;
}.

(** [pyworxcloud.states]. *)
Class States : Type := {
  ERROR_TO_DESCRIPTION : gmap Z string;
}.

(** [utils.py]: the two helpers of the schedule codec.  Either may raise. *)
Class Utils : Type := {
  pass_thru : gmap string ScheduleEntry → outcome pyval;
  parseday : Day → gmap string pyval → outcome pyval;
}.

Section Model.
Context `{Const, HomeAssistant, Builtins, AttributeMap, States, Utils}.
Local Open Scope py_scope.

(** ** State synchroniser: [LandroidCloudBaseEntity.async_update] *)

(** [zone_mapping] of the base class. *)
Definition zone_mapping : M World bool := ret false.

(** The loop over [methods["state"].items()], building the local [data]. *)
Definition async_update_collect (master : WorxCloud) : gmap string pyval :=
  fold_left
    (λ (data : gmap string pyval) '(prop, attr),
       match properties master !! prop with         (* hasattr(master, prop) *)
       | Some prop_data =>
           match prop_data with
           | PNone => data
           | _ => <[attr := prop_data]> data
           end
       | None => data
       end)
    ATTR_MAP_state ∅.

(** [master.error or 0]. *)
Definition error_or_0 (master : WorxCloud) : Z :=
  match error master with
  | Some e => if py_truthy (PInt e) then e else 0
  | None => 0
  end.

(** [d[k]] on an integer-keyed dict; [None] is hashable and not a key. *)
Definition py_subscript_int {V} (d : gmap Z V) (k : option Z) : outcome V :=
  match k with
  | Some z => match d !! z with
              | Some v => Ok v
              | None => Raise (KeyError (py_str z))
              end
  | None => Raise (KeyError "None")
  end.

(** Lines 185-198: the local [state]. *)
Definition async_update_state (master : WorxCloud) : M World string :=
  let state := STATE_INITIALIZING in
  if negb (online master) then ret STATE_OFFLINE
  else if match error master with Some e => 0 <? e | None => false end then
    match error master with
    | Some e =>
        if (0 <? e) && negb (e =? 5) then ret STATE_ERROR
        else if e =? 5 then ret STATE_RAINDELAY
        else ret state
    | None => ret state
    end
  else
    match py_subscript_int STATE_MAP (status master) with
    | Ok s => ret s
    | Raise (KeyError _) => ret STATE_INITIALIZING
    | Raise e => raise e
    end.

(** [self._attributes.update(data)]: the keys of [data] win. *)
Definition dict_update (data : gmap string pyval) (e : Entity) : Entity :=
  set_attributes (data ∪ _attributes e) e.

Definition async_update : M World unit :=
  let* w := get in
  let master := device w in
  let* _ := modify (with_self (set_icon (Some ATTR_MAP_icon))) in
  let data := async_update_collect master in
  let* description := lift (py_subscript_int ERROR_TO_DESCRIPTION (Some (error_or_0 master))) in
  let data := <["error" := PStr description]> data in
  let* _ := modify (with_self (dict_update data)) in
  let* _ := modify (with_self (set_available (online master))) in
  let* state := async_update_state master in
  let* w := get in
  let* _ :=
    match _attributes (self w) !! "zone_probability" with
    | Some zp =>
        let* n := lift (py_len zp) in
        if Nat.eqb n 10 then let* _ := zone_mapping in ret tt else ret tt
    | None => ret tt
    end in
  let* _ := modify (with_self (set_attr_state state)) in
  let* _ := modify (with_self (set_serialnumber (serial master))) in
  modify (with_self (set_battery_level (battery_percent master))).

(** ** Zone selector: [LandroidCloudSelectZoneEntity._update_zone] *)

(** The body of [for idx in range(1, 4)], over the local list [options]. *)
Definition _update_zone_body (zones : list Z) (idx : nat) : M (list string) unit :=
  let* slot := lift (py_index zones idx) in
  if bool_decide (slot ≠ 0)
  then modify (λ options, options ++ [py_str (Z.of_nat idx)])
  else ret tt.

Definition _update_zone : M World unit :=
  let* w := get in
  let zones := match zone (device w) with
               | Ok z => z
               | Raise _ => []
               end in
  if Nat.eqb (length zones) 4 then
    match for_each (seq 1 3) (_update_zone_body zones) ["0"] with
    | (Ok _, options) => modify (with_self (set_attr_options options))
    | (Raise e, _) => raise e
    end
  else ret tt.

(** ** Mower commands: [LandroidCloudMowerBase] *)

(** The [state] property. *)
Definition state (e : Entity) : string := _attr_state e.

Definition async_start : M World unit := modify (dispatch CallStart).

Definition async_pause : M World unit := modify (dispatch CallPause).

Definition async_return_to_base : M World unit :=
  let* w := get in
  if bool_decide (state (self w) ∉ [STATE_DOCKED; STATE_RETURNING])
  then modify (dispatch CallHome)
  else ret tt.

Definition async_stop : M World unit := async_return_to_base.

(** ** Schedule codec: [LandroidCloudMowerBase.async_set_schedule] *)

(** [d[k]] for a literal key. *)
Definition py_getitem {V} (d : gmap string V) (k : string) : outcome V :=
  py_subscript d (PStr k).

(** [a == "literal"]. *)
Definition py_eq_str (a : pyval) (s : string) : bool :=
  match a with
  | PStr s' => String.eqb s' s
  | _ => false
  end.

(** [schedule[key]] on the local document, which holds lists. *)
Definition schedule_list (schedule : list (string * pyval)) (key : string)
  : outcome (list pyval) :=
  match dict_get schedule key with
  | Some (PList l) => Ok l
  | Some _ => Raise (AttributeError "object has no attribute 'append'")
  | None => Raise (KeyError key)
  end.

(** The body of [for day in SCHEDULE_TO_DAY.items()], over the local dict
    [schedule].  In [schedule[...].append(parseday(...))] the list is looked
    up before the argument is evaluated; in the other branch [current] is
    built first. *)
Definition async_set_schedule_day (master : WorxCloud) (schedule_type : pyval)
    (data : gmap string pyval) (day : Day) : M (list (string * pyval)) unit :=
  if bool_decide (is_Some (data !! day_start day)) then
    if negb (bool_decide (is_Some (data !! day_end day))) then
      raise (HomeAssistantError ("No end time specified for " +:+ day_clear day))
    else
      let* schedule := get in
      let* key := lift (py_subscript SCHEDULE_TYPE_MAP schedule_type) in
      let* target := lift (schedule_list schedule key) in
      let* item := lift (parseday day data) in
      modify (λ schedule, dict_set schedule key (PList (target ++ [item])))
  else
    let* of_type := lift (py_subscript (schedules master) schedule_type) in
    let* entry := lift (py_getitem of_type (day_clear day)) in
    let current := [PStr (entry_start entry);
                    PInt (entry_duration entry);
                    PInt (Z.b2z (entry_boundary entry))] in
    let* schedule := get in
    let* key := lift (py_subscript SCHEDULE_TYPE_MAP schedule_type) in
    let* target := lift (schedule_list schedule key) in
    modify (λ schedule, dict_set schedule key (PList (target ++ [PList current]))).

(** [json.dumps] is injective on documents; the payload handed to
    [device.send] is kept as the document it serialises. *)
Definition json_dumps (doc : pyval) : pyval := doc.

Definition async_set_schedule (data : gmap string pyval) : M World unit :=
  let* w := get in
  let master := device w in
  let* schedule_type := lift (py_getitem data "type") in
  let* _ := lift (py_subscript SCHEDULE_TYPE_MAP schedule_type) in
  let schedule : list (string * pyval) := [] in
  let* schedule :=
    if py_eq_str schedule_type "secondary" then
      let* primary := lift (py_getitem (schedules master) "primary") in
      let* passed := lift (pass_thru primary) in
      let* key := lift (py_getitem SCHEDULE_TYPE_MAP "primary") in
      ret (dict_set schedule key passed)
    else ret schedule in
  let* key := lift (py_subscript SCHEDULE_TYPE_MAP schedule_type) in
  let schedule := dict_set schedule key (PList []) in
  let* schedule :=
    match for_each SCHEDULE_TO_DAY
            (async_set_schedule_day master schedule_type data) schedule with
    | (Ok _, schedule) => ret schedule
    | (Raise e, _) => raise e
    end in
  let* schedule :=
    if py_eq_str schedule_type "primary" then
      let* secondary := lift (py_getitem (schedules master) "secondary") in
      let* passed := lift (pass_thru secondary) in
      let* key := lift (py_getitem SCHEDULE_TYPE_MAP "secondary") in
      ret (dict_set schedule key passed)
    else ret schedule in
  let data := json_dumps (PDict [("sc", PDict schedule)]) in
  modify (dispatch (CallSend data)).

(** ** Account setup: [_setup] and [LandroidAPI] in [__init__.py] *)

(** What the cloud answers for one account: the results of [initialize]
    and [enumerate] on the account handle, and of [initialize] and
    [connect] on the handle of each device, with the device's name. *)
Record Cloud : Type := {
  initialize_result : outcome pyval;
  enumerate_result : outcome Z;
  device_initialize : nat → outcome pyval;
  device_connect : nat → outcome unit;
  device_name : nat → string;
}.

(** The fields of a config entry that [_setup] reads. *)
Record ConfigEntry : Type := {
  entry_id : string;
  data_email : option string;
  data_password : option string;
  data_type : option string;
}.

(** A handle created by [WorxCloud(email, password, type)]. *)
Record Handle : Type := {
  handle_email : option string;
  handle_password : option string;
  handle_type : string;
  handle_initialized : bool;
  handle_connected : option nat;
  handle_name : string;
  handle_callback : bool;
}.

Record LandroidAPI : Type := {
  api_entry_id : string;
  api_index : nat;
  api_device : Handle;
  api_name : string;
  api_friendly_name : string;
  api_config : string * option string * string;
}.

(** [hass.data[DOMAIN][entry_id][device]]. *)
Record Slot : Type := {
  slot_device : option Handle;
  slot_api : option LandroidAPI;
}.

(** [hass.data[DOMAIN][entry_id]]: the four named items and the items keyed
    by device index. *)
Record Account : Type := {
  count : Z;
  conf_email : option string;
  conf_password : option string;
  conf_type : string;
  slots : gmap nat Slot;
}.

Definition set_slot (device : nat) (s : Slot) (a : Account) : Account :=
  {| count := count a; conf_email := conf_email a;
     conf_password := conf_password a; conf_type := conf_type a;
     slots := <[device := s]> (slots a) |}.

(** [x.lower()] where [x] may be [None]. *)
Definition lower_opt (x : option string) : outcome string :=
  match x with
  | Some s => Ok (str_lower s)
  | None => Raise (AttributeError "'NoneType' object has no attribute 'lower'")
  end.

(** [hass.data[DOMAIN][entry_id]]. *)
Definition account (id : string) : M (gmap string Account) Account :=
  let* registry := get in
  lift (py_getitem registry id).

(** [hass.data[DOMAIN][entry_id][device]]. *)
Definition slot (id : string) (device : nat) : M (gmap string Account) Slot :=
  let* a := account id in
  match slots a !! device with
  | Some s => ret s
  | None => raise (KeyError (py_str (Z.of_nat device)))
  end.

(** [LandroidAPI.__init__]. *)
Definition LandroidAPI_init (index : nat) (device : Handle) (entry : ConfigEntry)
  : M (gmap string Account) LandroidAPI :=
  let* a := account (entry_id entry) in
  let* email := lift (lower_opt (conf_email a)) in
  let* a := account (entry_id entry) in
  let password := conf_password a in
  let* a := account (entry_id entry) in
  let type := str_lower (conf_type a) in
  ret {| api_entry_id := entry_id entry;
         api_index := index;
         api_device :=
           {| handle_email := handle_email device;
              handle_password := handle_password device;
              handle_type := handle_type device;
              handle_initialized := handle_initialized device;
              handle_connected := handle_connected device;
              handle_name := handle_name device;
              handle_callback := true |};
         api_name := util_slugify (handle_name device);
         api_friendly_name := handle_name device;
         api_config := (email, password, type) |}.

(** The body of [for device in range(num_dev)]. *)
Definition _setup_device (cloud : Cloud) (entry : ConfigEntry)
    (cloud_email cloud_password : option string) (cloud_type : string)
    (device : nat) : M (gmap string Account) unit :=
  let id := entry_id entry in
  let* a := account id in
  let* _ := modify (<[id := set_slot device {| slot_device := None; slot_api := None |} a]>) in
  let created :=
    {| handle_email := cloud_email; handle_password := cloud_password;
       handle_type := str_lower cloud_type; handle_initialized := false;
       handle_connected := None; handle_name := device_name cloud device;
       handle_callback := false |} in
  let* a := account id in
  let* s := slot id device in
  let* _ := modify (<[id := set_slot device {| slot_device := Some created; slot_api := slot_api s |} a]>) in
  let* _ := lift (device_initialize cloud device) in
  let initialized :=
    {| handle_email := cloud_email; handle_password := cloud_password;
       handle_type := str_lower cloud_type; handle_initialized := true;
       handle_connected := None; handle_name := device_name cloud device;
       handle_callback := false |} in
  let* a := account id in
  let* s := slot id device in
  let* _ := modify (<[id := set_slot device {| slot_device := Some initialized; slot_api := slot_api s |} a]>) in
  let* _ := lift (device_connect cloud device) in
  let connected :=
    {| handle_email := cloud_email; handle_password := cloud_password;
       handle_type := str_lower cloud_type; handle_initialized := true;
       handle_connected := Some device; handle_name := device_name cloud device;
       handle_callback := false |} in
  let* a := account id in
  let* s := slot id device in
  let* _ := modify (<[id := set_slot device {| slot_device := Some connected; slot_api := slot_api s |} a]>) in
  let* api := LandroidAPI_init device connected entry in
  let* a := account id in
  modify (<[id := set_slot device {| slot_device := Some (api_device api); slot_api := Some api |} a]>).

Definition _setup (cloud : Cloud) (entry : ConfigEntry) : M (gmap string Account) bool :=
  let cloud_email := data_email entry in
  let cloud_password := data_password entry in
  let cloud_type := data_type entry in
  let cloud_type := match cloud_type with
                    | None => "worx"
                    | Some t => t
                    end in
  let* auth := lift (initialize_result cloud) in
  if negb (py_truthy auth) then ret false
  else
    match enumerate_result cloud with
    | Raise err => ret false
    | Ok num_dev =>
        let* _ := modify (<[entry_id entry :=
                     {| count := num_dev; conf_email := cloud_email;
                        conf_password := cloud_password; conf_type := cloud_type;
                        slots := ∅ |}]>) in
        let* _ := for_each (seq 0 (Z.to_nat num_dev))
                    (_setup_device cloud entry cloud_email cloud_password cloud_type) in
        ret true
    end.

End Model.


(** * More of the two modules

    The methods and functions of [device_base.py] and [__init__.py] around
    the ones above: the toggle command, the zone selector's callbacks, and
    the integration's entry points. *)

(** [homeassistant.const]: the keys of a config entry's data. *)
Class ConfKeys : Type := {
  CONF_EMAIL : string;
  CONF_PASSWORD : string;
  CONF_TYPE : string;
}.

(** [const.py], the names the entry points use. *)
Class Integration : Type := {
  DOMAIN : string;
  PLATFORMS : list string;
}.

(** [needle in hay] on strings: [needle] occurs somewhere in [hay]. *)
Fixpoint py_in_str (needle hay : string) : bool :=
  if String.prefix needle hay then true
  else match hay with
       | EmptyString => false
       | String _ rest => py_in_str needle rest
       end.

Definition set_attr_current_option (v : option string) (e : Entity) : Entity :=
  {| _attributes := _attributes e; _available := _available e; _icon := _icon e;
     _attr_state := _attr_state e; _serialnumber := _serialnumber e;
     _battery_level := _battery_level e; _attr_options := _attr_options e;
     _attr_current_option := v |}.

(** ** [LandroidCloudMowerBase.async_start_pause] *)

Section Toggle.
Context `{Const}.
Local Open Scope py_scope.

Definition async_start_pause : M World unit :=
  let* w := get in
  if py_in_str STATE_MOWING (state (self w))
  then async_pause
  else async_start.

End Toggle.

(** ** [LandroidCloudSelectZoneEntity]: the callbacks *)

(** A zone selector with what its callbacks reach besides the handle:
    [self.api.shared_options], whose "current_zone" is a zone index, and
    the host's [schedule_update_ha_state], of which the number of calls is
    kept. *)
Record Selector : Type := {
  selector_world : World;
  shared_options : gmap string Z;
  state_updates : nat;
}.

Module SelectZone.
Local Open Scope py_scope.

(** A method of the entity run on the selector's world. *)
Definition on_world {A} (c : M World A) : M Selector A :=
  λ s, let (r, w) := c (selector_world s) in
       (r, {| selector_world := w; shared_options := shared_options s;
              state_updates := state_updates s |}).

Definition schedule_update_ha_state : M Selector unit :=
  modify (λ s, {| selector_world := selector_world s;
                  shared_options := shared_options s;
                  state_updates := S (state_updates s) |}).

(** [_attr_options] is a list, never [None]: the outer test holds.  The
    bare [except] turns a missing "current_zone" into [None]. *)
Definition update_selected_zone : M Selector unit :=
  let* s := get in
  let* _ :=
    if Nat.ltb 1 (length (_attr_options (self (selector_world s))))
    then on_world _update_zone
    else ret tt in
  let* s := get in
  let current :=
    match py_getitem (shared_options s) "current_zone" with
    | Ok current_zone => Some (py_str current_zone)
    | Raise _ => None
    end in
  let* _ := on_world (modify (with_self (set_attr_current_option current))) in
  schedule_update_ha_state.

Definition update_callback : M Selector unit :=
  let* _ := on_world _update_zone in
  update_selected_zone.

End SelectZone.

(** ** [__init__.py]: the entry points *)

(** A config entry: its id, its unique id, and its data, whose values are
    strings.  [entry.data.get(k)] is a lookup, [entry.data[k]] raises on a
    missing key. *)
Record Entry : Type := {
  config_id : string;
  config_unique_id : option string;
  config_data : gmap string string;
}.

(** What the entry points see of the host: [hass.data.get(DOMAIN)], the
    config entry they are called with (the host updates it in place), the
    import flows started, the platform set-ups forwarded, and the
    unsubscribe callbacks called, each oldest first. *)
Record Hass : Type := {
  hass_data : option (gmap string Account);
  hass_entry : Entry;
  hass_flows : list (gmap string pyval);
  hass_forwarded : list (string * list string);
  hass_unsubscribed : list nat;
}.

Definition set_hass_data (v : option (gmap string Account)) (h : Hass) : Hass :=
  {| hass_data := v; hass_entry := hass_entry h; hass_flows := hass_flows h;
     hass_forwarded := hass_forwarded h; hass_unsubscribed := hass_unsubscribed h |}.

Definition set_hass_entry (v : Entry) (h : Hass) : Hass :=
  {| hass_data := hass_data h; hass_entry := v; hass_flows := hass_flows h;
     hass_forwarded := hass_forwarded h; hass_unsubscribed := hass_unsubscribed h |}.

Definition add_flow (conf : gmap string pyval) (h : Hass) : Hass :=
  {| hass_data := hass_data h; hass_entry := hass_entry h;
     hass_flows := hass_flows h ++ [conf];
     hass_forwarded := hass_forwarded h; hass_unsubscribed := hass_unsubscribed h |}.

Definition add_forwarded (f : string * list string) (h : Hass) : Hass :=
  {| hass_data := hass_data h; hass_entry := hass_entry h; hass_flows := hass_flows h;
     hass_forwarded := hass_forwarded h ++ [f];
     hass_unsubscribed := hass_unsubscribed h |}.

Definition add_unsubscribed (u : nat) (h : Hass) : Hass :=
  {| hass_data := hass_data h; hass_entry := hass_entry h; hass_flows := hass_flows h;
     hass_forwarded := hass_forwarded h;
     hass_unsubscribed := hass_unsubscribed h ++ [u] |}.

Section EntryPoints.
Context `{HomeAssistant, Builtins, ConfKeys, Integration}.
Local Open Scope py_scope.

(** [hass.data.setdefault(DOMAIN, {})], which returns the dict under
    [DOMAIN]. *)
Definition setdefault_domain : M Hass (gmap string Account) :=
  λ h, match hass_data h with
       | Some registry => (Ok registry, h)
       | None => (Ok ∅, set_hass_data (Some ∅) h)
       end.

(** [hass.data[DOMAIN]]. *)
Definition domain_data : M Hass (gmap string Account) :=
  let* h := get in
  match hass_data h with
  | Some registry => ret registry
  | None => raise (KeyError DOMAIN)
  end.

(** [async_setup]; [config] is [config.get(DOMAIN)], a list of account
    configurations.  The email is read for the log line. *)
Definition async_setup (config : option (list (gmap string pyval))) : M Hass bool :=
  let* _ := setdefault_domain in
  match config with
  | None => ret true
  | Some confs =>
      let* _ := for_each confs
                  (λ conf, let* _ := lift (py_getitem conf "email") in
                           modify (add_flow conf)) in
      ret true
  end.

(** What [_setup] reads of the entry. *)
Definition config_entry_of (entry : Entry) : ConfigEntry :=
  {| entry_id := config_id entry;
     data_email := config_data entry !! CONF_EMAIL;
     data_password := config_data entry !! CONF_PASSWORD;
     data_type := config_data entry !! CONF_TYPE |}.

(** [f"{x}"] for a string or [None]. *)
Definition format_opt (x : option string) : string :=
  match x with
  | Some s => s
  | None => "None"
  end.

(** [check_unique_id]; the host's [async_update_entry] replaces the data
    and the unique id of the entry. *)
Definition check_unique_id : M Hass unit :=
  let* h := get in
  let entry := hass_entry h in
  match config_unique_id entry with
  | Some _ => ret tt
  | None =>
      let new_unique_id :=
        format_opt (config_data entry !! CONF_EMAIL) +:+ "_"
        +:+ format_opt (config_data entry !! CONF_TYPE) in
      let* email := lift (py_getitem (config_data entry) CONF_EMAIL) in
      let* password := lift (py_getitem (config_data entry) CONF_PASSWORD) in
      let* type := lift (py_getitem (config_data entry) CONF_TYPE) in
      let data : gmap string string :=
        <[CONF_TYPE := type]> (<[CONF_PASSWORD := password]> {[CONF_EMAIL := email]}) in
      modify (set_hass_entry {| config_id := config_id entry;
                                config_unique_id := Some new_unique_id;
                                config_data := data |})
  end.

(** [async_setup_entry]; [_setup] works on the dict that [setdefault]
    returned, and what it does to it stays when it raises. *)
Definition async_setup_entry (cloud : Cloud) : M Hass bool :=
  let* registry := setdefault_domain in
  let* _ := check_unique_id in
  let* h := get in
  let (outcome, registry') := _setup cloud (config_entry_of (hass_entry h)) registry in
  let* _ := modify (set_hass_data (Some registry')) in
  let* result := lift outcome in
  let* h := get in
  let* _ := modify (add_forwarded (config_id (hass_entry h), PLATFORMS)) in
  ret result.

(** [hass.data[DOMAIN][entry.entry_id][idx]["api"]]. *)
Definition registered_api (id : string) (idx : nat) : M Hass LandroidAPI :=
  let* registry := domain_data in
  let* a := lift (py_getitem registry id) in
  match slots a !! idx with
  | None => raise (KeyError (py_str (Z.of_nat idx)))
  | Some s =>
      match slot_api s with
      | None => raise (KeyError "api")
      | Some api => ret api
      end
  end.

(** [hass.data[DOMAIN].pop(entry.entry_id)]. *)
Definition pop_entry (id : string) : M Hass unit :=
  let* registry := domain_data in
  match registry !! id with
  | None => raise (KeyError id)
  | Some _ => modify (set_hass_data (Some (delete id registry)))
  end.

(** [async_unload_entry]; [unload_ok] is the host's answer to
    [async_unload_platforms], [listeners] gives the unsubscribe callbacks an
    adapter holds.  The entry is popped inside the loop over the devices. *)
Definition async_unload_entry (unload_ok : bool) (listeners : LandroidAPI → list nat)
  : M Hass bool :=
  if unload_ok then
    let* h := get in
    let id := config_id (hass_entry h) in
    let* registry := domain_data in
    let* a := lift (py_getitem registry id) in
    let* _ := for_each (seq 0 (Z.to_nat (count a)))
                (λ idx,
                   let* api := registered_api id idx in
                   let* _ := for_each (listeners api)
                               (λ unsub, modify (add_unsubscribed unsub)) in
                   pop_entry id) in
    ret true
  else ret false.

Definition async_reload_entry (unload_ok : bool) (listeners : LandroidAPI → list nat)
    (cloud : Cloud) : M Hass unit :=
  let* _ := async_unload_entry unload_ok listeners in
  let* _ := async_setup_entry cloud in
  ret tt.

End EntryPoints.

(** * What the specification says

    The notions the specification uses, written from its words, to state
    the properties below against the model. *)

Section Specification.
Context `{Const, HomeAssistant, Builtins, AttributeMap, States, Utils}.

(** The precedence of the operating state: offline, then error, then rain
    delay, then the status table with its fallback. *)
Definition spec_operating_state (master : WorxCloud) : string :=
  if online master then
    match error master with
    | Some e =>
        if bool_decide (0 < e ∧ e ≠ 5) then STATE_ERROR
        else if bool_decide (e = 5) then STATE_RAINDELAY
        else default STATE_INITIALIZING (status master ≫= (STATE_MAP !!.))
    | None => default STATE_INITIALIZING (status master ≫= (STATE_MAP !!.))
    end
  else STATE_OFFLINE.

(** The attribute values a cycle works on once the description [desc] has
    been found, and the condition under which [len] of the zone
    probabilities can be taken. *)
Definition merged_attributes (w : World) (desc : string)
  : gmap string pyval :=
  <["error" := PStr desc]> (async_update_collect (device w)) ∪ _attributes (self w).

Definition zone_probability_sized (attrs : gmap string pyval) : Prop :=
  ∀ zp, attrs !! "zone_probability" = Some zp → is_Ok (py_len zp).

(** The world a completed update cycle leaves behind. *)
Definition updated (w : World) (desc : string) : World :=
  with_self
    (λ e, set_battery_level (battery_percent (device w))
            (set_serialnumber (serial (device w))
               (set_attr_state (spec_operating_state (device w))
                  (set_available (online (device w))
                     (dict_update
                        (<["error" := PStr desc]> (async_update_collect (device w)))
                        (set_icon (Some ATTR_MAP_icon) e))))))
    w.

(** C7, as the specification words it: an attribute whose table entry has
    an absent or [None] source property keeps its value, and an attribute
    that is not a mapped name of the table is never touched. *)
Definition sticky_attributes_claim (w w' : World) : Prop :=
  (∀ prop attr, (prop, attr) ∈ ATTR_MAP_state →
     (properties (device w) !! prop = None
      ∨ properties (device w) !! prop = Some PNone) →
     _attributes (self w') !! attr = _attributes (self w) !! attr)
  ∧ (∀ a, a ∉ ATTR_MAP_state.*2 →
       _attributes (self w') !! a = _attributes (self w) !! a).

(** Zone options for a four-slot zone array: ["0"] followed by [str(i)]
    for the indices 1, 2, 3 whose slot is not zero. *)
Definition spec_zone_options (zones : list Z) : list string :=
  "0" :: ((λ i : nat, py_str (Z.of_nat i))
            <$> filter (λ i : nat, zones !! i ≠ Some 0) [1; 2; 3]%nat).

(** The handle's [home()] was dispatched between [w] and [w']. *)
Definition home_dispatched (w w' : World) : Prop :=
  calls (device w') = calls (device w) ++ [CallHome].

(** A weekday for which the request has a start time but no end time. *)
Definition missing_end (data : gmap string pyval) (d : Day) : Prop :=
  is_Some (data !! day_start d) ∧ data !! day_end d = None.

Definition no_end_time (d : Day) : exn :=
  HomeAssistantError ("No end time specified for " +:+ day_clear d).

(** The triple the device reports for a day. *)
Definition device_triple (entry : ScheduleEntry) : pyval :=
  PList [PStr (entry_start entry); PInt (entry_duration entry);
         PInt (Z.b2z (entry_boundary entry))].

(** A weekday that can be encoded: either the request gives start and end
    and [parseday] accepts them, or the request leaves the day out and the
    device reports it for the schedule type. *)
Definition day_ready (master : WorxCloud) (st : string) (data : gmap string pyval)
    (x : Day) : Prop :=
  (is_Some (data !! day_start x) ∧ is_Some (data !! day_end x)
   ∧ is_Ok (parseday x data))
  ∨ (data !! day_start x = None
     ∧ ∃ of_type, schedules master !! st = Some of_type
                  ∧ is_Some (of_type !! day_clear x)).

(** What the loop appends for a weekday when it does not raise. *)
Definition day_item (master : WorxCloud) (st : string) (data : gmap string pyval)
    (x : Day) (item : pyval) : Prop :=
  (is_Some (data !! day_start x) ∧ is_Some (data !! day_end x)
   ∧ parseday x data = Ok item)
  ∨ (data !! day_start x = None
     ∧ ∃ of_type entry, schedules master !! st = Some of_type
                        ∧ of_type !! day_clear x = Some entry
                        ∧ item = device_triple entry).

(** The device reports both schedules, each with an entry for every
    weekday, and [pass_thru] accepts them. *)
Definition schedules_complete (master : WorxCloud) : Prop :=
  ∀ t, t = "primary" ∨ t = "secondary" →
    ∃ of_type, schedules master !! t = Some of_type
               ∧ is_Ok (pass_thru of_type)
               ∧ ∀ x, x ∈ SCHEDULE_TO_DAY → is_Some (of_type !! day_clear x).

(** [parseday] accepts every weekday the request gives both times for. *)
Definition days_parse (data : gmap string pyval) : Prop :=
  ∀ x, x ∈ SCHEDULE_TO_DAY →
    is_Some (data !! day_start x) → is_Some (data !! day_end x) →
    is_Ok (parseday x data).

(** The one payload sent between [w] and [w'] is the document [doc] under
    the top-level key "sc". *)
Definition sent_document (w w' : World) (doc : list (string * pyval)) : Prop :=
  w' = dispatch (CallSend (PDict [("sc", PDict doc)])) w.

(** The index at which the description table is read: 0 when the error
    code is absent or zero, the code itself otherwise. *)
Definition spec_error_index (code : option Z) : Z :=
  match code with
  | Some e => if bool_decide (e = 0) then 0 else e
  | None => 0
  end.

(** Modelled from the spec: [utils.pass_thru], which is not among the
    sources.  The schedule of one type is copied through unchanged: the
    result is the list of its weekdays' triples, in weekday order, each
    triple being the one the device reports for the day (start, duration,
    boundary flag as an integer).  A weekday the device does not report
    raises [KeyError]. *)
Definition spec_pass_thru (of_type : gmap string ScheduleEntry) : outcome pyval :=
  obind
    (foldr
       (λ x rest,
          obind (py_subscript of_type (PStr (day_clear x)))
            (λ entry, obind rest (λ items, Ok (device_triple entry :: items))))
       (Ok []) SCHEDULE_TO_DAY)
    (λ items, Ok (PList items)).

(** The value [v] is the schedule [of_type] copied through unchanged: the
    list of the triples the device reports, one per weekday, in weekday
    order. *)
Definition copied_through (of_type : gmap string ScheduleEntry) (v : pyval) : Prop :=
  ∃ items,
    v = PList items
    ∧ Forall2 (λ x item, ∃ entry, of_type !! day_clear x = Some entry
                                  ∧ item = device_triple entry)
        SCHEDULE_TO_DAY items.

End Specification.


(** ** Notions for the further properties *)

(** Options a zone selector may offer: some of "0", "1", "2", "3", in that
    order. *)
Definition valid_options (options : list string) : Prop :=
  sublist options ["0"; "1"; "2"; "3"].

(** A computation keeps a relation between the state it starts in and the
    state it ends in, whatever its outcome. *)
Definition preserves {St A} (R : St → St → Prop) (c : M St A) : Prop :=
  ∀ s r s', c s = (r, s') → R s s'.

(** Two registries agree on every account but [id]. *)
Definition same_elsewhere (id : string) (registry registry' : gmap string Account)
  : Prop :=
  ∀ id', id' ≠ id → registry' !! id' = registry !! id'.

Section SetupSpecification.
Context `{HomeAssistant, Builtins}.

(** The handle of device [i] of an account once it is connected. *)
Definition connected_handle (cloud : Cloud) (entry : ConfigEntry) (i : nat)
    (callback : bool) : Handle :=
  {| handle_email := data_email entry;
     handle_password := data_password entry;
     handle_type := str_lower (default "worx" (data_type entry));
     handle_initialized := true;
     handle_connected := Some i;
     handle_name := device_name cloud i;
     handle_callback := callback |}.

(** What a finished set-up registers for device [i]: the connected handle
    with its callback set, and the adapter around it. *)
Definition registered_slot (cloud : Cloud) (entry : ConfigEntry) (email : string)
    (i : nat) : Slot :=
  {| slot_device := Some (connected_handle cloud entry i true);
     slot_api :=
       Some {| api_entry_id := entry_id entry;
               api_index := i;
               api_device := connected_handle cloud entry i true;
               api_name := util_slugify (device_name cloud i);
               api_friendly_name := device_name cloud i;
               api_config := (str_lower email, data_password entry,
                              str_lower (default "worx" (data_type entry))) |} |}.

(** What is left for a device whose [connect] raised: the initialized
    handle, and no adapter. *)
Definition unconnected_slot (cloud : Cloud) (entry : ConfigEntry) (i : nat) : Slot :=
  {| slot_device :=
       Some {| handle_email := data_email entry;
               handle_password := data_password entry;
               handle_type := str_lower (default "worx" (data_type entry));
               handle_initialized := true;
               handle_connected := None;
               handle_name := device_name cloud i;
               handle_callback := false |};
     slot_api := None |}.

(** The account item a set-up starts from. *)
Definition fresh_account (entry : ConfigEntry) (num_dev : Z) : Account :=
  {| count := num_dev;
     conf_email := data_email entry;
     conf_password := data_password entry;
     conf_type := default "worx" (data_type entry);
     slots := ∅ |}.

End SetupSpecification.

(** The host once [hass.data] has an item for the integration. *)
Definition after_setdefault (h : Hass) : Hass :=
  set_hass_data (Some (default ∅ (hass_data h))) h.

(** The host once an account has been popped from [registry] and the
    callbacks [us] have been called. *)
Definition unloaded (h : Hass) (registry : gmap string Account) (id : string)
    (us : list nat) : Hass :=
  {| hass_data := Some (delete id registry);
     hass_entry := hass_entry h;
     hass_flows := hass_flows h;
     hass_forwarded := hass_forwarded h;
     hass_unsubscribed := hass_unsubscribed h ++ us |}.

(** The host once import flows have been started for [confs]. *)
Definition imported (h : Hass) (confs : list (gmap string pyval)) : Hass :=
  {| hass_data := Some (default ∅ (hass_data h));
     hass_entry := hass_entry h;
     hass_flows := hass_flows h ++ confs;
     hass_forwarded := hass_forwarded h;
     hass_unsubscribed := hass_unsubscribed h |}.

(** The world after the zone options have been recomputed. *)
Definition zone_updated (w : World) : World :=
  match zone (device w) with
  | Ok zones => if Nat.eqb (length zones) 4
                then with_self (set_attr_options (spec_zone_options zones)) w
                else w
  | Raise _ => w
  end.

(** The world after [update_selected_zone]. *)
Definition zone_selected (s : Selector) : World :=
  with_self
    (set_attr_current_option (py_str <$> shared_options s !! "current_zone"))
    (if Nat.ltb 1 (length (_attr_options (self (selector_world s))))
     then zone_updated (selector_world s)
     else selector_world s).

(** * Sample data *)

Definition sample_device (zs : outcome (list Z)) : WorxCloud :=
  {| online := true; error := None; status := Some 1; serial := PStr "SN1";
     battery_percent := PInt 80; zone := zs; schedules := ∅; properties := ∅;
     calls := [] |}.

Definition sample_entity (opts : list string) : Entity :=
  {| _attributes := ∅; _available := false; _icon := None;
     _attr_state := "initializing"; _serialnumber := PNone;
     _battery_level := PNone; _attr_options := opts;
     _attr_current_option := None |}.

Definition sample_week : list Day :=
  (λ name, {| day_start := name +:+ "_start"; day_end := name +:+ "_end";
              day_clear := name |})
    <$> ["monday"; "tuesday"; "wednesday"; "thursday"; "friday"; "saturday"; "sunday"].

Definition sample_const : Const :=
  {| STATE_INITIALIZING := "initializing";
     STATE_OFFLINE := "offline";
     STATE_RAINDELAY := "rain_delay";
     STATE_MOWING := "mowing";
     STATE_MAP := {[ 0 := "idle"; 1 := "docked"; 7 := "mowing" ]};
     SCHEDULE_TYPE_MAP := {[ "primary" := "d"; "secondary" := "dd" ]};
     SCHEDULE_TO_DAY := sample_week |}.

Definition sample_host : HomeAssistant :=
  {| STATE_DOCKED := "docked"; STATE_ERROR := "error";
     STATE_RETURNING := "returning"; util_slugify := λ s, s |}.

Definition sample_builtins : Builtins := {| str_lower := λ s, s |}.

Definition sample_attribute_map : AttributeMap :=
  {| ATTR_MAP_state := [("battery_percent", "battery"); ("blade_time", "blades");
                        ("zone_probability", "zone_probability")];
     ATTR_MAP_icon := "mdi:robot-mower" |}.

(** A table that does map a property to the name "error". *)
Definition sample_attribute_map_error : AttributeMap :=
  {| ATTR_MAP_state := [("battery_percent", "battery"); ("error", "error")];
     ATTR_MAP_icon := "mdi:robot-mower" |}.

Definition sample_states : States :=
  {| ERROR_TO_DESCRIPTION :=
       {[ 0 := "No error"; 1 := "Trapped"; 2 := "Lifted"; 5 := "Rain delay" ]} |}.

Definition sample_entry (start : string) (boundary : bool) : ScheduleEntry :=
  {| entry_start := start; entry_end := "12:00"; entry_duration := 90;
     entry_boundary := boundary |}.

Definition sample_schedule (start : string) (boundary : bool)
  : gmap string ScheduleEntry :=
  list_to_map ((λ x, (day_clear x, sample_entry start boundary)) <$> sample_week).

Definition sample_utils : Utils :=
  {| pass_thru := λ of_type,
       Ok (PList (omap (λ x, (λ entry,
                                PList [PStr (entry_start entry);
                                       PInt (entry_duration entry);
                                       PInt (Z.b2z (entry_boundary entry))])
                             <$> of_type !! day_clear x) sample_week));
     parseday := λ x data,
       match data !! day_start x with
       | Some start => Ok (PList [start; PInt 60; PInt 0])
       | None => Raise (KeyError (day_start x))
       end |}.

(** A mower that is online with error code 2, ten zone probabilities, a
    battery reading and no blade reading, both schedules reported. *)
Definition sample_mower : WorxCloud :=
  {| online := true; error := Some 2; status := Some 7; serial := PStr "SN1";
     battery_percent := PInt 80; zone := Ok [0; 5; 0; 7];
     schedules := {[ "primary" := sample_schedule "10:30" true;
                     "secondary" := sample_schedule "16:00" false ]};
     properties := {[ "battery_percent" := PInt 80; "blade_time" := PNone;
                      "zone_probability" := PList (replicate 10 (PInt 0)) ]};
     calls := [] |}.

Definition sample_world : World :=
  {| self := {| _attributes := {[ "blades" := PInt 12; "custom" := PStr "kept" ]};
                _available := false; _icon := None;
                _attr_state := "docked"; _serialnumber := PNone;
                _battery_level := PNone; _attr_options := ["0"];
                _attr_current_option := None |};
     device := sample_mower |}.

(** A mower that has not reported an error code yet. *)
Definition sample_fresh_world : World :=
  {| self := {| _attributes := ∅; _available := false; _icon := None;
                _attr_state := "initializing"; _serialnumber := PNone;
                _battery_level := PNone; _attr_options := [];
                _attr_current_option := None |};
     device := {| online := true; error := None; status := Some 1;
                  serial := PStr "SN1"; battery_percent := PInt 80;
                  zone := Ok [0; 5; 0; 7]; schedules := ∅;
                  properties := {[ "battery_percent" := PInt 80; "error" := PNone ]};
                  calls := [] |} |}.

(** A primary edit of Monday alone. *)
Definition sample_edit : gmap string pyval :=
  {[ "type" := PStr "primary"; "monday_start" := PStr "08:00";
     "monday_end" := PStr "09:00" ]}.

(** A secondary edit where Tuesday has a start and no end. *)
Definition sample_bad_edit : gmap string pyval :=
  {[ "type" := PStr "secondary"; "tuesday_start" := PStr "08:00" ]}.

Definition sample_cloud : Cloud :=
  {| initialize_result := Ok (PBool true);
     enumerate_result := Raise (CloudError "No devices");
     device_initialize := λ _, Ok (PBool true);
     device_connect := λ _, Ok tt;
     device_name := λ _, "Mower" |}.

Definition sample_config_entry : ConfigEntry :=
  {| entry_id := "entry1"; data_email := Some "me@example.org";
     data_password := Some "secret"; data_type := None |}.

(** ** Sample data for the further properties *)

Definition sample_conf_keys : ConfKeys :=
  {| CONF_EMAIL := "email"; CONF_PASSWORD := "password"; CONF_TYPE := "type" |}.

Definition sample_integration : Integration :=
  {| DOMAIN := "landroid_cloud"; PLATFORMS := ["vacuum"; "button"; "select"] |}.

Definition with_device (d : WorxCloud) (w : World) : World :=
  {| self := self w; device := d |}.

(** The sample mower with an error code the description table lacks. *)
Definition sample_unlisted_world : World :=
  with_device
    {| online := true; error := Some 9; status := Some 7; serial := PStr "SN1";
       battery_percent := PInt 80; zone := Ok [0; 5; 0; 7]; schedules := ∅;
       properties := {[ "battery_percent" := PInt 80 ]}; calls := [] |}
    sample_world.

(** The sample mower reporting a number where the zone probabilities
    should be. *)
Definition sample_unsized_world : World :=
  with_device
    {| online := true; error := Some 2; status := Some 7; serial := PStr "SN1";
       battery_percent := PInt 80; zone := Ok [0; 5; 0; 7]; schedules := ∅;
       properties := {[ "battery_percent" := PInt 80;
                        "zone_probability" := PInt 3 ]};
       calls := [] |}
    sample_world.

(** The sample mower reporting a primary schedule only. *)
Definition sample_primary_only_world : World :=
  with_device
    {| online := true; error := None; status := Some 1; serial := PStr "SN1";
       battery_percent := PInt 80; zone := Ok [0; 5; 0; 7];
       schedules := {[ "primary" := sample_schedule "10:30" true ]};
       properties := ∅; calls := [] |}
    sample_world.

(** A secondary edit of Monday alone. *)
Definition sample_secondary_edit : gmap string pyval :=
  {[ "type" := PStr "secondary"; "monday_start" := PStr "08:00";
     "monday_end" := PStr "09:00" ]}.

(** A request without a type. *)
Definition sample_untyped_edit : gmap string pyval :=
  {[ "monday_start" := PStr "08:00"; "monday_end" := PStr "09:00" ]}.

(** An account with [n] devices, where [connect] raises for the devices
    from [bad] on. *)
Definition sample_cloud_devices (n : Z) (bad : nat) : Cloud :=
  {| initialize_result := Ok (PBool true);
     enumerate_result := Ok n;
     device_initialize := λ _, Ok (PBool true);
     device_connect := λ i, if Nat.ltb i bad then Ok tt
                            else Raise (CloudError "No connection");
     device_name := λ i, "Mower " +:+ py_str (Z.of_nat i) |}.

Definition sample_other_account : Account :=
  {| count := 0; conf_email := Some "you@example.org"; conf_password := None;
     conf_type := "kress"; slots := ∅ |}.

Definition sample_registry : gmap string Account :=
  {[ "entry0" := sample_other_account ]}.

Definition sample_api (i : nat) : LandroidAPI :=
  {| api_entry_id := "entry1"; api_index := i;
     api_device := {| handle_email := Some "me@example.org";
                      handle_password := Some "secret"; handle_type := "worx";
                      handle_initialized := true; handle_connected := Some i;
                      handle_name := "Mower"; handle_callback := true |};
     api_name := "mower"; api_friendly_name := "Mower";
     api_config := ("me@example.org", Some "secret", "worx") |}.

(** An account registered with a count of [n] and adapters for the
    devices 0 and 1. *)
Definition sample_account (n : Z) : Account :=
  {| count := n; conf_email := Some "me@example.org";
     conf_password := Some "secret"; conf_type := "worx";
     slots := {[ 0%nat := {| slot_device := Some (api_device (sample_api 0));
                             slot_api := Some (sample_api 0) |};
                 1%nat := {| slot_device := Some (api_device (sample_api 1));
                             slot_api := Some (sample_api 1) |} ]} |}.

(** The callbacks an adapter holds: two for each device. *)
Definition sample_listeners (api : LandroidAPI) : list nat :=
  [(2 * api_index api)%nat; (2 * api_index api + 1)%nat].

Definition sample_host_entry (unique_id : option string)
    (data : gmap string string) : Entry :=
  {| config_id := "entry1"; config_unique_id := unique_id; config_data := data |}.

Definition sample_hass (registry : option (gmap string Account)) (entry : Entry)
  : Hass :=
  {| hass_data := registry; hass_entry := entry; hass_flows := [];
     hass_forwarded := []; hass_unsubscribed := [] |}.

Definition sample_full_data : gmap string string :=
  {[ "email" := "me@example.org"; "password" := "secret"; "type" := "worx" ]}.

Definition sample_data_without_type : gmap string string :=
  {[ "email" := "me@example.org"; "password" := "secret" ]}.

Definition sample_conf (email : string) : gmap string pyval :=
  {[ "email" := PStr email; "password" := PStr "secret" ]}.

Definition sample_conf_without_email : gmap string pyval :=
  {[ "password" := PStr "secret" ]}.

(** ** Sample data for the counterexamples *)

(** The sample mower offline, with a listed error code. *)
Definition sample_offline_world : World :=
  with_device
    {| online := false; error := Some 2; status := Some 7; serial := PStr "SN1";
       battery_percent := PInt 80; zone := Ok [0; 5; 0; 7]; schedules := ∅;
       properties := {[ "battery_percent" := PInt 80 ]}; calls := [] |}
    sample_world.

(** The sample mower offline, with an error code the description table
    lacks. *)
Definition sample_offline_unlisted_world : World :=
  with_device
    {| online := false; error := Some 9; status := Some 7; serial := PStr "SN1";
       battery_percent := PInt 80; zone := Ok [0; 5; 0; 7]; schedules := ∅;
       properties := {[ "battery_percent" := PInt 80 ]}; calls := [] |}
    sample_world.

(** The sample mower offline, reporting a number where the zone
    probabilities should be. *)
Definition sample_offline_unsized_world : World :=
  with_device
    {| online := false; error := Some 2; status := Some 7; serial := PStr "SN1";
       battery_percent := PInt 80; zone := Ok [0; 5; 0; 7]; schedules := ∅;
       properties := {[ "battery_percent" := PInt 80;
                        "zone_probability" := PInt 3 ]};
       calls := [] |}
    sample_world.

(** A mower that reports the error code 0. *)
Definition sample_zero_world : World :=
  with_device
    {| online := true; error := Some 0; status := Some 1; serial := PStr "SN1";
       battery_percent := PInt 80; zone := Ok [0; 5; 0; 7]; schedules := ∅;
       properties := {[ "battery_percent" := PInt 80 ]}; calls := [] |}
    sample_fresh_world.

(** A table with two properties mapped to the same name. *)
Definition sample_attribute_map_shared : AttributeMap :=
  {| ATTR_MAP_state := [("battery_percent", "blades"); ("blade_time", "blades")];
     ATTR_MAP_icon := "mdi:robot-mower" |}.

(** [pass_thru] as the specification describes it, beside the sample
    [parseday]. *)
Definition sample_spec_utils : Utils :=
  {| pass_thru := @spec_pass_thru sample_const;
     parseday := @parseday sample_utils |}.

(** A primary edit where Tuesday has a start and no end. *)
Definition sample_primary_bad_edit : gmap string pyval :=
  {[ "type" := PStr "primary"; "tuesday_start" := PStr "08:00" ]}.

Definition sample_day (name : string) : Day :=
  {| day_start := name +:+ "_start"; day_end := name +:+ "_end";
     day_clear := name |}.

(** * Properties *)

Section Properties.
Context `{Const, HomeAssistant, Builtins, AttributeMap, States, Utils}.

(** ** Zone selector *)

(** C5. For a raw zone array of length exactly 4 the recomputed options
    are ["0"] followed by [str(i)] for each index i of 1, 2, 3 whose slot
    is not zero, in increasing order; the call returns normally and changes
    nothing but the options. *)
Theorem update_zone_options (w : World) (zones : list Z) :
  zone (device w) = Ok zones →
  length zones = 4%nat →
  _update_zone w = (Ok tt, with_self (set_attr_options (spec_zone_options zones)) w).
Proof.
  intros Hz Hlen.
  do 5 (destruct zones as [|? zones]; try discriminate Hlen).
  unfold _update_zone, bind, get. rewrite Hz. simpl.
  unfold _update_zone_body, bind, lift, modify, ret, spec_zone_options. simpl.
  rewrite !filter_cons, filter_nil. simpl.
  repeat case_bool_decide; repeat case_decide; simpl; try reflexivity; congruence.
Qed.

(** C6. When reading the zone array raises, or the array has a length
    other than 4, the call returns normally and leaves the entity, its
    options included, as it was. *)
Theorem update_zone_ignored (w : World) :
  (∃ e, zone (device w) = Raise e)
  ∨ (∃ zones, zone (device w) = Ok zones ∧ length zones ≠ 4%nat) →
  _update_zone w = (Ok tt, w).
Proof.
  intros [[e He] | (zones & Hz & Hlen)];
    unfold _update_zone, bind, get; simpl.
  - rewrite He. reflexivity.
  - rewrite Hz. apply Nat.eqb_neq in Hlen. rewrite Hlen. reflexivity.
Qed.

(** ** Mower commands *)

(** C10. Return-to-base, and stop, which delegates to it, return normally;
    [home()] is dispatched exactly when the entity's state is neither
    docked nor returning, and in the other case nothing changes at all.
    The entity's own attributes are left alone in both cases. *)
Theorem return_to_base_dispatch (w : World) :
  ∃ w', async_return_to_base w = (Ok tt, w')
        ∧ async_stop w = (Ok tt, w')
        ∧ self w' = self w
        ∧ (home_dispatched w w'
           ↔ state (self w) ≠ STATE_DOCKED ∧ state (self w) ≠ STATE_RETURNING)
        ∧ (state (self w) = STATE_DOCKED ∨ state (self w) = STATE_RETURNING → w' = w).
Proof.
  unfold async_stop, async_return_to_base, bind, get, home_dispatched.
  case_bool_decide as Hin; simpl.
  - exists (dispatch CallHome w).
    split; [reflexivity|]. split; [reflexivity|]. split; [reflexivity|].
    split; [split|].
    + intros _. split; intros Heq; apply Hin; rewrite Heq.
      * apply elem_of_cons. left. reflexivity.
      * apply elem_of_cons. right. apply list_elem_of_singleton. reflexivity.
    + intros _. reflexivity.
    + intros [Heq | Heq]; exfalso; apply Hin; rewrite Heq.
      * apply elem_of_cons. left. reflexivity.
      * apply elem_of_cons. right. apply list_elem_of_singleton. reflexivity.
  - exists w.
    split; [reflexivity|]. split; [reflexivity|]. split; [reflexivity|].
    split; [split|].
    + intros Heq. apply (f_equal length) in Heq. rewrite length_app in Heq.
      simpl in Heq. lia.
    + intros [Hd Hr]. exfalso.
      apply elem_of_cons in Hin as [Hin | Hin]; [contradiction|].
      apply list_elem_of_singleton in Hin. contradiction.
    + intros _. reflexivity.
Qed.

(** ** State synchroniser *)

Lemma error_or_0_default (master : WorxCloud) :
  error_or_0 master = default 0 (error master).
Proof.
  unfold error_or_0. destruct (error master) as [e|]; simpl; [|reflexivity].
  destruct (Z.eqb_spec e 0); simpl; congruence.
Qed.

(** The derivation of the local [state] never raises and follows the
    precedence of the specification. *)
Lemma async_update_state_spec (master : WorxCloud) (w : World) :
  async_update_state master w = (Ok (spec_operating_state master), w).
Proof.
  unfold async_update_state, spec_operating_state, ret.
  destruct (online master); simpl; [|reflexivity].
  destruct (error master) as [e|]; simpl.
  - destruct (Z.ltb_spec 0 e); simpl.
    + destruct (Z.eqb_spec e 5); simpl.
      * subst e. rewrite bool_decide_eq_false_2 by lia.
        rewrite bool_decide_eq_true_2 by lia. reflexivity.
      * rewrite bool_decide_eq_true_2 by lia. reflexivity.
    + rewrite bool_decide_eq_false_2 by lia.
      rewrite bool_decide_eq_false_2 by lia.
      destruct (status master) as [z|]; simpl; [|reflexivity].
      destruct (STATE_MAP !! z); reflexivity.
  - destruct (status master) as [z|]; simpl; [|reflexivity].
    destruct (STATE_MAP !! z); reflexivity.
Qed.

Lemma async_update_completes (w : World) (desc : string) :
  ERROR_TO_DESCRIPTION !! default 0 (error (device w)) = Some desc →
  zone_probability_sized (merged_attributes w desc) →
  async_update w = (Ok tt, updated w desc).
Proof.
  intros Hdesc Hzp.
  unfold async_update, bind, get, modify, lift. simpl.
  rewrite error_or_0_default, Hdesc. simpl.
  rewrite async_update_state_spec. simpl.
  fold (merged_attributes w desc).
  destruct (merged_attributes w desc !! "zone_probability") as [zp|] eqn:Hlook.
  - destruct (Hzp zp Hlook) as [n Hn]. rewrite Hn.
    destruct (Nat.eqb n 10); reflexivity.
  - reflexivity.
Qed.

(** Whatever the outcome of a cycle, the attribute shadow is either as it
    was (the description lookup raised) or the merge of the cycle's data. *)
Lemma async_update_attributes (w w' : World) (r : outcome unit) :
  async_update w = (r, w') →
  (ERROR_TO_DESCRIPTION !! default 0 (error (device w)) = None
   ∧ _attributes (self w') = _attributes (self w))
  ∨ (∃ desc, ERROR_TO_DESCRIPTION !! default 0 (error (device w)) = Some desc
             ∧ _attributes (self w') = merged_attributes w desc).
Proof.
  unfold async_update, bind, get, modify, lift. simpl.
  rewrite error_or_0_default.
  destruct (ERROR_TO_DESCRIPTION !! default 0 (error (device w))) as [desc|] eqn:Hdesc;
    simpl.
  - rewrite async_update_state_spec. simpl.
    fold (merged_attributes w desc).
    intros Hrun. right. exists desc. split; [reflexivity|].
    destruct (merged_attributes w desc !! "zone_probability") as [zp|].
    + destruct (py_len zp) as [n|e]; simpl in Hrun.
      * destruct (Nat.eqb n 10); inversion Hrun; reflexivity.
      * inversion Hrun; reflexivity.
    + inversion Hrun; reflexivity.
  - intros Hrun. left. split; [reflexivity|]. inversion Hrun; reflexivity.
Qed.

(** A cycle that does not complete raised at the description lookup or at
    [len] of the zone probabilities, in both cases before the state is
    stored. *)
Lemma async_update_outcome (w : World) :
  (∃ desc, ERROR_TO_DESCRIPTION !! default 0 (error (device w)) = Some desc
           ∧ zone_probability_sized (merged_attributes w desc)
           ∧ async_update w = (Ok tt, updated w desc))
  ∨ (∃ e w', async_update w = (Raise e, w')
             ∧ _attr_state (self w') = _attr_state (self w)
             ∧ ¬ ∃ desc, ERROR_TO_DESCRIPTION !! default 0 (error (device w)) = Some desc
                         ∧ zone_probability_sized (merged_attributes w desc)).
Proof.
  destruct (ERROR_TO_DESCRIPTION !! default 0 (error (device w))) as [desc|] eqn:Hdesc.
  - destruct (merged_attributes w desc !! "zone_probability") as [zp|] eqn:Hzp.
    + destruct (py_len zp) as [n|e] eqn:Hlen.
      * left. exists desc. split; [reflexivity|].
        assert (Hsized : zone_probability_sized (merged_attributes w desc)).
        { intros zp' Hzp'. rewrite Hzp in Hzp'. inversion Hzp'; subst zp'.
          exists n. exact Hlen. }
        split; [exact Hsized | exact (async_update_completes w desc Hdesc Hsized)].
      * right.
        unfold async_update, bind, get, modify, lift. simpl.
        rewrite error_or_0_default, Hdesc. simpl.
        rewrite async_update_state_spec. simpl.
        fold (merged_attributes w desc). rewrite Hzp, Hlen.
        eexists _, _. split; [reflexivity|]. split; [reflexivity|].
        intros (desc' & Hdesc' & Hsized). inversion Hdesc'; subst desc'.
        destruct (Hsized zp Hzp) as [n Hn]. rewrite Hlen in Hn. discriminate.
    + left. exists desc. split; [reflexivity|].
      assert (Hsized : zone_probability_sized (merged_attributes w desc)).
      { intros zp' Hzp'. rewrite Hzp in Hzp'. discriminate. }
      split; [exact Hsized | exact (async_update_completes w desc Hdesc Hsized)].
  - right.
    unfold async_update, bind, get, modify, lift. simpl.
    rewrite error_or_0_default, Hdesc. simpl.
    eexists _, _. split; [reflexivity|]. split; [reflexivity|].
    intros (desc' & Hdesc' & _). discriminate.
Qed.

(** C1, amended. The derivation of the state never raises and follows the
    precedence: offline when the online flag is false, whatever error and
    status are; else error when the error code is present, positive and
    not 5; else rain delay when it is 5; otherwise the status table's entry
    for the raw status code, and initializing when the code is not in the
    table.  The cycle stores that state exactly when it completes, which
    it does exactly when the error code (0 when absent) has a description
    and the zone probabilities, if the merged attributes have any, have a
    length; a cycle that does not complete raises and leaves the stored
    state as it was. *)
Theorem async_update_operating_state (w : World) :
  async_update_state (device w) w = (Ok (spec_operating_state (device w)), w)
  ∧ ∃ r w',
      async_update w = (r, w')
      ∧ (r = Ok tt
         ↔ ∃ desc, ERROR_TO_DESCRIPTION !! default 0 (error (device w)) = Some desc
                   ∧ zone_probability_sized (merged_attributes w desc))
      ∧ (r = Ok tt → _attr_state (self w') = spec_operating_state (device w))
      ∧ (r ≠ Ok tt → (∃ e, r = Raise e)
                      ∧ _attr_state (self w') = _attr_state (self w)).
Proof.
  split; [apply async_update_state_spec|].
  destruct (async_update_outcome w)
    as [(desc & Hdesc & Hsized & Hrun) | (e & w' & Hrun & Hstate & Hnot)].
  - exists (Ok tt), (updated w desc). split; [exact Hrun|]. split; [|split].
    + split; [intros _; exists desc; split; assumption | reflexivity].
    + intros _. reflexivity.
    + intros Hr. contradiction.
  - exists (Raise e), w'. split; [exact Hrun|]. split; [|split].
    + split; [discriminate | intros Hsome; contradiction].
    + discriminate.
    + intros _. split; [exists e; reflexivity | exact Hstate].
Qed.

Lemma spec_error_index_default (code : option Z) :
  spec_error_index code = default 0 code.
Proof.
  destruct code as [e|]; simpl; [|reflexivity].
  case_bool_decide; congruence.
Qed.

(** C8. In every update cycle the error attribute is the entry of the
    description table at the error code, where an absent code and a zero
    code both use index 0: when that entry exists the cycle leaves it in
    the error attribute, whatever happens afterwards, and completes if the
    zone probabilities have a length; when the table has no entry there,
    nothing stands in for it: the cycle raises [KeyError] for the index
    and leaves the attributes as they were. *)
Theorem async_update_error_description (w : World) :
  ∃ r w',
    async_update w = (r, w')
    ∧ (∀ desc,
         ERROR_TO_DESCRIPTION !! spec_error_index (error (device w)) = Some desc →
         _attributes (self w') !! "error" = Some (PStr desc)
         ∧ (zone_probability_sized (merged_attributes w desc) → r = Ok tt))
    ∧ (ERROR_TO_DESCRIPTION !! spec_error_index (error (device w)) = None →
       r = Raise (KeyError (py_str (spec_error_index (error (device w)))))
       ∧ _attributes (self w') = _attributes (self w)).
Proof.
  rewrite spec_error_index_default.
  destruct (async_update w) as [r w'] eqn:Hrun. exists r, w'.
  split; [reflexivity|]. split.
  - intros desc Hdesc. split.
    + destruct (async_update_attributes w w' r Hrun)
        as [[Hnone _] | (desc' & Hdesc' & ->)].
      * rewrite Hdesc in Hnone. discriminate.
      * rewrite Hdesc in Hdesc'. inversion Hdesc'; subst desc'.
        unfold merged_attributes.
        apply lookup_union_Some_l. apply lookup_insert_eq.
    + intros Hsized. rewrite (async_update_completes w desc Hdesc Hsized) in Hrun.
      inversion Hrun. reflexivity.
  - intros Hnone. revert Hrun.
    unfold async_update, bind, get, modify, lift. simpl.
    rewrite error_or_0_default, Hnone. simpl.
    intros Hrun. inversion Hrun. split; reflexivity.
Qed.

(** The loop over the attribute table only ever stores the value of a
    property that is present and not [None], under the mapped name. *)
Lemma collect_lookup_Some (master : WorxCloud) (table : list (string * string))
    (acc : gmap string pyval) (a : string) (v : pyval) :
  fold_left
    (λ (data : gmap string pyval) '(prop, attr),
       match properties master !! prop with
       | Some prop_data =>
           match prop_data with
           | PNone => data
           | _ => <[attr := prop_data]> data
           end
       | None => data
       end) table acc !! a = Some v →
  acc !! a = Some v
  ∨ ∃ prop, (prop, a) ∈ table ∧ properties master !! prop = Some v ∧ v ≠ PNone.
Proof.
  revert acc. induction table as [|[prop attr] table IH]; intros acc; simpl.
  - intros Hacc. left. exact Hacc.
  - intros Hfold. apply IH in Hfold as [Hacc | (prop' & Hin & Hprop & Hv)].
    + destruct (properties master !! prop) as [prop_data|] eqn:Hprop;
        [|left; exact Hacc].
      destruct (decide (attr = a)) as [->|Hne].
      * destruct prop_data; try (left; exact Hacc);
          rewrite lookup_insert_eq in Hacc; inversion Hacc; subst v;
          right; exists prop; (split; [apply elem_of_cons; left; reflexivity|]);
          (split; [exact Hprop | discriminate]).
      * destruct prop_data; try (left; exact Hacc);
          rewrite lookup_insert_ne in Hacc by exact Hne; left; exact Hacc.
    + right. exists prop'. split; [apply elem_of_cons; right; exact Hin|].
      split; assumption.
Qed.

Lemma collect_lookup_keep (master : WorxCloud) (table : list (string * string))
    (acc : gmap string pyval) (a : string) :
  (∀ prop v, (prop, a) ∈ table → properties master !! prop = Some v → v = PNone) →
  fold_left
    (λ (data : gmap string pyval) '(prop, attr),
       match properties master !! prop with
       | Some prop_data =>
           match prop_data with
           | PNone => data
           | _ => <[attr := prop_data]> data
           end
       | None => data
       end) table acc !! a = acc !! a.
Proof.
  intros Habsent.
  destruct (fold_left _ table acc !! a) as [v|] eqn:Hfold.
  - apply collect_lookup_Some in Hfold as [Hacc | (prop & Hin & Hprop & Hv)].
    + symmetry. exact Hacc.
    + exfalso. apply Hv. exact (Habsent prop v Hin Hprop).
  - revert acc Hfold.
    induction table as [|[prop attr] table IH]; intros acc; simpl.
    + intros Hacc. symmetry. exact Hacc.
    + intros Hfold.
      assert (Hrest : ∀ prop v, (prop, a) ∈ table →
                properties master !! prop = Some v → v = PNone).
      { intros p v Hin. apply Habsent. apply elem_of_cons. right. exact Hin. }
      specialize (IH Hrest _ Hfold).
      destruct (properties master !! prop) as [prop_data|] eqn:Hprop; [|exact IH].
      destruct (decide (attr = a)) as [->|Hne].
      * assert (prop_data = PNone) as ->.
        { apply (Habsent prop); [apply elem_of_cons; left; reflexivity | exact Hprop]. }
        exact IH.
      * destruct prop_data; try exact IH;
          rewrite lookup_insert_ne in IH by exact Hne; exact IH.
Qed.

(** C7, amended. Whatever the outcome of an update cycle, an attribute
    other than "error" keeps its value unless some table entry with that
    mapped name has a source property that exists and is not [None], and
    when it changes it takes the value of such a property; so attributes
    that are not a mapped name, "error" apart, are never touched.  The
    attribute "error" is set to the description of the error code (0 when
    absent) whenever the description table has one, and when it has none
    the cycle leaves every attribute as it was. *)
Theorem async_update_sticky_attributes (w w' : World) (r : outcome unit) :
  async_update w = (r, w') →
  (∀ a, a ≠ "error" →
     ((∀ prop v, (prop, a) ∈ ATTR_MAP_state →
         properties (device w) !! prop = Some v → v = PNone) →
      _attributes (self w') !! a = _attributes (self w) !! a)
     ∧ (_attributes (self w') !! a ≠ _attributes (self w) !! a →
        ∃ prop v, (prop, a) ∈ ATTR_MAP_state
                  ∧ properties (device w) !! prop = Some v ∧ v ≠ PNone
                  ∧ _attributes (self w') !! a = Some v)
     ∧ (a ∉ ATTR_MAP_state.*2 →
        _attributes (self w') !! a = _attributes (self w) !! a))
  ∧ (∀ desc, ERROR_TO_DESCRIPTION !! default 0 (error (device w)) = Some desc →
       _attributes (self w') !! "error" = Some (PStr desc))
  ∧ (ERROR_TO_DESCRIPTION !! default 0 (error (device w)) = None →
     _attributes (self w') = _attributes (self w)).
Proof.
  intros Hrun. split; [|split].
  - intros a Ha.
    assert (Hkeep : (∀ prop v, (prop, a) ∈ ATTR_MAP_state →
                       properties (device w) !! prop = Some v → v = PNone) →
                    _attributes (self w') !! a = _attributes (self w) !! a).
    { intros Habsent.
      apply async_update_attributes in Hrun as [[_ ->] | (desc & _ & ->)];
        [reflexivity|].
      unfold merged_attributes.
      assert (Hnone : (<["error" := PStr desc]> (async_update_collect (device w)))
                        !! a = None).
      { rewrite lookup_insert_ne by congruence.
        unfold async_update_collect. rewrite collect_lookup_keep by exact Habsent.
        apply lookup_empty. }
      rewrite lookup_union_r by exact Hnone. reflexivity. }
    split; [exact Hkeep|]. split.
    + intros Hchanged.
      apply async_update_attributes in Hrun as [[_ Heq] | (desc & _ & Heq)].
      * rewrite Heq in Hchanged. contradiction.
      * rewrite Heq in Hchanged |- *. unfold merged_attributes in *.
        destruct ((<["error" := PStr desc]> (async_update_collect (device w))) !! a)
          as [v|] eqn:Hdata.
        -- rewrite (lookup_union_Some_l _ _ _ _ Hdata).
           rewrite lookup_insert_ne in Hdata by congruence.
           unfold async_update_collect in Hdata.
           apply collect_lookup_Some in Hdata as [Hempty | (prop & Hin & Hprop & Hv)].
           ++ rewrite lookup_empty in Hempty. discriminate.
           ++ exists prop, v. repeat split; assumption.
        -- rewrite lookup_union_r in Hchanged by exact Hdata. contradiction.
    + intros Hout. apply Hkeep. intros prop v Hin _. exfalso. apply Hout.
      apply list_elem_of_fmap. exists (prop, a). split; [reflexivity | exact Hin].
  - intros desc Hdesc.
    apply async_update_attributes in Hrun as [[Hnone _] | (desc' & Hdesc' & ->)].
    + rewrite Hdesc in Hnone. discriminate.
    + rewrite Hdesc in Hdesc'. inversion Hdesc'; subst desc'.
      unfold merged_attributes. apply lookup_union_Some_l. apply lookup_insert_eq.
  - intros Hnone.
    apply async_update_attributes in Hrun as [[_ Heq] | (desc & Hdesc & _)].
    + exact Heq.
    + rewrite Hnone in Hdesc. discriminate.
Qed.

(** ** Schedule codec *)

Lemma dict_get_set_eq d k v : dict_get (dict_set d k v) k = Some v.
Proof.
  induction d as [|[k' v'] d IH]; simpl.
  - rewrite String.eqb_refl. reflexivity.
  - destruct (String.eqb_spec k' k) as [->|Hne]; simpl.
    + rewrite String.eqb_refl. reflexivity.
    + apply String.eqb_neq in Hne. rewrite Hne. exact IH.
Qed.

Lemma dict_get_set_ne d k k' v : k ≠ k' → dict_get (dict_set d k v) k' = dict_get d k'.
Proof.
  intros Hne. induction d as [|[k0 v0] d IH]; simpl.
  - apply String.eqb_neq in Hne. rewrite Hne. reflexivity.
  - destruct (String.eqb_spec k0 k) as [->|Hne0]; simpl.
    + apply String.eqb_neq in Hne. rewrite Hne. reflexivity.
    + destruct (String.eqb k0 k'); [reflexivity | exact IH].
Qed.

Lemma dict_set_set d k v v' : dict_set (dict_set d k v) k v' = dict_set d k v'.
Proof.
  induction d as [|[k0 v0] d IH]; simpl.
  - rewrite String.eqb_refl. reflexivity.
  - destruct (String.eqb_spec k0 k) as [->|Hne]; simpl.
    + rewrite String.eqb_refl. reflexivity.
    + apply String.eqb_neq in Hne. rewrite Hne. rewrite IH. reflexivity.
Qed.

Lemma dict_set_id d k v : dict_get d k = Some v → dict_set d k v = d.
Proof.
  induction d as [|[k0 v0] d IH]; simpl; [discriminate|].
  destruct (String.eqb_spec k0 k) as [->|Hne].
  - intros Hget. inversion Hget. reflexivity.
  - intros Hget. f_equal. exact (IH Hget).
Qed.

Lemma bool_decide_is_Some {A} (o : option A) :
  bool_decide (is_Some o) = match o with Some _ => true | None => false end.
Proof.
  destruct o.
  - apply bool_decide_eq_true_2. eexists. reflexivity.
  - apply bool_decide_eq_false_2. intros [? ?]. discriminate.
Qed.

(** One pass of the loop body that does not raise appends one item to the
    list under the edited key. *)
Lemma schedule_day_ok master st data key x schedule schedule' l :
  SCHEDULE_TYPE_MAP !! st = Some key →
  dict_get schedule key = Some (PList l) →
  async_set_schedule_day master (PStr st) data x schedule = (Ok tt, schedule') →
  ∃ item, day_item master st data x item
          ∧ schedule' = dict_set schedule key (PList (l ++ [item])).
Proof.
  intros Hkey Hlist.
  unfold async_set_schedule_day, day_item, bind, get, lift, modify, raise,
    schedule_list, py_getitem.
  rewrite !bool_decide_is_Some. simpl. rewrite Hkey.
  destruct (data !! day_start x) as [s|] eqn:Hs.
  - destruct (data !! day_end x) as [e|] eqn:He; simpl; [|discriminate].
    rewrite Hlist.
    destruct (parseday x data) as [item|err] eqn:Hp; [|discriminate].
    intros Hrun. inversion Hrun. exists item. split; [|reflexivity].
    left. repeat split; eauto.
  - destruct (schedules master !! st) as [of_type|] eqn:Ht; simpl; [|discriminate].
    destruct (of_type !! day_clear x) as [entry|] eqn:Hentry; simpl; [|discriminate].
    rewrite Hlist.
    intros Hrun. inversion Hrun. exists (device_triple entry).
    split; [|reflexivity]. right. split; [reflexivity|]. eauto.
Qed.

(** A weekday that can be encoded is encoded. *)
Lemma schedule_day_ready master st data key x schedule l :
  SCHEDULE_TYPE_MAP !! st = Some key →
  dict_get schedule key = Some (PList l) →
  day_ready master st data x →
  ∃ item, async_set_schedule_day master (PStr st) data x schedule
          = (Ok tt, dict_set schedule key (PList (l ++ [item]))).
Proof.
  intros Hkey Hlist Hready.
  unfold async_set_schedule_day, bind, get, lift, modify, raise,
    schedule_list, py_getitem.
  rewrite !bool_decide_is_Some. simpl. rewrite Hkey.
  destruct Hready as [([s Hs] & [e He] & [item Hp]) | (Hs & of_type & Ht & [entry Hentry])].
  - rewrite Hs, He. simpl. rewrite Hlist, Hp. exists item. reflexivity.
  - rewrite Hs, Ht. simpl. rewrite Hentry. simpl. rewrite Hlist.
    eexists. reflexivity.
Qed.

(** A weekday with a start and no end makes the loop body raise the
    validation error, whatever the schedule type. *)
Lemma schedule_day_missing_end master schedule_type data x schedule :
  missing_end data x →
  async_set_schedule_day master schedule_type data x schedule
  = (Raise (no_end_time x), schedule).
Proof.
  intros [[s Hs] He].
  unfold async_set_schedule_day. rewrite !bool_decide_is_Some, Hs, He.
  reflexivity.
Qed.

(** The loop, when it does not raise, appends one item per weekday. *)
Lemma schedule_loop_ok master st data key days : ∀ schedule schedule' l,
  SCHEDULE_TYPE_MAP !! st = Some key →
  dict_get schedule key = Some (PList l) →
  for_each days (async_set_schedule_day master (PStr st) data) schedule
  = (Ok tt, schedule') →
  ∃ items, Forall2 (day_item master st data) days items
           ∧ schedule' = dict_set schedule key (PList (l ++ items)).
Proof.
  induction days as [|x days IH]; intros schedule schedule' l Hkey Hlist; simpl.
  - intros Hrun. inversion Hrun; subst schedule'. exists [].
    split; [constructor|].
    rewrite app_nil_r. symmetry. apply dict_set_id. exact Hlist.
  - unfold bind at 1.
    destruct (async_set_schedule_day master (PStr st) data x schedule)
      as [[[]|e] mid] eqn:Hstep; [|discriminate].
    intros Hrun.
    destruct (schedule_day_ok _ _ _ _ _ _ _ _ Hkey Hlist Hstep) as (item & Hitem & ->).
    destruct (IH _ _ (l ++ [item]) Hkey (dict_get_set_eq _ _ _) Hrun)
      as (items & Hitems & ->).
    exists (item :: items). split; [constructor; assumption|].
    rewrite dict_set_set, <- app_assoc. reflexivity.
Qed.

(** The loop raises as soon as some weekday has a start and no end. *)
Lemma schedule_loop_raises master schedule_type data days d : ∀ schedule,
  d ∈ days →
  missing_end data d →
  ∃ e schedule',
    for_each days (async_set_schedule_day master schedule_type data) schedule
    = (Raise e, schedule').
Proof.
  induction days as [|x days IH]; intros schedule Hin Hd.
  - apply elem_of_nil in Hin. contradiction.
  - simpl. unfold bind at 1.
    destruct (async_set_schedule_day master schedule_type data x schedule)
      as [[[]|e] mid] eqn:Hstep; [|eauto].
    apply elem_of_cons in Hin as [->|Hin].
    + rewrite schedule_day_missing_end in Hstep by exact Hd. discriminate.
    + exact (IH mid Hin Hd).
Qed.

(** The loop raises the validation error of the first weekday with a start
    and no end, when the weekdays before it can be encoded. *)
Lemma schedule_loop_named master st data key pre d post : ∀ schedule l,
  SCHEDULE_TYPE_MAP !! st = Some key →
  dict_get schedule key = Some (PList l) →
  Forall (day_ready master st data) pre →
  missing_end data d →
  ∃ schedule',
    for_each (pre ++ d :: post) (async_set_schedule_day master (PStr st) data) schedule
    = (Raise (no_end_time d), schedule').
Proof.
  induction pre as [|x pre IH]; intros schedule l Hkey Hlist Hpre Hd; simpl.
  - unfold bind. rewrite schedule_day_missing_end by exact Hd. eauto.
  - inversion Hpre as [|? ? Hx Hrest]; subst.
    destruct (schedule_day_ready _ _ _ _ _ _ _ Hkey Hlist Hx) as [item Hstep].
    unfold bind at 1. rewrite Hstep.
    exact (IH _ _ Hkey (dict_get_set_eq _ _ _) Hrest Hd).
Qed.

(** Among the weekdays, the first with a start and no end. *)
Lemma first_missing_end (data : gmap string pyval) (days : list Day) :
  (∃ d, d ∈ days ∧ missing_end data d) →
  ∃ pre d post, days = pre ++ d :: post
                ∧ Forall (λ x, ¬ missing_end data x) pre
                ∧ missing_end data d.
Proof.
  induction days as [|x days IH]; intros (d & Hin & Hd).
  - apply elem_of_nil in Hin. contradiction.
  - destruct (data !! day_start x) as [s|] eqn:Hs.
    + destruct (data !! day_end x) as [e|] eqn:He.
      * apply elem_of_cons in Hin as [->|Hin].
        { destruct Hd as [_ Hnone]. rewrite He in Hnone. discriminate. }
        destruct IH as (pre & d' & post & -> & Hpre & Hd'); [eauto|].
        exists (x :: pre), d', post. split; [reflexivity|]. split; [|exact Hd'].
        constructor; [|exact Hpre].
        intros [_ Hnone]. rewrite He in Hnone. discriminate.
      * exists [], x, days. split; [reflexivity|]. split; [constructor|].
        split; [eexists; exact Hs | exact He].
    + apply elem_of_cons in Hin as [->|Hin].
      { destruct Hd as [[s Hsome] _]. rewrite Hs in Hsome. discriminate. }
      destruct IH as (pre & d' & post & -> & Hpre & Hd'); [eauto|].
      exists (x :: pre), d', post. split; [reflexivity|]. split; [|exact Hd'].
      constructor; [|exact Hpre].
      intros [[s Hsome] _]. rewrite Hs in Hsome. discriminate.
Qed.

(** On a complete device and a request [parseday] accepts, a weekday that
    is not missing its end can be encoded. *)
Lemma day_ready_complete master st data x :
  st = "primary" ∨ st = "secondary" →
  schedules_complete master →
  days_parse data →
  x ∈ SCHEDULE_TO_DAY →
  ¬ missing_end data x →
  day_ready master st data x.
Proof.
  intros Hst Hcomplete Hparse Hin Hx. unfold day_ready.
  destruct (data !! day_start x) as [s|] eqn:Hs.
  - left. destruct (data !! day_end x) as [e|] eqn:He.
    + split; [eauto|]. split; [eauto|].
      apply Hparse; [exact Hin | rewrite Hs; eauto | rewrite He; eauto].
    + exfalso. apply Hx. split; [rewrite Hs; eauto | exact He].
  - right. split; [reflexivity|].
    destruct (Hcomplete st Hst) as (of_type & Ht & _ & Hdays).
    exists of_type. split; [exact Ht | exact (Hdays x Hin)].
Qed.

(** The loop goes through when every weekday can be encoded. *)
Lemma schedule_loop_ready master st data key days : ∀ schedule l,
  SCHEDULE_TYPE_MAP !! st = Some key →
  dict_get schedule key = Some (PList l) →
  Forall (day_ready master st data) days →
  ∃ items,
    for_each days (async_set_schedule_day master (PStr st) data) schedule
    = (Ok tt, dict_set schedule key (PList (l ++ items))).
Proof.
  induction days as [|x days IH]; intros schedule l Hkey Hlist Hdays; simpl.
  - exists []. rewrite app_nil_r, dict_set_id by exact Hlist. reflexivity.
  - inversion Hdays as [|? ? Hx Hrest]; subst.
    destruct (schedule_day_ready _ _ _ _ _ _ _ Hkey Hlist Hx) as [item Hstep].
    unfold bind at 1. rewrite Hstep.
    destruct (IH (dict_set schedule key (PList (l ++ [item]))) (l ++ [item]) Hkey
                (dict_get_set_eq _ _ _) Hrest) as [items Hloop].
    exists (item :: items). rewrite Hloop, dict_set_set, <- app_assoc. reflexivity.
Qed.

(** A schedule edit that completes has sent one document, holding the list
    built by the loop under the edited type's key and the other type's
    schedule as [pass_thru] returns it. *)
Lemma async_set_schedule_success data w w' st kp ks :
  data !! "type" = Some (PStr st) →
  st = "primary" ∨ st = "secondary" →
  SCHEDULE_TYPE_MAP !! "primary" = Some kp →
  SCHEDULE_TYPE_MAP !! "secondary" = Some ks →
  kp ≠ ks →
  async_set_schedule data w = (Ok tt, w') →
  ∃ items other passed,
    Forall2 (day_item (device w) st data) SCHEDULE_TO_DAY items
    ∧ schedules (device w) !! (if String.eqb st "primary" then "secondary" else "primary")
      = Some other
    ∧ pass_thru other = Ok passed
    ∧ sent_document w w'
        (if String.eqb st "primary"
         then [(kp, PList items); (ks, passed)]
         else [(kp, passed); (ks, PList items)]).
Proof.
  intros Htype Hst Hkp Hks Hne.
  unfold async_set_schedule, bind, get, lift, ret, raise, modify, py_getitem,
    sent_document, json_dumps.
  simpl. rewrite Htype.
  destruct Hst as [-> | ->]; simpl.
  - rewrite Hkp. simpl.
    destruct (for_each SCHEDULE_TO_DAY _ [(kp, PList [])]) as [[[]|e] schedule] eqn:Hloop;
      [|discriminate].
    assert (Hget : dict_get [(kp, PList [])] kp = Some (PList [])).
    { simpl. rewrite String.eqb_refl. reflexivity. }
    destruct (schedule_loop_ok _ _ _ _ _ _ _ _ Hkp Hget Hloop) as (items & Hitems & ->).
    destruct (schedules (device w) !! "secondary") as [other|]; [|discriminate].
    destruct (pass_thru other) as [passed|e] eqn:Hpass; [|discriminate].
    rewrite Hks. simpl. rewrite String.eqb_refl. simpl.
    rewrite (proj2 (String.eqb_neq kp ks) Hne).
    intros Hrun. inversion Hrun. exists items, other, passed. auto.
  - rewrite Hks. simpl.
    destruct (schedules (device w) !! "primary") as [other|]; [|discriminate].
    destruct (pass_thru other) as [passed|e] eqn:Hpass; [|discriminate].
    rewrite Hkp. simpl. rewrite (proj2 (String.eqb_neq kp ks) Hne).
    destruct (for_each SCHEDULE_TO_DAY _ [(kp, passed); (ks, PList [])])
      as [[[]|e] schedule] eqn:Hloop; [|discriminate].
    assert (Hget : dict_get [(kp, passed); (ks, PList [])] ks = Some (PList [])).
    { simpl. rewrite (proj2 (String.eqb_neq kp ks) Hne), String.eqb_refl. reflexivity. }
    destruct (schedule_loop_ok _ _ _ _ _ _ _ _ Hks Hget Hloop) as (items & Hitems & ->).
    simpl. rewrite (proj2 (String.eqb_neq kp ks) Hne), String.eqb_refl. simpl.
    intros Hrun. inversion Hrun. exists items, other, passed. auto.
Qed.

(** An edit of either type completes on a device that reports both
    schedules in full, for a request in which every weekday with a start
    has an end [parseday] accepts. *)
Lemma async_set_schedule_completes data w st :
  data !! "type" = Some (PStr st) →
  st = "primary" ∨ st = "secondary" →
  is_Some (SCHEDULE_TYPE_MAP !! "primary") →
  is_Some (SCHEDULE_TYPE_MAP !! "secondary") →
  schedules_complete (device w) →
  days_parse data →
  (∀ x, x ∈ SCHEDULE_TO_DAY → ¬ missing_end data x) →
  ∃ w', async_set_schedule data w = (Ok tt, w').
Proof.
  intros Htype Hst [kp Hkp] [ks Hks] Hcomplete Hparse Hends.
  assert (Hready : Forall (day_ready (device w) st data) SCHEDULE_TO_DAY).
  { apply Forall_forall. intros x Hx.
    apply day_ready_complete; auto. }
  destruct (Hcomplete "primary") as (primary & Hp & [pp Hpp] & _); [auto|].
  destruct (Hcomplete "secondary") as (secondary & Hs & [ps Hps] & _); [auto|].
  unfold async_set_schedule, bind, get, lift, ret, raise, modify, py_getitem.
  simpl. rewrite Htype.
  destruct Hst as [-> | ->]; simpl.
  - rewrite Hkp. simpl.
    assert (Hget : dict_get [(kp, PList [])] kp = Some (PList [])).
    { simpl. rewrite String.eqb_refl. reflexivity. }
    destruct (schedule_loop_ready _ _ _ _ _ _ _ Hkp Hget Hready) as [items Hloop].
    rewrite Hloop, Hs, Hps, Hks. eauto.
  - rewrite Hks. simpl. rewrite Hp, Hpp, Hkp. simpl.
    assert (Hget : dict_get (dict_set [(kp, pp)] ks (PList [])) ks = Some (PList []))
      by apply dict_get_set_eq.
    destruct (schedule_loop_ready _ _ _ _ _ _ _ Hks Hget Hready) as [items Hloop].
    simpl in Hloop. rewrite Hloop. eauto.
Qed.

(** What the modelled [pass_thru] returns is the schedule copied through
    unchanged. *)
Lemma spec_pass_thru_copies (of_type : gmap string ScheduleEntry) (v : pyval) :
  spec_pass_thru of_type = Ok v → copied_through of_type v.
Proof.
  unfold spec_pass_thru, copied_through.
  generalize SCHEDULE_TO_DAY as days. intros days.
  destruct (foldr _ (Ok []) days) as [items|e] eqn:Hfold; simpl; [|discriminate].
  intros Hv. inversion Hv; subst v. clear Hv. exists items. split; [reflexivity|].
  revert items Hfold. induction days as [|x days IH]; intros items; simpl.
  - intros Hitems. inversion Hitems. constructor.
  - destruct (of_type !! day_clear x) as [entry|] eqn:Hentry; simpl; [|discriminate].
    destruct (foldr _ (Ok []) days) as [rest|e] eqn:Hrest; simpl; [|discriminate].
    intros Hitems. inversion Hitems. constructor.
    + exists entry. split; [exact Hentry | reflexivity].
    + apply IH. reflexivity.
Qed.

(** C3. A schedule edit of either type that completes has sent exactly one
    document, wrapped under the single top-level key "sc", with an entry
    for the primary type followed by an entry for the secondary type, each
    a list.  With [pass_thru] as the specification describes it, on a
    secondary edit the primary entry is the device's primary schedule
    copied through unchanged, placed before the new secondary list; on a
    primary edit the secondary entry is the device's secondary schedule
    copied through unchanged, placed after the new primary list.  The new
    list has one item per weekday. *)
Theorem async_set_schedule_document data w w' st kp ks :
  (∀ of_type, pass_thru of_type = spec_pass_thru of_type) →
  data !! "type" = Some (PStr st) →
  st = "primary" ∨ st = "secondary" →
  SCHEDULE_TYPE_MAP !! "primary" = Some kp →
  SCHEDULE_TYPE_MAP !! "secondary" = Some ks →
  kp ≠ ks →
  async_set_schedule data w = (Ok tt, w') →
  ∃ primary_entry secondary_entry,
    sent_document w w' [(kp, primary_entry); (ks, secondary_entry)]
    ∧ (st = "secondary" →
       (∃ primary, schedules (device w) !! "primary" = Some primary
                   ∧ copied_through primary primary_entry)
       ∧ ∃ items, secondary_entry = PList items
                  ∧ Forall2 (day_item (device w) st data) SCHEDULE_TO_DAY items)
    ∧ (st = "primary" →
       (∃ secondary, schedules (device w) !! "secondary" = Some secondary
                     ∧ copied_through secondary secondary_entry)
       ∧ ∃ items, primary_entry = PList items
                  ∧ Forall2 (day_item (device w) st data) SCHEDULE_TO_DAY items).
Proof.
  intros Hspec Htype Hst Hkp Hks Hne Hrun.
  destruct (async_set_schedule_success _ _ _ _ _ _ Htype Hst Hkp Hks Hne Hrun)
    as (items & other & passed & Hitems & Hother & Hpass & Hsent).
  rewrite Hspec in Hpass. apply spec_pass_thru_copies in Hpass.
  destruct Hst as [-> | ->]; simpl in Hother, Hsent.
  - exists (PList items), passed. split; [exact Hsent|]. split.
    + discriminate.
    + intros _. split.
      * exists other. split; assumption.
      * exists items. split; [reflexivity | exact Hitems].
  - exists passed, (PList items). split; [exact Hsent|]. split.
    + intros _. split.
      * exists other. split; assumption.
      * exists items. split; [reflexivity | exact Hitems].
    + discriminate.
Qed.

(** C4. In a schedule edit that completes, the list sent under the edited
    type's key has one item per weekday, in weekday order, and for every
    weekday the request gives no start time for, the item is the triple
    the device reports for that day and schedule type: start, duration,
    and the boundary flag as an integer. *)
Theorem async_set_schedule_read_through data w w' st kp ks :
  data !! "type" = Some (PStr st) →
  st = "primary" ∨ st = "secondary" →
  SCHEDULE_TYPE_MAP !! "primary" = Some kp →
  SCHEDULE_TYPE_MAP !! "secondary" = Some ks →
  kp ≠ ks →
  async_set_schedule data w = (Ok tt, w') →
  ∃ doc key items,
    sent_document w w' doc
    ∧ SCHEDULE_TYPE_MAP !! st = Some key
    ∧ dict_get doc key = Some (PList items)
    ∧ length items = length SCHEDULE_TO_DAY
    ∧ ∀ (i : nat) (x : Day),
        SCHEDULE_TO_DAY !! i = Some x →
        data !! day_start x = None →
        ∃ of_type entry,
          schedules (device w) !! st = Some of_type
          ∧ of_type !! day_clear x = Some entry
          ∧ items !! i = Some (PList [PStr (entry_start entry);
                                      PInt (entry_duration entry);
                                      PInt (Z.b2z (entry_boundary entry))]).
Proof.
  intros Htype Hst Hkp Hks Hne Hrun.
  destruct (async_set_schedule_success _ _ _ _ _ _ Htype Hst Hkp Hks Hne Hrun)
    as (items & other & passed & Hitems & _ & _ & Hsent).
  assert (Hread : ∀ (i : nat) (x : Day),
            SCHEDULE_TO_DAY !! i = Some x →
            data !! day_start x = None →
            ∃ of_type entry,
              schedules (device w) !! st = Some of_type
              ∧ of_type !! day_clear x = Some entry
              ∧ items !! i = Some (device_triple entry)).
  { intros i x Hi Hstart.
    destruct (Forall2_lookup_l _ _ _ _ _ Hitems Hi) as (item & Hitem & Hday).
    destruct Hday as [([s Hs] & _) | (_ & of_type & entry & Ht & Hentry & ->)].
    - rewrite Hstart in Hs. discriminate.
    - exists of_type, entry. auto. }
  pose proof (Forall2_length _ _ _ Hitems) as Hlen.
  destruct Hst as [-> | ->]; simpl in Hsent.
  - exists [(kp, PList items); (ks, passed)], kp, items.
    repeat split; try assumption; [|symmetry; exact Hlen].
    simpl. rewrite String.eqb_refl. reflexivity.
  - exists [(kp, passed); (ks, PList items)], ks, items.
    repeat split; try assumption; [|symmetry; exact Hlen].
    simpl. rewrite (proj2 (String.eqb_neq kp ks) Hne), String.eqb_refl. reflexivity.
Qed.

(** With a weekday that has a start and no end, the edit raises and
    leaves the world as it was; the error is the validation error of that
    weekday when the steps before it go through. *)
Lemma async_set_schedule_raises data w pre d post :
  SCHEDULE_TO_DAY = pre ++ d :: post →
  missing_end data d →
  (∃ e, async_set_schedule data w = (Raise e, w))
  ∧ (∀ st,
       data !! "type" = Some (PStr st) →
       is_Some (SCHEDULE_TYPE_MAP !! st) →
       (st = "secondary" →
        is_Some (SCHEDULE_TYPE_MAP !! "primary")
        ∧ ∃ primary, schedules (device w) !! "primary" = Some primary
                     ∧ is_Ok (pass_thru primary)) →
       Forall (day_ready (device w) st data) pre →
       async_set_schedule data w
       = (Raise (HomeAssistantError ("No end time specified for " +:+ day_clear d)), w)).
Proof.
  intros Hdays Hd. split.
  - assert (Hin : d ∈ SCHEDULE_TO_DAY).
    { rewrite Hdays. apply elem_of_app. right. apply elem_of_cons. left. reflexivity. }
    unfold async_set_schedule, bind, get, lift, ret, raise, modify, py_getitem.
    simpl.
    destruct (data !! "type") as [schedule_type|]; [|eauto].
    destruct (py_subscript SCHEDULE_TYPE_MAP schedule_type) as [key|e]; [|eauto].
    destruct (py_eq_str schedule_type "secondary").
    + destruct (schedules (device w) !! "primary") as [primary|]; [|eauto].
      destruct (pass_thru primary) as [passed|e]; [|eauto].
      destruct (SCHEDULE_TYPE_MAP !! "primary") as [kp|]; [|eauto]. simpl.
      destruct (schedule_loop_raises (device w) schedule_type data SCHEDULE_TO_DAY d
                  (dict_set [(kp, passed)] key (PList [])) Hin Hd)
        as (e & schedule' & Hloop).
      simpl in Hloop. rewrite Hloop. eauto.
    + simpl.
      destruct (schedule_loop_raises (device w) schedule_type data SCHEDULE_TO_DAY d
                  [(key, PList [])] Hin Hd) as (e & schedule' & Hloop).
      rewrite Hloop. eauto.
  - intros st Htype [key Hkey] Hprimary Hpre.
    unfold async_set_schedule, bind, get, lift, ret, raise, modify, py_getitem.
    simpl. rewrite Htype. rewrite Hdays. simpl. rewrite Hkey.
    destruct (String.eqb_spec st "secondary") as [-> | Hother]; simpl.
    + destruct (Hprimary eq_refl) as ([kp Hkp] & primary & Hp & [passed Hpass]).
      rewrite Hp, Hpass, Hkp. simpl.
      assert (Hget : dict_get (dict_set [(kp, passed)] key (PList [])) key
                     = Some (PList [])) by apply dict_get_set_eq.
      destruct (schedule_loop_named _ _ _ _ _ _ post _ _ Hkey Hget Hpre Hd)
        as [schedule' Hloop].
      simpl in Hloop. rewrite Hloop. reflexivity.
    + assert (Hget : dict_get [(key, PList [])] key = Some (PList [])).
      { simpl. rewrite String.eqb_refl. reflexivity. }
      destruct (schedule_loop_named _ _ _ _ _ _ post _ _ Hkey Hget Hpre Hd)
        as [schedule' Hloop].
      rewrite Hloop. reflexivity.
Qed.

(** C2, amended. When some weekday of a schedule-edit request has a start
    time and no end time, the edit raises and leaves the world as it was:
    no call is dispatched to the device and its stored schedules are
    untouched.  The error raised is the validation error "No end time
    specified for <day>" naming such a weekday whenever the steps before
    that weekday go through: the request names a schedule type that has a
    wire key, on a secondary edit the primary type has a wire key and the
    device reports a primary schedule that [pass_thru] accepts, and every
    earlier weekday can be encoded (the request gives it a start and an
    end that [parseday] accepts, or leaves it out and the device reports
    it for the edited type).  No earlier weekday then has a start without
    an end, so the weekday named is the first such weekday, which always
    exists. *)
Theorem async_set_schedule_missing_end (data : gmap string pyval) (w : World) :
  (∃ d, d ∈ SCHEDULE_TO_DAY ∧ missing_end data d) →
  (∃ e, async_set_schedule data w = (Raise e, w))
  ∧ (∃ pre d post, SCHEDULE_TO_DAY = pre ++ d :: post
                   ∧ Forall (λ x, ¬ missing_end data x) pre
                   ∧ missing_end data d)
  ∧ (∀ st pre d post,
       data !! "type" = Some (PStr st) →
       is_Some (SCHEDULE_TYPE_MAP !! st) →
       SCHEDULE_TO_DAY = pre ++ d :: post →
       missing_end data d →
       (st = "secondary" →
        is_Some (SCHEDULE_TYPE_MAP !! "primary")
        ∧ ∃ primary, schedules (device w) !! "primary" = Some primary
                     ∧ is_Ok (pass_thru primary)) →
       Forall (day_ready (device w) st data) pre →
       Forall (λ x, ¬ missing_end data x) pre
       ∧ async_set_schedule data w
         = (Raise (HomeAssistantError
                     ("No end time specified for " +:+ day_clear d)), w)).
Proof.
  intros (d0 & Hin & Hd0). split; [|split].
  - destruct (list_elem_of_split _ _ Hin) as (pre & post & Hdays).
    exact (proj1 (async_set_schedule_raises data w pre d0 post Hdays Hd0)).
  - apply first_missing_end. exists d0. split; assumption.
  - intros st pre d post Htype Hkey Hdays Hd Hprimary Hpre. split.
    + eapply Forall_impl; [exact Hpre|]. simpl.
      intros x [(_ & [e He] & _) | (Hs & _)] [[s Hsome] Hnone].
      * rewrite He in Hnone. discriminate.
      * rewrite Hs in Hsome. discriminate.
    + exact (proj2 (async_set_schedule_raises data w pre d post Hdays Hd)
               st Htype Hkey Hprimary Hpre).
Qed.

(** ** Account setup *)

(** C9. When the account handle's [initialize()] returns a falsy value, or
    it returns and [enumerate()] then raises, [_setup] returns [False]
    without raising and leaves the registry as it was: nothing is
    registered for the account. *)
Theorem setup_aborts (cloud : Cloud) (entry : ConfigEntry)
    (registry : gmap string Account) (auth : pyval) :
  initialize_result cloud = Ok auth →
  py_truthy auth = false ∨ (∃ e, enumerate_result cloud = Raise e) →
  _setup cloud entry registry = (Ok false, registry).
Proof.
  intros Hinit Hfail. unfold _setup, bind, lift, ret. rewrite Hinit.
  destruct (py_truthy auth) eqn:Hauth; simpl; [|reflexivity].
  destruct Hfail as [Hfalsy | [e He]]; [discriminate|].
  rewrite He. reflexivity.
Qed.

End Properties.


(** * Further properties *)

(** ** State synchroniser, beyond the precedence *)

Section UpdateCycle.
Context `{Const, HomeAssistant, AttributeMap, States}.

(** A cycle that completes leaves the world [updated]. *)
Lemma async_update_inv (w w' : World) :
  async_update w = (Ok tt, w') →
  ∃ desc, ERROR_TO_DESCRIPTION !! default 0 (error (device w)) = Some desc
          ∧ zone_probability_sized (merged_attributes w desc)
          ∧ w' = updated w desc.
Proof.
  unfold async_update, bind, get, modify, lift. simpl.
  rewrite error_or_0_default.
  destruct (ERROR_TO_DESCRIPTION !! default 0 (error (device w))) as [desc|] eqn:Hdesc;
    simpl; [|discriminate].
  rewrite async_update_state_spec. simpl.
  fold (merged_attributes w desc).
  intros Hrun. exists desc. split; [reflexivity|].
  destruct (merged_attributes w desc !! "zone_probability") as [zp|] eqn:Hzp.
  - destruct (py_len zp) as [n|e] eqn:Hlen; simpl in Hrun; [|discriminate].
    split.
    + intros zp' Hzp'. rewrite Hzp in Hzp'. inversion Hzp'; subst zp'.
      exists n. exact Hlen.
    + destruct (Nat.eqb n 10); inversion Hrun; reflexivity.
  - split.
    + intros zp' Hzp'. rewrite Hzp in Hzp'. discriminate.
    + inversion Hrun; reflexivity.
Qed.

(** X1. When the error code has no entry in the description table, the
    cycle raises [KeyError] for it and has changed nothing but the icon:
    attributes, availability, state, serial number and battery level are
    as before. *)
Theorem async_update_missing_description (w : World) :
  ERROR_TO_DESCRIPTION !! default 0 (error (device w)) = None →
  async_update w
  = (Raise (KeyError (py_str (default 0 (error (device w))))),
     with_self (set_icon (Some ATTR_MAP_icon)) w).
Proof.
  intros Hdesc.
  unfold async_update, bind, get, modify, lift. simpl.
  rewrite error_or_0_default, Hdesc. reflexivity.
Qed.

(** X2. When the zone probabilities among the merged attributes have no
    length, the cycle raises at that point: attributes and availability
    are already those of the new data, while state, serial number and
    battery level are still the old ones. *)
Theorem async_update_unsized_zone_probability (w : World) (desc : string)
    (zp : pyval) (e : exn) :
  ERROR_TO_DESCRIPTION !! default 0 (error (device w)) = Some desc →
  merged_attributes w desc !! "zone_probability" = Some zp →
  py_len zp = Raise e →
  ∃ w', async_update w = (Raise e, w')
        ∧ _attributes (self w') = merged_attributes w desc
        ∧ _available (self w') = online (device w)
        ∧ _attr_state (self w') = _attr_state (self w)
        ∧ _serialnumber (self w') = _serialnumber (self w)
        ∧ _battery_level (self w') = _battery_level (self w).
Proof.
  intros Hdesc Hzp Hlen.
  unfold async_update, bind, get, modify, lift. simpl.
  rewrite error_or_0_default, Hdesc. simpl.
  rewrite async_update_state_spec. simpl.
  fold (merged_attributes w desc). rewrite Hzp, Hlen.
  eexists. split; [reflexivity|]. simpl. auto.
Qed.

Lemma merged_attributes_updated (w : World) (desc : string) :
  merged_attributes (updated w desc) desc = merged_attributes w desc.
Proof.
  unfold merged_attributes, updated, dict_update. simpl.
  rewrite (assoc_L (∪)). rewrite (idemp_L (∪)). reflexivity.
Qed.

(** X3. A completed cycle is idempotent: run again on its result, with
    the handle unchanged, it completes and changes nothing. *)
Theorem async_update_idempotent (w w' : World) :
  async_update w = (Ok tt, w') →
  async_update w' = (Ok tt, w').
Proof.
  intros Hrun. apply async_update_inv in Hrun as (desc & Hdesc & Hzp & ->).
  rewrite (async_update_completes (updated w desc) desc).
  - f_equal. unfold updated at 1. unfold with_self. simpl.
    f_equal. unfold dict_update. simpl.
    fold (merged_attributes w desc).
    assert (Hmerge : <["error" := PStr desc]> (async_update_collect (device w))
                     ∪ merged_attributes w desc = merged_attributes w desc).
    { unfold merged_attributes. rewrite (assoc_L (∪)), (idemp_L (∪)). reflexivity. }
    rewrite Hmerge. reflexivity.
  - exact Hdesc.
  - rewrite merged_attributes_updated. exact Hzp.
Qed.

(** With distinct mapped names, the loop stores the value of a present
    property under its name. *)
Lemma collect_lookup_present (master : WorxCloud) (table : list (string * string))
    (acc : gmap string pyval) (prop attr : string) (v : pyval) :
  NoDup table.*2 →
  (prop, attr) ∈ table →
  properties master !! prop = Some v →
  v ≠ PNone →
  fold_left
    (λ (data : gmap string pyval) '(prop, attr),
       match properties master !! prop with
       | Some prop_data =>
           match prop_data with
           | PNone => data
           | _ => <[attr := prop_data]> data
           end
       | None => data
       end) table acc !! attr = Some v.
Proof.
  revert acc. induction table as [|[p a] table IH]; intros acc Hnodup Hin Hprop Hv.
  - apply elem_of_nil in Hin. contradiction.
  - simpl in Hnodup. apply NoDup_cons in Hnodup as [Hfresh Hnodup].
    apply elem_of_cons in Hin as [Heq | Hin].
    + inversion Heq; subst p a. simpl. rewrite Hprop.
      rewrite collect_lookup_keep.
      * destruct v; try contradiction; apply lookup_insert_eq.
      * intros prop' v' Hin'. exfalso. apply Hfresh.
        apply list_elem_of_fmap. exists (prop', attr). split; [reflexivity | exact Hin'].
    + simpl. apply IH; assumption.
Qed.

(** X4. When the table's mapped names are distinct, a completed cycle
    stores every property that exists and is not [None] under its mapped
    name, "error" apart. *)
Theorem async_update_copies_property (w w' : World) (prop attr : string) (v : pyval) :
  NoDup ATTR_MAP_state.*2 →
  (prop, attr) ∈ ATTR_MAP_state →
  attr ≠ "error" →
  properties (device w) !! prop = Some v →
  v ≠ PNone →
  async_update w = (Ok tt, w') →
  _attributes (self w') !! attr = Some v.
Proof.
  intros Hnodup Hin Hattr Hprop Hv Hrun.
  apply async_update_inv in Hrun as (desc & _ & _ & ->).
  unfold updated, dict_update. simpl.
  apply lookup_union_Some_l. rewrite lookup_insert_ne by congruence.
  unfold async_update_collect. apply (collect_lookup_present _ _ _ prop); assumption.
Qed.

(** X5. A cycle never removes an attribute: whatever its outcome, every
    name that had a value still has one. *)
Theorem async_update_keeps_names (w w' : World) (r : outcome unit) (a : string) :
  async_update w = (r, w') →
  is_Some (_attributes (self w) !! a) →
  is_Some (_attributes (self w') !! a).
Proof.
  intros Hrun [v Hv].
  apply async_update_attributes in Hrun as [[_ ->] | (desc & _ & ->)].
  - eauto.
  - unfold merged_attributes.
    destruct ((<["error" := PStr desc]> (async_update_collect (device w))) !! a)
      as [v'|] eqn:Hdata.
    + exists v'. apply lookup_union_Some_l. exact Hdata.
    + exists v. rewrite lookup_union_r by exact Hdata. exact Hv.
Qed.

(** X6. A cycle only reads the handle: whatever its outcome, no call is
    dispatched, the handle is as before, and the zone selector's options
    and current option are untouched. *)
Theorem async_update_reads_only (w w' : World) (r : outcome unit) :
  async_update w = (r, w') →
  device w' = device w
  ∧ _attr_options (self w') = _attr_options (self w)
  ∧ _attr_current_option (self w') = _attr_current_option (self w).
Proof.
  unfold async_update, bind, get, modify, lift. simpl.
  destruct (ERROR_TO_DESCRIPTION !! error_or_0 (device w)) as [desc|]; simpl.
  - rewrite async_update_state_spec. simpl.
    destruct (_ !! "zone_probability") as [zp|].
    + destruct (py_len zp) as [n|e]; simpl.
      * destruct (Nat.eqb n 10); intros Hrun; inversion Hrun; auto.
      * intros Hrun; inversion Hrun; auto.
    + intros Hrun; inversion Hrun; auto.
  - intros Hrun; inversion Hrun; auto.
Qed.

(** X7. What a completed cycle stores as state, availability, serial
    number and battery level depends on the handle alone, never on what
    the entity held before. *)
Theorem async_update_from_handle (e1 e2 : Entity) (d : WorxCloud) (w1 w2 : World) :
  async_update {| self := e1; device := d |} = (Ok tt, w1) →
  async_update {| self := e2; device := d |} = (Ok tt, w2) →
  _attr_state (self w1) = _attr_state (self w2)
  ∧ _available (self w1) = _available (self w2)
  ∧ _serialnumber (self w1) = _serialnumber (self w2)
  ∧ _battery_level (self w1) = _battery_level (self w2)
  ∧ _attributes (self w1) !! "error" = _attributes (self w2) !! "error".
Proof.
  intros H1' H2'.
  apply async_update_inv in H1' as (desc1 & Hd1 & _ & ->).
  apply async_update_inv in H2' as (desc2 & Hd2 & _ & ->).
  simpl in Hd1, Hd2. rewrite Hd1 in Hd2. inversion Hd2; subst desc2.
  unfold updated, dict_update. simpl. repeat split.
  rewrite !(lookup_union_Some_l _ _ _ (PStr desc1)); try apply lookup_insert_eq.
  reflexivity.
Qed.

End UpdateCycle.

(** ** Zone selector: options and callbacks *)

(** [_update_zone] never raises; it recomputes the options from a zone
    array of four slots and does nothing otherwise. *)
Lemma update_zone_run (w : World) :
  _update_zone w = (Ok tt, zone_updated w).
Proof.
  unfold _update_zone, zone_updated, bind, get. simpl.
  destruct (zone (device w)) as [zones|e]; [|reflexivity].
  destruct (Nat.eqb (length zones) 4) eqn:Hlen; [|reflexivity].
  apply Nat.eqb_eq in Hlen.
  do 5 (destruct zones as [|? zones]; try discriminate Hlen).
  unfold _update_zone_body, bind, lift, modify, ret, spec_zone_options. simpl.
  rewrite !filter_cons, filter_nil. simpl.
  repeat case_bool_decide; repeat case_decide; simpl; try reflexivity; congruence.
Qed.

Lemma zone_updated_device (w : World) : device (zone_updated w) = device w.
Proof.
  unfold zone_updated. destruct (zone (device w)) as [zones|e]; [|reflexivity].
  destruct (Nat.eqb (length zones) 4); reflexivity.
Qed.

Lemma zone_updated_twice (w : World) : zone_updated (zone_updated w) = zone_updated w.
Proof.
  unfold zone_updated at 1. rewrite zone_updated_device.
  unfold zone_updated.
  destruct (zone (device w)) as [zones|e]; [|reflexivity].
  destruct (Nat.eqb (length zones) 4); reflexivity.
Qed.

Lemma spec_zone_options_valid (zones : list Z) :
  valid_options (spec_zone_options zones).
Proof.
  unfold valid_options, spec_zone_options.
  rewrite !filter_cons, filter_nil.
  repeat case_decide; vm_compute; repeat constructor.
Qed.

Lemma zone_updated_valid (w : World) :
  valid_options (_attr_options (self w)) →
  valid_options (_attr_options (self (zone_updated w))).
Proof.
  intros Hvalid. unfold zone_updated.
  destruct (zone (device w)) as [zones|e]; [|exact Hvalid].
  destruct (Nat.eqb (length zones) 4); [apply spec_zone_options_valid | exact Hvalid].
Qed.

Lemma update_selected_zone_run (s : Selector) :
  SelectZone.update_selected_zone s
  = (Ok tt, {| selector_world := zone_selected s; shared_options := shared_options s;
               state_updates := S (state_updates s) |}).
Proof.
  unfold SelectZone.update_selected_zone, SelectZone.on_world,
    SelectZone.schedule_update_ha_state, zone_selected, bind, get, modify, ret,
    py_getitem.
  simpl.
  destruct (Nat.ltb 1 (length (_attr_options (self (selector_world s))))); simpl.
  - rewrite update_zone_run. simpl.
    destruct (shared_options s !! "current_zone"); reflexivity.
  - destruct (shared_options s !! "current_zone"); reflexivity.
Qed.

(** X8. The options stay valid zone numbers: if they are some of "0",
    "1", "2", "3" in order, they still are after [_update_zone], which
    never raises, whatever the handle reports, and never touches the
    handle. *)
Theorem update_zone_valid_options (w : World) :
  valid_options (_attr_options (self w)) →
  ∃ w', _update_zone w = (Ok tt, w')
        ∧ valid_options (_attr_options (self w'))
        ∧ device w' = device w.
Proof.
  intros Hvalid. rewrite update_zone_run. eexists. split; [reflexivity|].
  split; [apply zone_updated_valid; exact Hvalid | apply zone_updated_device].
Qed.

(** X9. [update_selected_zone] never raises and schedules exactly one
    state update.  The current option becomes [str] of the shared
    "current_zone", or [None] when there is none.  The handle is untouched,
    and the options are recomputed only when there already are two or more:
    an empty list or a single option stays as it is. *)
Theorem update_selected_zone_effect (s : Selector) :
  ∃ w', SelectZone.update_selected_zone s
        = (Ok tt, {| selector_world := w'; shared_options := shared_options s;
                     state_updates := S (state_updates s) |})
        ∧ _attr_current_option (self w') = (py_str <$> shared_options s !! "current_zone")
        ∧ device w' = device (selector_world s)
        ∧ ((length (_attr_options (self (selector_world s))) ≤ 1)%nat →
           _attr_options (self w') = _attr_options (self (selector_world s))).
Proof.
  exists (zone_selected s). split; [apply update_selected_zone_run|].
  unfold zone_selected. simpl. split; [reflexivity|].
  destruct (Nat.ltb_spec 1 (length (_attr_options (self (selector_world s)))))
    as [Hmany | Hfew].
  - split; [apply zone_updated_device | lia].
  - split; reflexivity.
Qed.

(** X10. [update_callback] never raises and schedules exactly one state
    update.  With a zone array of four slots the options become "0"
    followed by the indices of the non-zero slots, whatever they were; in
    every case they are valid if they were. *)
Theorem update_callback_effect (s : Selector) :
  ∃ w', SelectZone.update_callback s
        = (Ok tt, {| selector_world := w'; shared_options := shared_options s;
                     state_updates := S (state_updates s) |})
        ∧ _attr_current_option (self w') = (py_str <$> shared_options s !! "current_zone")
        ∧ (∀ zones, zone (device (selector_world s)) = Ok zones →
                    length zones = 4%nat →
                    _attr_options (self w') = spec_zone_options zones)
        ∧ (valid_options (_attr_options (self (selector_world s))) →
           valid_options (_attr_options (self w'))).
Proof.
  unfold SelectZone.update_callback, bind.
  unfold SelectZone.on_world at 1. rewrite update_zone_run.
  rewrite update_selected_zone_run. simpl.
  eexists. split; [reflexivity|].
  unfold zone_selected. simpl. split; [reflexivity|].
  assert (Hoptions :
            _attr_options
              (self (if Nat.ltb 1 (length (_attr_options
                                             (self (zone_updated (selector_world s)))))
                     then zone_updated (zone_updated (selector_world s))
                     else zone_updated (selector_world s)))
            = _attr_options (self (zone_updated (selector_world s)))).
  { rewrite zone_updated_twice. destruct (Nat.ltb 1 _); reflexivity. }
  split.
  - intros zones Hz Hlen. rewrite Hoptions. unfold zone_updated.
    rewrite Hz. apply Nat.eqb_eq in Hlen. rewrite Hlen. reflexivity.
  - intros Hvalid. rewrite Hoptions. apply zone_updated_valid. exact Hvalid.
Qed.

(** ** The toggle command *)

Lemma prefix_append (a b : string) :
  String.prefix a b = true ↔ ∃ post, b = a +:+ post.
Proof.
  revert b. induction a as [|c a IH]; intros [|c' b]; simpl.
  - split; [intros _; exists ""; reflexivity | reflexivity].
  - split; [intros _; exists (String c' b); reflexivity | reflexivity].
  - split; [discriminate | intros [post Hpost]; discriminate].
  - destruct (Ascii.ascii_dec c c') as [->|Hne].
    + rewrite IH. split; intros [post Hpost]; exists post.
      * rewrite Hpost. reflexivity.
      * inversion Hpost. reflexivity.
    + split; [discriminate|]. intros [post Hpost]. inversion Hpost. congruence.
Qed.

Lemma py_in_str_unfold (needle hay : string) :
  py_in_str needle hay
  = if String.prefix needle hay then true
    else match hay with
         | EmptyString => false
         | String _ rest => py_in_str needle rest
         end.
Proof. destruct hay; reflexivity. Qed.

(** [needle in hay] holds exactly when [hay] is some text, [needle], and
    some more text. *)
Lemma py_in_str_spec (needle hay : string) :
  py_in_str needle hay = true ↔ ∃ pre post, hay = pre +:+ needle +:+ post.
Proof.
  split.
  - induction hay as [|c hay IH]; rewrite py_in_str_unfold;
      destruct (String.prefix needle _) eqn:Hprefix.
    + intros _. apply prefix_append in Hprefix as [post Hpost].
      exists "", post. exact Hpost.
    + discriminate.
    + intros _. apply prefix_append in Hprefix as [post Hpost].
      exists "", post. exact Hpost.
    + intros Hrest. destruct (IH Hrest) as (pre & post & ->).
      exists (String c pre), post. reflexivity.
  - intros (pre & post & ->). induction pre as [|c pre IH];
      rewrite py_in_str_unfold.
    + assert (Hprefix : String.prefix needle (needle +:+ post) = true)
        by (apply prefix_append; eauto).
      change ("" +:+ needle +:+ post) with (needle +:+ post).
      rewrite Hprefix. reflexivity.
    + destruct (String.prefix needle _); [reflexivity | exact IH].
Qed.

Section ToggleProperties.
Context `{Const}.

(** X11. The toggle never raises and dispatches exactly one call: [pause]
    when the name of the mowing state occurs anywhere in the entity's
    state, and [start] otherwise.  Nothing else changes. *)
Theorem async_start_pause_toggle (w : World) :
  ∃ c, async_start_pause w = (Ok tt, dispatch c w)
       ∧ (c = CallPause ∨ c = CallStart)
       ∧ (c = CallPause
          ↔ ∃ pre post, state (self w) = pre +:+ STATE_MOWING +:+ post).
Proof.
  unfold async_start_pause, async_pause, async_start, bind, get, modify. simpl.
  destruct (py_in_str STATE_MOWING (state (self w))) eqn:Hin.
  - exists CallPause. split; [reflexivity|]. split; [auto|].
    split; [intros _; apply py_in_str_spec; exact Hin | reflexivity].
  - exists CallStart. split; [reflexivity|]. split; [auto|].
    split; [discriminate|].
    intros Hsub. apply py_in_str_spec in Hsub. rewrite Hin in Hsub. discriminate.
Qed.

End ToggleProperties.

(** ** Schedule codec: failure and success of an edit *)

Section ScheduleEdits.
Context `{Const, Utils}.

(** X12. A schedule edit is all or nothing: either it raises and the
    world is as before, or it completes and the only change is one payload
    sent to the device, a document under the key "sc". *)
Theorem async_set_schedule_atomic (data : gmap string pyval) (w w' : World)
    (r : outcome unit) :
  async_set_schedule data w = (r, w') →
  (∃ e, r = Raise e ∧ w' = w)
  ∨ (r = Ok tt ∧ ∃ doc, sent_document w w' doc).
Proof.
  unfold async_set_schedule, bind, get, lift, ret, raise, modify, py_getitem,
    sent_document, json_dumps.
  simpl.
  destruct (data !! "type") as [schedule_type|];
    [|intros Hrun; inversion Hrun; eauto].
  destruct (py_subscript SCHEDULE_TYPE_MAP schedule_type) as [key|e];
    [|intros Hrun; inversion Hrun; eauto].
  destruct (py_eq_str schedule_type "secondary").
  - destruct (schedules (device w) !! "primary") as [primary|];
      [|intros Hrun; inversion Hrun; eauto].
    destruct (pass_thru primary) as [passed|e];
      [|intros Hrun; inversion Hrun; eauto].
    destruct (SCHEDULE_TYPE_MAP !! "primary") as [kp|];
      [|intros Hrun; inversion Hrun; eauto].
    simpl.
    destruct (for_each SCHEDULE_TO_DAY _ _) as [[[]|e] schedule];
      [|intros Hrun; inversion Hrun; eauto].
    destruct (py_eq_str schedule_type "primary").
    + destruct (schedules (device w) !! "secondary") as [secondary|];
        [|intros Hrun; inversion Hrun; eauto].
      destruct (pass_thru secondary) as [passed'|e];
        [|intros Hrun; inversion Hrun; eauto].
      destruct (SCHEDULE_TYPE_MAP !! "secondary") as [ks|];
        intros Hrun; inversion Hrun; eauto.
    + intros Hrun; inversion Hrun; eauto.
  - simpl.
    destruct (for_each SCHEDULE_TO_DAY _ _) as [[[]|e] schedule];
      [|intros Hrun; inversion Hrun; eauto].
    destruct (py_eq_str schedule_type "primary").
    + destruct (schedules (device w) !! "secondary") as [secondary|];
        [|intros Hrun; inversion Hrun; eauto].
      destruct (pass_thru secondary) as [passed'|e];
        [|intros Hrun; inversion Hrun; eauto].
      destruct (SCHEDULE_TYPE_MAP !! "secondary") as [ks|];
        intros Hrun; inversion Hrun; eauto.
    + intros Hrun; inversion Hrun; eauto.
Qed.

(** X13. A request without a "type" field raises [KeyError] for "type",
    and a request whose type is a string that [SCHEDULE_TYPE_MAP] does not
    have raises [KeyError] for that string; in both cases nothing is sent
    and the world is as before. *)
Theorem async_set_schedule_bad_type (data : gmap string pyval) (w : World) :
  (data !! "type" = None →
   async_set_schedule data w = (Raise (KeyError "type"), w))
  ∧ (∀ st, data !! "type" = Some (PStr st) →
           SCHEDULE_TYPE_MAP !! st = None →
           async_set_schedule data w = (Raise (KeyError st), w)).
Proof.
  split.
  - intros Htype.
    unfold async_set_schedule, bind, get, lift, py_getitem. simpl.
    rewrite Htype. reflexivity.
  - intros st Htype Hmap.
    unfold async_set_schedule, bind, get, lift, py_getitem. simpl.
    rewrite Htype. simpl. rewrite Hmap. reflexivity.
Qed.

(** X14. In a schedule edit that completes, every weekday the request
    gives a start time for also has an end time, and its item in the list
    sent under the edited type's key is what [parseday] returns for that
    day and request. *)
Theorem async_set_schedule_parsed_days (data : gmap string pyval) (w w' : World)
    (st kp ks : string) :
  data !! "type" = Some (PStr st) →
  st = "primary" ∨ st = "secondary" →
  SCHEDULE_TYPE_MAP !! "primary" = Some kp →
  SCHEDULE_TYPE_MAP !! "secondary" = Some ks →
  kp ≠ ks →
  async_set_schedule data w = (Ok tt, w') →
  ∃ doc key items,
    sent_document w w' doc
    ∧ SCHEDULE_TYPE_MAP !! st = Some key
    ∧ dict_get doc key = Some (PList items)
    ∧ ∀ (i : nat) (x : Day),
        SCHEDULE_TO_DAY !! i = Some x →
        is_Some (data !! day_start x) →
        is_Some (data !! day_end x)
        ∧ ∃ item, parseday x data = Ok item ∧ items !! i = Some item.
Proof.
  intros Htype Hst Hkp Hks Hne Hrun.
  destruct (async_set_schedule_success _ _ _ _ _ _ Htype Hst Hkp Hks Hne Hrun)
    as (items & other & passed & Hitems & _ & _ & Hsent).
  assert (Hparsed : ∀ (i : nat) (x : Day),
            SCHEDULE_TO_DAY !! i = Some x →
            is_Some (data !! day_start x) →
            is_Some (data !! day_end x)
            ∧ ∃ item, parseday x data = Ok item ∧ items !! i = Some item).
  { intros i x Hi [s Hs].
    destruct (Forall2_lookup_l _ _ _ _ _ Hitems Hi) as (item & Hitem & Hday).
    destruct Hday as [(_ & Hend & Hparse) | (Hnone & _)].
    - split; [exact Hend|]. exists item. auto.
    - rewrite Hs in Hnone. discriminate. }
  destruct Hst as [-> | ->]; simpl in Hsent.
  - exists [(kp, PList items); (ks, passed)], kp, items.
    split; [exact Hsent|]. split; [exact Hkp|]. split; [|exact Hparsed].
    simpl. rewrite String.eqb_refl. reflexivity.
  - exists [(kp, passed); (ks, PList items)], ks, items.
    split; [exact Hsent|]. split; [exact Hks|]. split; [|exact Hparsed].
    simpl. rewrite (proj2 (String.eqb_neq kp ks) Hne), String.eqb_refl. reflexivity.
Qed.

(** X15. An edit of either type completes, sending its document, on a
    device that reports both schedules in full with [pass_thru] accepting
    them, for a request in which every weekday with a start time has an
    end time and [parseday] accepts the day. *)
Theorem async_set_schedule_goes_through (data : gmap string pyval) (w : World)
    (st : string) :
  data !! "type" = Some (PStr st) →
  st = "primary" ∨ st = "secondary" →
  is_Some (SCHEDULE_TYPE_MAP !! "primary") →
  is_Some (SCHEDULE_TYPE_MAP !! "secondary") →
  schedules_complete (device w) →
  days_parse data →
  (∀ x, x ∈ SCHEDULE_TO_DAY → ¬ missing_end data x) →
  ∃ w' doc, async_set_schedule data w = (Ok tt, w') ∧ sent_document w w' doc.
Proof.
  intros Htype Hst Hkp Hks Hcomplete Hparse Hends.
  destruct (async_set_schedule_completes data w st Htype Hst Hkp Hks Hcomplete
              Hparse Hends) as [w' Hrun].
  exists w'.
  assert (Hcases : ∀ r, async_set_schedule data w = (r, w') → r = Ok tt →
                        ∃ doc, sent_document w w' doc).
  { unfold async_set_schedule, bind, get, lift, ret, raise, modify, py_getitem,
      sent_document, json_dumps.
    simpl. rewrite Htype.
    destruct Hkp as [kp Hkp], Hks as [ks Hks].
    destruct Hst as [-> | ->]; simpl.
    - rewrite Hkp. simpl.
      destruct (for_each SCHEDULE_TO_DAY _ _) as [[[]|e] schedule];
        [|intros r Hr ->; discriminate].
      destruct (schedules (device w) !! "secondary") as [secondary|];
        [|intros r Hr ->; discriminate].
      destruct (pass_thru secondary) as [passed|e];
        [|intros r Hr ->; discriminate].
      rewrite Hks. simpl. intros r Hr _. inversion Hr. eauto.
    - rewrite Hks. simpl.
      destruct (schedules (device w) !! "primary") as [primary|];
        [|intros r Hr ->; discriminate].
      destruct (pass_thru primary) as [passed|e];
        [|intros r Hr ->; discriminate].
      rewrite Hkp. simpl.
      destruct (for_each SCHEDULE_TO_DAY _ _) as [[[]|e] schedule];
        [|intros r Hr ->; discriminate].
      simpl. intros r Hr _. inversion Hr. eauto. }
  destruct (Hcases (Ok tt) Hrun eq_refl) as [doc Hdoc].
  exists doc. split; assumption.
Qed.

(** X16. An edit needs the schedule of the other type on the device.  A
    secondary edit on a device without a primary schedule raises [KeyError]
    for "primary" at once; a primary edit on a device without a secondary
    schedule raises [KeyError] for "secondary" after every weekday has been
    encoded.  Nothing is sent in either case. *)
Theorem async_set_schedule_other_type_missing (data : gmap string pyval) (w : World) :
  (data !! "type" = Some (PStr "secondary") →
   is_Some (SCHEDULE_TYPE_MAP !! "secondary") →
   schedules (device w) !! "primary" = None →
   async_set_schedule data w = (Raise (KeyError "primary"), w))
  ∧ (data !! "type" = Some (PStr "primary") →
     is_Some (SCHEDULE_TYPE_MAP !! "primary") →
     schedules (device w) !! "secondary" = None →
     Forall (day_ready (device w) "primary" data) SCHEDULE_TO_DAY →
     async_set_schedule data w = (Raise (KeyError "secondary"), w)).
Proof.
  split.
  - intros Htype [ks Hks] Hnone.
    unfold async_set_schedule, bind, get, lift, py_getitem. simpl.
    rewrite Htype. simpl. rewrite Hks. simpl. rewrite Hnone. reflexivity.
  - intros Htype [kp Hkp] Hnone Hready.
    unfold async_set_schedule, bind, get, lift, ret, raise, py_getitem. simpl.
    rewrite Htype. simpl. rewrite Hkp. simpl.
    assert (Hget : dict_get [(kp, PList [])] kp = Some (PList [])).
    { simpl. rewrite String.eqb_refl. reflexivity. }
    destruct (schedule_loop_ready _ _ _ _ _ _ _ Hkp Hget Hready) as [items Hloop].
    rewrite Hloop, Hnone. reflexivity.
Qed.

End ScheduleEdits.

(** ** Account setup: what gets registered *)

Section FrameRules.
Context {St : Type} (R : St → St → Prop) `{!Reflexive R, !Transitive R}.

Lemma preserves_ret {A} (a : A) : preserves R (ret a).
Proof. intros s r s' Hrun. inversion Hrun. reflexivity. Qed.

Lemma preserves_raise {A} (e : exn) : preserves R (@raise St A e).
Proof. intros s r s' Hrun. inversion Hrun. reflexivity. Qed.

Lemma preserves_lift {A} (o : outcome A) : preserves R (lift o).
Proof. intros s r s' Hrun. inversion Hrun. reflexivity. Qed.

Lemma preserves_get : preserves R get.
Proof. intros s r s' Hrun. inversion Hrun. reflexivity. Qed.

Lemma preserves_modify (f : St → St) : (∀ s, R s (f s)) → preserves R (modify f).
Proof. intros Hf s r s' Hrun. inversion Hrun. apply Hf. Qed.

Lemma preserves_bind {A B} (c : M St A) (k : A → M St B) :
  preserves R c → (∀ a, preserves R (k a)) → preserves R (bind c k).
Proof.
  intros Hc Hk s r s'. unfold bind.
  destruct (c s) as [[a|e] mid] eqn:Hrun.
  - intros Hrest. transitivity mid; [exact (Hc _ _ _ Hrun) | exact (Hk _ _ _ _ Hrest)].
  - intros Hrest. inversion Hrest; subst. exact (Hc _ _ _ Hrun).
Qed.

Lemma preserves_for_each {A} (xs : list A) (body : A → M St unit) :
  (∀ x, preserves R (body x)) → preserves R (for_each xs body).
Proof.
  intros Hbody. induction xs as [|x xs IH]; simpl.
  - apply preserves_ret.
  - apply preserves_bind; [apply Hbody | intros _; exact IH].
Qed.

End FrameRules.

Section SetupProperties.
Context `{HomeAssistant, Builtins}.

#[local] Instance same_elsewhere_refl id : Reflexive (same_elsewhere id).
Proof. intros reg id' _. reflexivity. Qed.

#[local] Instance same_elsewhere_trans id : Transitive (same_elsewhere id).
Proof.
  intros r1 r2 r3 H12 H23 id' Hne. rewrite (H23 id' Hne). exact (H12 id' Hne).
Qed.

Lemma same_elsewhere_insert id a : ∀ reg, same_elsewhere id reg (<[id := a]> reg).
Proof. intros reg id' Hne. apply lookup_insert_ne. congruence. Qed.

Lemma preserves_account id : preserves (same_elsewhere id) (account id).
Proof.
  unfold account. refine (preserves_bind _ _ _ _ _); [exact (preserves_get _)|].
  intros reg. exact (preserves_lift _ _).
Qed.

Lemma preserves_slot id i : preserves (same_elsewhere id) (slot id i).
Proof.
  unfold slot. refine (preserves_bind _ _ _ _ _); [exact (preserves_account _)|].
  intros a.
  destruct (slots a !! i); [exact (preserves_ret _ _) | exact (preserves_raise _ _)].
Qed.

Ltac frame_step :=
  first
    [ exact (preserves_account _)
    | exact (preserves_slot _ _)
    | exact (preserves_lift _ _)
    | exact (preserves_ret _ _)
    | refine (preserves_modify _ _ _); apply same_elsewhere_insert
    | refine (preserves_bind _ _ _ _ _); [|intros ?] ].

Lemma preserves_setup_device cloud entry ce cp ct i :
  preserves (same_elsewhere (entry_id entry)) (_setup_device cloud entry ce cp ct i).
Proof.
  unfold _setup_device, LandroidAPI_init. cbv zeta.
  repeat frame_step.
Qed.

(** X17. Setting up one account never touches another: whatever the
    outcome, every other account of the registry is as before. *)
Theorem setup_other_accounts (cloud : Cloud) (entry : ConfigEntry)
    (registry registry' : gmap string Account) (r : outcome bool) (id' : string) :
  _setup cloud entry registry = (r, registry') →
  id' ≠ entry_id entry →
  registry' !! id' = registry !! id'.
Proof.
  intros Hrun Hne. revert id' Hne.
  change (same_elsewhere (entry_id entry) registry registry').
  revert registry r registry' Hrun.
  change (preserves (same_elsewhere (entry_id entry)) (_setup cloud entry)).
  unfold _setup. cbv zeta.
  refine (preserves_bind _ _ _ _ _); [exact (preserves_lift _ _)|].
  intros auth. destruct (negb (py_truthy auth)); [exact (preserves_ret _ _)|].
  destruct (enumerate_result cloud) as [num_dev|err]; [|exact (preserves_ret _ _)].
  refine (preserves_bind _ _ _ _ _).
  - refine (preserves_modify _ _ _). apply same_elsewhere_insert.
  - intros _. refine (preserves_bind _ _ _ _ _).
    + refine (preserves_for_each _ _ _ _). intros i. apply preserves_setup_device.
    + intros _. exact (preserves_ret _ _).
Qed.

Lemma set_slot_twice (i : nat) (s s' : Slot) (a : Account) :
  set_slot i s (set_slot i s' a) = set_slot i s a.
Proof. unfold set_slot. simpl. rewrite insert_insert_eq. reflexivity. Qed.

(** One pass of the loop over the devices, when nothing raises. *)
Lemma setup_device_ok cloud entry i (reg : gmap string Account) acc email v :
  reg !! entry_id entry = Some acc →
  conf_email acc = Some email →
  conf_password acc = data_password entry →
  conf_type acc = default "worx" (data_type entry) →
  device_initialize cloud i = Ok v →
  device_connect cloud i = Ok tt →
  _setup_device cloud entry (data_email entry) (data_password entry)
    (default "worx" (data_type entry)) i reg
  = (Ok tt, <[entry_id entry := set_slot i (registered_slot cloud entry email i) acc]> reg).
Proof.
  intros Hreg Hemail Hpassword Htype Hinit Hconnect.
  unfold _setup_device, LandroidAPI_init, slot, account, bind, get, modify, lift,
    ret, raise, py_getitem, lower_opt.
  simpl. rewrite Hreg. simpl.
  repeat (rewrite lookup_insert_eq; simpl).
  rewrite Hinit. simpl.
  repeat (rewrite lookup_insert_eq; simpl).
  rewrite Hconnect. simpl.
  repeat (rewrite lookup_insert_eq; simpl).
  rewrite Hemail, Hpassword, Htype. simpl.
  repeat (rewrite lookup_insert_eq; simpl).
  rewrite !insert_insert_eq, !set_slot_twice. reflexivity.
Qed.

(** The pass for a device whose [connect] raises. *)
Lemma setup_device_connect_raises cloud entry i (reg : gmap string Account) acc v e :
  reg !! entry_id entry = Some acc →
  device_initialize cloud i = Ok v →
  device_connect cloud i = Raise e →
  _setup_device cloud entry (data_email entry) (data_password entry)
    (default "worx" (data_type entry)) i reg
  = (Raise e, <[entry_id entry := set_slot i (unconnected_slot cloud entry i) acc]> reg).
Proof.
  intros Hreg Hinit Hconnect.
  unfold _setup_device, slot, account, bind, get, modify, lift, ret, raise, py_getitem.
  simpl. rewrite Hreg. simpl.
  repeat (rewrite lookup_insert_eq; simpl).
  rewrite Hinit. simpl.
  repeat (rewrite lookup_insert_eq; simpl).
  rewrite Hconnect. simpl.
  rewrite !insert_insert_eq, !set_slot_twice. reflexivity.
Qed.

Lemma for_each_app {St A} (xs ys : list A) (body : A → M St unit) (s : St) :
  for_each (xs ++ ys) body s
  = match for_each xs body s with
    | (Ok _, s') => for_each ys body s'
    | (Raise e, s') => (Raise e, s')
    end.
Proof.
  revert s. induction xs as [|x xs IH]; intros s; simpl.
  - reflexivity.
  - unfold bind. destruct (body x s) as [[[]|e] s']; [apply IH | reflexivity].
Qed.

(** The slots after registering the devices of a list, one after the
    other. *)
Lemma slots_foldl (f : nat → Slot) (l : list nat) : ∀ (acc : Account) (i : nat),
  slots (foldl (λ a x, set_slot x (f x) a) acc l) !! i
  = if decide (i ∈ l) then Some (f i) else slots acc !! i.
Proof.
  induction l as [|x l IH]; intros acc i.
  - destruct (decide (i ∈ [])) as [Hin | _]; [|reflexivity].
    apply elem_of_nil in Hin. contradiction.
  - change (foldl (λ a x, set_slot x (f x) a) acc (x :: l))
      with (foldl (λ a x, set_slot x (f x) a) (set_slot x (f x) acc) l).
    rewrite IH.
    destruct (decide (i ∈ l)) as [Hin | Hnot];
      destruct (decide (i ∈ x :: l)) as [Hin' | Hnot']; try reflexivity.
    + exfalso. apply Hnot'. apply elem_of_cons. auto.
    + apply elem_of_cons in Hin' as [-> | Hin']; [|contradiction].
      simpl. apply lookup_insert_eq.
    + simpl. apply lookup_insert_ne. intros ->. apply Hnot'.
      apply elem_of_cons. auto.
Qed.

Lemma foldl_set_slot_fields (f : nat → Slot) (l : list nat) : ∀ (acc : Account),
  let acc' := foldl (λ a x, set_slot x (f x) a) acc l in
  count acc' = count acc ∧ conf_email acc' = conf_email acc
  ∧ conf_password acc' = conf_password acc ∧ conf_type acc' = conf_type acc.
Proof.
  induction l as [|x l IH]; intros acc; simpl; [auto|].
  destruct (IH (set_slot x (f x) acc)) as (Hc & He & Hp & Ht). simpl in *. auto.
Qed.

(** The loop over the devices of a list, when nothing raises. *)
Lemma setup_loop_ok cloud entry email (l : list nat) :
  ∀ (reg : gmap string Account) acc,
  reg !! entry_id entry = Some acc →
  conf_email acc = Some email →
  conf_password acc = data_password entry →
  conf_type acc = default "worx" (data_type entry) →
  (∀ i, i ∈ l → is_Ok (device_initialize cloud i) ∧ device_connect cloud i = Ok tt) →
  for_each l (_setup_device cloud entry (data_email entry) (data_password entry)
                (default "worx" (data_type entry))) reg
  = (Ok tt,
     <[entry_id entry :=
         foldl (λ a x, set_slot x (registered_slot cloud entry email x) a) acc l]> reg).
Proof.
  induction l as [|x l IH]; intros reg acc Hreg Hemail Hpassword Htype Hok; simpl.
  - rewrite insert_id by exact Hreg. reflexivity.
  - destruct (Hok x) as [[v Hinit] Hconnect]; [apply elem_of_cons; auto|].
    unfold bind at 1.
    rewrite (setup_device_ok _ _ _ _ _ _ _ Hreg Hemail Hpassword Htype Hinit Hconnect).
    rewrite (IH _ (set_slot x (registered_slot cloud entry email x) acc)).
    + rewrite insert_insert_eq. reflexivity.
    + apply lookup_insert_eq.
    + exact Hemail.
    + exact Hpassword.
    + exact Htype.
    + intros i Hi. apply Hok. apply elem_of_cons. auto.
Qed.

(** X18. An account that enumerates no device (a count of zero or less)
    is set up all the same: [_setup] returns [True] and registers the
    account item with that count and no device. *)
Theorem setup_no_devices (cloud : Cloud) (entry : ConfigEntry)
    (registry : gmap string Account) (auth : pyval) (n : Z) :
  initialize_result cloud = Ok auth →
  py_truthy auth = true →
  enumerate_result cloud = Ok n →
  n ≤ 0 →
  _setup cloud entry registry
  = (Ok true, <[entry_id entry := fresh_account entry n]> registry).
Proof.
  intros Hinit Hauth Henum Hn.
  unfold _setup, bind, lift, ret, modify. rewrite Hinit, Hauth, Henum. simpl.
  replace (Z.to_nat n) with 0%nat by lia. reflexivity.
Qed.

(** X19. When the account authenticates, enumerates [n] devices, has an
    email, and [initialize] and [connect] go through for each device,
    [_setup] returns [True] and registers the account with count [n] and,
    for exactly the indices below [n], the connected handle with its
    callback set and an adapter carrying that index. *)
Theorem setup_registers (cloud : Cloud) (entry : ConfigEntry)
    (registry : gmap string Account) (auth : pyval) (n : Z) (email : string) :
  initialize_result cloud = Ok auth →
  py_truthy auth = true →
  enumerate_result cloud = Ok n →
  data_email entry = Some email →
  (∀ i, (i < Z.to_nat n)%nat →
        is_Ok (device_initialize cloud i) ∧ device_connect cloud i = Ok tt) →
  ∃ acc, _setup cloud entry registry = (Ok true, <[entry_id entry := acc]> registry)
         ∧ count acc = n
         ∧ ∀ i, slots acc !! i
                = if decide (i < Z.to_nat n)%nat
                  then Some (registered_slot cloud entry email i)
                  else None.
Proof.
  intros Hinit Hauth Henum Hemail Hok.
  unfold _setup, bind, lift, ret, modify. rewrite Hinit, Hauth, Henum. simpl.
  rewrite (setup_loop_ok cloud entry email _ _ (fresh_account entry n)).
  - rewrite insert_insert_eq. eexists. split; [reflexivity|].
    split; [apply foldl_set_slot_fields|].
    intros i. rewrite slots_foldl.
    destruct (decide (i < Z.to_nat n)%nat) as [Hlt | Hge].
    + rewrite decide_True; [reflexivity|]. apply elem_of_seq. lia.
    + rewrite decide_False; [apply lookup_empty|]. rewrite elem_of_seq. lia.
  - apply lookup_insert_eq.
  - exact Hemail.
  - reflexivity.
  - reflexivity.
  - intros i Hi. apply Hok. apply elem_of_seq in Hi. lia.
Qed.

(** X20. When [connect] raises for device [k] after the devices before it
    went through, [_setup] raises that error and the registration stays as
    far as it got: the account item with its count, the devices below [k]
    registered in full, device [k] with its initialized handle and no
    adapter, and nothing for the devices after it. *)
Theorem setup_connect_raises (cloud : Cloud) (entry : ConfigEntry)
    (registry : gmap string Account) (auth v : pyval) (n : Z) (email : string)
    (k : nat) (e : exn) :
  initialize_result cloud = Ok auth →
  py_truthy auth = true →
  enumerate_result cloud = Ok n →
  data_email entry = Some email →
  (k < Z.to_nat n)%nat →
  (∀ i, (i < k)%nat →
        is_Ok (device_initialize cloud i) ∧ device_connect cloud i = Ok tt) →
  device_initialize cloud k = Ok v →
  device_connect cloud k = Raise e →
  ∃ acc, _setup cloud entry registry = (Raise e, <[entry_id entry := acc]> registry)
         ∧ count acc = n
         ∧ ∀ i, slots acc !! i
                = if decide (i < k)%nat
                  then Some (registered_slot cloud entry email i)
                  else if decide (i = k)
                       then Some (unconnected_slot cloud entry k)
                       else None.
Proof.
  intros Hinit Hauth Henum Hemail Hk Hok Hinitk Hconnectk.
  unfold _setup, bind, lift, ret, modify. rewrite Hinit, Hauth, Henum. simpl.
  replace (Z.to_nat n) with (k + S (Z.to_nat n - S k))%nat by lia.
  rewrite seq_app, for_each_app.
  rewrite (setup_loop_ok cloud entry email _ _ (fresh_account entry n)).
  - simpl. unfold bind at 1.
    erewrite setup_device_connect_raises;
      [|apply lookup_insert_eq | exact Hinitk | exact Hconnectk].
    rewrite !insert_insert_eq. eexists. split; [reflexivity|].
    split; [simpl; apply foldl_set_slot_fields|].
    intros i. simpl.
    destruct (decide (i = k)) as [-> | Hne].
    + rewrite decide_False by lia. apply lookup_insert_eq.
    + rewrite lookup_insert_ne by congruence. rewrite slots_foldl.
      destruct (decide (i < k)%nat) as [Hlt | Hge].
      * rewrite decide_True; [reflexivity|]. apply elem_of_seq. lia.
      * rewrite decide_False; [apply lookup_empty|]. rewrite elem_of_seq. lia.
  - apply lookup_insert_eq.
  - exact Hemail.
  - reflexivity.
  - reflexivity.
  - intros i Hi. apply Hok. apply elem_of_seq in Hi. lia.
Qed.

End SetupProperties.

(** ** The entry points of the integration *)

Section EntryPointProperties.
Context `{HomeAssistant, Builtins, ConfKeys, Integration}.

Lemma setdefault_domain_run (h : Hass) :
  setdefault_domain h = (Ok (default ∅ (hass_data h)), after_setdefault h).
Proof.
  unfold setdefault_domain, after_setdefault, set_hass_data.
  destruct h as [[registry|] entry flows forwarded unsubscribed]; reflexivity.
Qed.

Lemma check_unique_id_keeps (h : Hass) :
  is_Some (config_unique_id (hass_entry h)) → check_unique_id h = (Ok tt, h).
Proof.
  intros [uid Huid]. unfold check_unique_id, bind, get. simpl. rewrite Huid.
  reflexivity.
Qed.

(** X21. [check_unique_id] leaves an entry that has a unique id alone.
    An entry without one, whose data has email, password and type, gets
    the unique id "<email>_<type>" and data holding exactly those three
    items, so that what [_setup] reads of the entry is unchanged. *)
Theorem check_unique_id_assigns (h : Hass) :
  (is_Some (config_unique_id (hass_entry h)) → check_unique_id h = (Ok tt, h))
  ∧ (∀ email password type,
       config_unique_id (hass_entry h) = None →
       config_data (hass_entry h) !! CONF_EMAIL = Some email →
       config_data (hass_entry h) !! CONF_PASSWORD = Some password →
       config_data (hass_entry h) !! CONF_TYPE = Some type →
       CONF_EMAIL ≠ CONF_PASSWORD → CONF_EMAIL ≠ CONF_TYPE →
       CONF_PASSWORD ≠ CONF_TYPE →
       ∃ entry', check_unique_id h = (Ok tt, set_hass_entry entry' h)
                 ∧ config_id entry' = config_id (hass_entry h)
                 ∧ config_unique_id entry' = Some (email +:+ "_" +:+ type)
                 ∧ config_entry_of entry' = config_entry_of (hass_entry h)
                 ∧ ∀ k, is_Some (config_data entry' !! k)
                        ↔ k = CONF_EMAIL ∨ k = CONF_PASSWORD ∨ k = CONF_TYPE).
Proof.
  split.
  - intros [uid Huid]. unfold check_unique_id, bind, get. simpl. rewrite Huid.
    reflexivity.
  - intros email password type Huid Hemail Hpassword Htype Hep Het Hpt.
    unfold check_unique_id, bind, get, lift, modify, py_getitem. simpl.
    rewrite Huid, Hemail, Hpassword, Htype. simpl.
    eexists. split; [reflexivity|]. simpl.
    split; [reflexivity|]. split; [reflexivity|]. split.
    + unfold config_entry_of. simpl. rewrite Hemail, Hpassword, Htype.
      f_equal.
      * rewrite lookup_insert_ne by congruence.
        rewrite lookup_insert_ne by congruence. apply lookup_singleton_eq.
      * rewrite lookup_insert_ne by congruence. apply lookup_insert_eq.
      * apply lookup_insert_eq.
    + intros k. rewrite !lookup_insert, lookup_singleton.
      repeat case_decide; subst; split; intros Hk;
        try (eexists; reflexivity); auto.
      * destruct Hk as [? Hk]. discriminate.
      * destruct Hk as [? | [? | ?]]; congruence.
Qed.

(** [check_unique_id] goes through for an entry that has a unique id, or
    whose data has email, password and type; it touches nothing but the
    entry, and keeps the entry's id. *)
Lemma check_unique_id_run (h : Hass) :
  is_Some (config_unique_id (hass_entry h))
  ∨ (is_Some (config_data (hass_entry h) !! CONF_EMAIL)
     ∧ is_Some (config_data (hass_entry h) !! CONF_PASSWORD)
     ∧ is_Some (config_data (hass_entry h) !! CONF_TYPE)) →
  ∃ entry', check_unique_id h = (Ok tt, set_hass_entry entry' h)
            ∧ config_id entry' = config_id (hass_entry h)
            ∧ (is_Some (config_unique_id (hass_entry h)) → entry' = hass_entry h).
Proof.
  intros Hready.
  unfold check_unique_id, bind, get, lift, modify, py_getitem, ret. simpl.
  destruct (config_unique_id (hass_entry h)) as [uid|] eqn:Huid.
  - exists (hass_entry h). split; [|split; reflexivity].
    unfold set_hass_entry. destruct h. reflexivity.
  - destruct Hready as [[uid Hsome] | ([email He] & [password Hp] & [type Ht])];
      [discriminate|].
    rewrite He, Hp, Ht. simpl. eexists. split; [reflexivity|].
    split; [reflexivity|]. intros [uid Hsome]. discriminate.
Qed.

(** X22. The platforms of an entry are set up even when the account's
    set-up fails.  For an entry that has a unique id, or whose data has
    email, password and type: if [initialize()] returns a falsy value, or
    returns and [enumerate()] raises, [async_setup_entry] returns [False],
    registers no account, and still forwards the entry to the platforms,
    once; flows and callbacks are left alone, and an entry that has a
    unique id is left as it was. *)
Theorem async_setup_entry_forwards_failed (cloud : Cloud) (h : Hass) (auth : pyval) :
  is_Some (config_unique_id (hass_entry h))
  ∨ (is_Some (config_data (hass_entry h) !! CONF_EMAIL)
     ∧ is_Some (config_data (hass_entry h) !! CONF_PASSWORD)
     ∧ is_Some (config_data (hass_entry h) !! CONF_TYPE)) →
  initialize_result cloud = Ok auth →
  py_truthy auth = false ∨ (∃ e, enumerate_result cloud = Raise e) →
  ∃ h', async_setup_entry cloud h = (Ok false, h')
        ∧ hass_data h' = Some (default ∅ (hass_data h))
        ∧ hass_forwarded h'
          = hass_forwarded h ++ [(config_id (hass_entry h), PLATFORMS)]
        ∧ hass_flows h' = hass_flows h
        ∧ hass_unsubscribed h' = hass_unsubscribed h
        ∧ config_id (hass_entry h') = config_id (hass_entry h)
        ∧ (is_Some (config_unique_id (hass_entry h)) →
           h' = add_forwarded (config_id (hass_entry h), PLATFORMS)
                  (after_setdefault h)).
Proof.
  intros Hready Hinit Hfail.
  destruct (check_unique_id_run (after_setdefault h) Hready)
    as (entry' & Hcheck & Hid & Hkeep).
  unfold async_setup_entry. unfold bind at 1. rewrite setdefault_domain_run.
  unfold bind at 1. rewrite Hcheck.
  unfold bind at 1, get.
  assert (Hsetup : ∀ entry, _setup cloud entry (default ∅ (hass_data h))
                            = (Ok false, default ∅ (hass_data h))).
  { intros entry. unfold _setup, bind, lift, ret. rewrite Hinit.
    destruct (py_truthy auth); simpl; [|reflexivity].
    destruct Hfail as [Hfalsy | [e He]]; [discriminate|]. rewrite He. reflexivity. }
  rewrite Hsetup. unfold bind, modify, lift, ret, get. simpl.
  eexists. split; [reflexivity|]. simpl.
  split; [reflexivity|]. split; [rewrite Hid; reflexivity|].
  split; [reflexivity|]. split; [reflexivity|]. split; [exact Hid|].
  intros Huid. rewrite (Hkeep Huid).
  unfold after_setdefault, add_forwarded, set_hass_data. simpl. reflexivity.
Qed.

(** X23. An entry without a unique id whose data lacks the email, the
    password or the type cannot be set up: [async_setup_entry] raises
    [KeyError] for the first of them that is missing, before the cloud is
    contacted; no account is registered and nothing is forwarded to the
    platforms. *)
Theorem async_setup_entry_missing_key (cloud : Cloud) (h : Hass) (key : string) :
  config_unique_id (hass_entry h) = None →
  (key = CONF_EMAIL ∧ config_data (hass_entry h) !! CONF_EMAIL = None)
  ∨ (key = CONF_PASSWORD ∧ is_Some (config_data (hass_entry h) !! CONF_EMAIL)
     ∧ config_data (hass_entry h) !! CONF_PASSWORD = None)
  ∨ (key = CONF_TYPE ∧ is_Some (config_data (hass_entry h) !! CONF_EMAIL)
     ∧ is_Some (config_data (hass_entry h) !! CONF_PASSWORD)
     ∧ config_data (hass_entry h) !! CONF_TYPE = None) →
  async_setup_entry cloud h = (Raise (KeyError key), after_setdefault h).
Proof.
  intros Huid Hmissing.
  unfold async_setup_entry. unfold bind at 1. rewrite setdefault_domain_run.
  unfold bind at 1.
  unfold check_unique_id, bind, get, lift, py_getitem. simpl. rewrite Huid.
  destruct Hmissing as [[-> He] | [(-> & [e He] & Hp) | (-> & [e He] & [p Hp] & Ht)]].
  - rewrite He. reflexivity.
  - rewrite He. simpl. rewrite Hp. reflexivity.
  - rewrite He. simpl. rewrite Hp. simpl. rewrite Ht. reflexivity.
Qed.

Lemma unsubscribe_all (us : list nat) : ∀ h,
  for_each us (λ unsub, modify (add_unsubscribed unsub)) h
  = (Ok tt, {| hass_data := hass_data h; hass_entry := hass_entry h;
               hass_flows := hass_flows h; hass_forwarded := hass_forwarded h;
               hass_unsubscribed := hass_unsubscribed h ++ us |}).
Proof.
  induction us as [|u us IH]; intros h; simpl.
  - rewrite app_nil_r. destruct h; reflexivity.
  - unfold bind, modify. rewrite IH. simpl. rewrite <- app_assoc. reflexivity.
Qed.

(** The first pass of the loop of [async_unload_entry]: the callbacks of
    the first adapter are called and the account is popped. *)
Lemma unload_first_pass (listeners : LandroidAPI → list nat) (h : Hass)
    (registry : gmap string Account) (a : Account) (s : Slot) (api : LandroidAPI) :
  hass_data h = Some registry →
  registry !! config_id (hass_entry h) = Some a →
  slots a !! 0%nat = Some s →
  slot_api s = Some api →
  bind (registered_api (config_id (hass_entry h)) 0)
    (λ api, bind (for_each (listeners api) (λ unsub, modify (add_unsubscribed unsub)))
              (λ _, pop_entry (config_id (hass_entry h)))) h
  = (Ok tt, unloaded h registry (config_id (hass_entry h)) (listeners api)).
Proof.
  intros Hdata Hreg Hslot Hapi.
  unfold registered_api, pop_entry, domain_data, bind, get, lift, ret, raise,
    modify, py_getitem.
  simpl. rewrite Hdata. simpl. rewrite Hreg. simpl. rewrite Hslot, Hapi.
  rewrite unsubscribe_all. simpl. rewrite Hdata, Hreg. reflexivity.
Qed.

(** X24. Unloading an account with one device works: the callbacks its
    adapter holds are called in order, the account is removed from the
    registry, and the result is [True]. *)
Theorem async_unload_entry_one_device (listeners : LandroidAPI → list nat) (h : Hass)
    (registry : gmap string Account) (a : Account) (s : Slot) (api : LandroidAPI) :
  hass_data h = Some registry →
  registry !! config_id (hass_entry h) = Some a →
  count a = 1 →
  slots a !! 0%nat = Some s →
  slot_api s = Some api →
  async_unload_entry true listeners h
  = (Ok true, unloaded h registry (config_id (hass_entry h)) (listeners api)).
Proof.
  intros Hdata Hreg Hcount Hslot Hapi.
  unfold async_unload_entry. unfold bind at 1, get.
  unfold bind at 1, domain_data. unfold bind at 1, get. rewrite Hdata.
  unfold ret at 1. unfold bind at 1, lift, py_getitem. simpl. rewrite Hreg.
  rewrite Hcount. simpl. unfold bind at 1. unfold bind at 1.
  rewrite (unload_first_pass listeners h registry a s api Hdata Hreg Hslot Hapi).
  reflexivity.
Qed.

(** X25. Unloading an account that was registered with no device (a
    count of zero or less) returns [True] and changes nothing: the account
    stays in the registry. *)
Theorem async_unload_entry_no_device (listeners : LandroidAPI → list nat) (h : Hass)
    (registry : gmap string Account) (a : Account) :
  hass_data h = Some registry →
  registry !! config_id (hass_entry h) = Some a →
  count a ≤ 0 →
  async_unload_entry true listeners h = (Ok true, h).
Proof.
  intros Hdata Hreg Hcount.
  unfold async_unload_entry, domain_data, bind, get, lift, ret, py_getitem. simpl.
  rewrite Hdata. simpl. rewrite Hreg.
  replace (Z.to_nat (count a)) with 0%nat by lia. reflexivity.
Qed.

(** X26. Unloading an account with two or more devices raises: the
    account is popped in the first pass of the loop over the devices, so
    the second pass finds no account and raises [KeyError] for the entry
    id.  By then the callbacks of the first adapter have been called and
    the account is gone; the callbacks of the other adapters are never
    called. *)
Theorem async_unload_entry_more_devices (listeners : LandroidAPI → list nat) (h : Hass)
    (registry : gmap string Account) (a : Account) (s : Slot) (api : LandroidAPI) :
  hass_data h = Some registry →
  registry !! config_id (hass_entry h) = Some a →
  2 ≤ count a →
  slots a !! 0%nat = Some s →
  slot_api s = Some api →
  async_unload_entry true listeners h
  = (Raise (KeyError (config_id (hass_entry h))),
     unloaded h registry (config_id (hass_entry h)) (listeners api)).
Proof.
  intros Hdata Hreg Hcount Hslot Hapi.
  unfold async_unload_entry. unfold bind at 1, get.
  unfold bind at 1, domain_data. unfold bind at 1, get. rewrite Hdata.
  unfold ret at 1. unfold bind at 1, lift, py_getitem. simpl. rewrite Hreg.
  replace (Z.to_nat (count a)) with (S (S (Z.to_nat (count a) - 2))) by lia.
  simpl. unfold bind at 1. unfold bind at 1.
  rewrite (unload_first_pass listeners h registry a s api Hdata Hreg Hslot Hapi).
  unfold bind at 1. unfold bind at 1.
  unfold registered_api, domain_data, bind, get, lift, ret, py_getitem. simpl.
  rewrite lookup_delete_eq. reflexivity.
Qed.

Lemma import_flows (confs : list (gmap string pyval)) : ∀ h,
  (∀ conf, conf ∈ confs → is_Some (conf !! "email")) →
  for_each confs (λ conf, bind (lift (py_getitem conf "email"))
                            (λ _, modify (add_flow conf))) h
  = (Ok tt, {| hass_data := hass_data h; hass_entry := hass_entry h;
               hass_flows := hass_flows h ++ confs;
               hass_forwarded := hass_forwarded h;
               hass_unsubscribed := hass_unsubscribed h |}).
Proof.
  induction confs as [|conf confs IH]; intros h Hemail; simpl.
  - rewrite app_nil_r. destruct h; reflexivity.
  - destruct (Hemail conf) as [email Hconf]; [apply elem_of_cons; auto|].
    unfold bind at 1. unfold bind at 1, lift, py_getitem. simpl. rewrite Hconf.
    unfold modify at 1. rewrite IH.
    + simpl. rewrite <- app_assoc. reflexivity.
    + intros c Hc. apply Hemail. apply elem_of_cons. auto.
Qed.

(** X27. [async_setup] returns [True] and starts one import flow for each
    account of the configuration, in order, when every account has an
    email; without a section for the integration it starts none.  In both
    cases [hass.data] has an item for the integration afterwards, the one
    it had if there was one. *)
Theorem async_setup_imports (h : Hass) :
  async_setup None h = (Ok true, after_setdefault h)
  ∧ ∀ confs, (∀ conf, conf ∈ confs → is_Some (conf !! "email")) →
             async_setup (Some confs) h = (Ok true, imported h confs).
Proof.
  split.
  - unfold async_setup, bind. rewrite setdefault_domain_run. reflexivity.
  - intros confs Hemail.
    unfold async_setup. unfold bind at 1. rewrite setdefault_domain_run.
    unfold bind at 1. rewrite import_flows by exact Hemail. reflexivity.
Qed.

(** X28. An account of the configuration without an email stops
    [async_setup]: it raises [KeyError] for "email", after the import flows
    of the accounts before it were started, and starts none for that
    account or the ones after it. *)
Theorem async_setup_missing_email (h : Hass)
    (pre post : list (gmap string pyval)) (bad : gmap string pyval) :
  (∀ conf, conf ∈ pre → is_Some (conf !! "email")) →
  bad !! "email" = None →
  async_setup (Some (pre ++ bad :: post)) h
  = (Raise (KeyError "email"), imported h pre).
Proof.
  intros Hpre Hbad.
  unfold async_setup. unfold bind at 1. rewrite setdefault_domain_run.
  unfold bind at 1. rewrite for_each_app, import_flows by exact Hpre.
  simpl. unfold bind at 1. unfold bind at 1, lift, py_getitem. simpl.
  rewrite Hbad. reflexivity.
Qed.

End EntryPointProperties.

(** * The properties at the sample data *)

Example py_str_3 : py_str 3 = "3".
Proof. vm_compute. reflexivity. Qed.

Example zone_example :
  _update_zone {| self := sample_entity []; device := sample_device (Ok [0; 5; 0; 7]) |}
  = (Ok tt, {| self := sample_entity ["0"; "1"; "3"];
               device := sample_device (Ok [0; 5; 0; 7]) |}).
Proof. vm_compute. reflexivity. Qed.

(** A primary edit of Monday alone: Monday is what [parseday] returns, the
    other six days and the secondary schedule are the device's. *)
Example schedule_example :
  @async_set_schedule sample_const sample_utils sample_edit sample_world
  = (Ok tt,
     dispatch
       (CallSend
          (PDict
             [("sc",
               PDict
                 [("d", PList (PList [PStr "08:00"; PInt 60; PInt 0]
                               :: replicate 6 (PList [PStr "10:30"; PInt 90; PInt 1])));
                  ("dd", PList (replicate 7 (PList [PStr "16:00"; PInt 90; PInt 0])))])]))
       sample_world).
Proof. vm_compute. reflexivity. Qed.

(** An offline mower is offline whatever its error code and status. *)
Example offline_example :
  @async_update_state sample_const sample_host
    {| online := false; error := Some 2; status := Some 7; serial := PNone;
       battery_percent := PNone; zone := Ok []; schedules := ∅; properties := ∅;
       calls := [] |} sample_world
  = (Ok "offline", sample_world).
Proof. reflexivity. Qed.

(** A status code the table does not know gives the initial state. *)
Example unknown_status_example :
  @async_update_state sample_const sample_host
    {| online := true; error := Some 0; status := Some 99; serial := PNone;
       battery_percent := PNone; zone := Ok []; schedules := ∅; properties := ∅;
       calls := [] |} sample_world
  = (Ok "initializing", sample_world).
Proof. vm_compute. reflexivity. Qed.

Lemma update_zone_options_witness :
  _update_zone {| self := sample_entity ["0"]; device := sample_device (Ok [0; 5; 0; 7]) |}
  = (Ok tt, with_self (set_attr_options (spec_zone_options [0; 5; 0; 7]))
              {| self := sample_entity ["0"]; device := sample_device (Ok [0; 5; 0; 7]) |}).
Proof. apply (update_zone_options _ [0; 5; 0; 7]); reflexivity. Defined.

Lemma update_zone_ignored_witness :
  _update_zone {| self := sample_entity ["0"; "2"];
                  device := sample_device (Ok [0; 5; 0]) |}
  = (Ok tt, {| self := sample_entity ["0"; "2"];
               device := sample_device (Ok [0; 5; 0]) |}).
Proof.
  apply update_zone_ignored. right. exists [0; 5; 0]. split; [reflexivity | simpl; lia].
Defined.

(** C1 fails as worded.  An offline mower whose error code has no
    description: the cycle raises at the description lookup and the stored
    state stays "docked", not offline.  An offline mower whose zone
    probabilities have no length: the cycle raises there, with the same
    effect. *)
Lemma operating_state_counterexample :
  (online (device sample_offline_unlisted_world) = false
   ∧ fst (@async_update sample_const sample_host sample_attribute_map sample_states
            sample_offline_unlisted_world) = Raise (KeyError (py_str 9))
   ∧ _attr_state (self (snd (@async_update sample_const sample_host
                               sample_attribute_map sample_states
                               sample_offline_unlisted_world))) = "docked"
   ∧ _attr_state (self (snd (@async_update sample_const sample_host
                               sample_attribute_map sample_states
                               sample_offline_unlisted_world)))
     ≠ @STATE_OFFLINE sample_const)
  ∧ (online (device sample_offline_unsized_world) = false
     ∧ fst (@async_update sample_const sample_host sample_attribute_map sample_states
              sample_offline_unsized_world) = Raise (TypeError "object has no len()")
     ∧ _attr_state (self (snd (@async_update sample_const sample_host
                                 sample_attribute_map sample_states
                                 sample_offline_unsized_world))) = "docked"
     ∧ _attr_state (self (snd (@async_update sample_const sample_host
                                 sample_attribute_map sample_states
                                 sample_offline_unsized_world)))
       ≠ @STATE_OFFLINE sample_const).
Proof.
  split; (split; [reflexivity|]);
    (split; [vm_compute; reflexivity|]);
    (split; [vm_compute; reflexivity | vm_compute; discriminate]).
Qed.

(** The offline sample mower with a listed error code: the cycle completes
    and stores the offline state. *)
Lemma async_update_operating_state_witness :
  @async_update_state sample_const sample_host (device sample_offline_world)
    sample_offline_world
  = (Ok "offline", sample_offline_world)
  ∧ ∃ r w',
      @async_update sample_const sample_host sample_attribute_map sample_states
        sample_offline_world = (r, w')
      ∧ (r = Ok tt
         ↔ ∃ desc, @ERROR_TO_DESCRIPTION sample_states
                     !! default 0 (error (device sample_offline_world)) = Some desc
                   ∧ @zone_probability_sized
                       (@merged_attributes sample_attribute_map
                          sample_offline_world desc))
      ∧ (r = Ok tt → _attr_state (self w') = "offline")
      ∧ (r ≠ Ok tt → (∃ e, r = Raise e)
                      ∧ _attr_state (self w') = _attr_state (self sample_offline_world)).
Proof.
  exact (@async_update_operating_state sample_const sample_host
           sample_attribute_map sample_states sample_offline_world).
Defined.

(** An absent error code and the error code 0 give the same description,
    the entry of the table at index 0. *)
Lemma async_update_error_description_witness :
  (∃ r w', @async_update sample_const sample_host sample_attribute_map sample_states
             sample_fresh_world = (r, w')
           ∧ _attributes (self w') !! "error" = Some (PStr "No error")
           ∧ r = Ok tt)
  ∧ (∃ r w', @async_update sample_const sample_host sample_attribute_map sample_states
               sample_zero_world = (r, w')
             ∧ _attributes (self w') !! "error" = Some (PStr "No error")
             ∧ r = Ok tt).
Proof.
  split.
  - destruct (@async_update_error_description sample_const sample_host
                sample_attribute_map sample_states sample_fresh_world)
      as (r & w' & Hrun & Hsome & _).
    exists r, w'. split; [exact Hrun|].
    destruct (Hsome "No error" eq_refl) as [Hattr Hdone].
    split; [exact Hattr|]. apply Hdone.
    intros zp Hzp. vm_compute in Hzp. discriminate.
  - destruct (@async_update_error_description sample_const sample_host
                sample_attribute_map sample_states sample_zero_world)
      as (r & w' & Hrun & Hsome & _).
    exists r, w'. split; [exact Hrun|].
    destruct (Hsome "No error" eq_refl) as [Hattr Hdone].
    split; [exact Hattr|]. apply Hdone.
    intros zp Hzp. vm_compute in Hzp. discriminate.
Defined.

(** C7 fails as worded.  In a completed cycle over the sample data the
    attribute "error", which is not a mapped name of the table, goes from
    absent to the description of the error code.  With a table that maps
    the property "error" to that name, and a handle whose "error" is
    [None], the attribute is written all the same.  With a table that maps
    two properties to one name, the entry whose property is [None] does
    not keep the attribute: the other entry overwrites it. *)
Lemma sticky_attributes_counterexample :
  (fst (@async_update sample_const sample_host sample_attribute_map sample_states
          sample_world) = Ok tt
   ∧ ¬ @sticky_attributes_claim sample_attribute_map sample_world
         (snd (@async_update sample_const sample_host sample_attribute_map
                 sample_states sample_world)))
  ∧ (fst (@async_update sample_const sample_host sample_attribute_map_error
            sample_states sample_fresh_world) = Ok tt
     ∧ ¬ @sticky_attributes_claim sample_attribute_map_error sample_fresh_world
           (snd (@async_update sample_const sample_host sample_attribute_map_error
                   sample_states sample_fresh_world)))
  ∧ (fst (@async_update sample_const sample_host sample_attribute_map_shared
            sample_states sample_world) = Ok tt
     ∧ ¬ @sticky_attributes_claim sample_attribute_map_shared sample_world
           (snd (@async_update sample_const sample_host sample_attribute_map_shared
                   sample_states sample_world))
     ∧ ("blade_time", "blades") ∈ @ATTR_MAP_state sample_attribute_map_shared
     ∧ properties (device sample_world) !! "blade_time" = Some PNone
     ∧ _attributes (self sample_world) !! "blades" = Some (PInt 12)
     ∧ _attributes (self (snd (@async_update sample_const sample_host
                                 sample_attribute_map_shared sample_states
                                 sample_world))) !! "blades" = Some (PInt 80)).
Proof.
  split; [|split].
  - split; [vm_compute; reflexivity|].
    intros [_ Houtside]. specialize (Houtside "error").
    assert (Hnot : "error" ∉ (@ATTR_MAP_state sample_attribute_map).*2).
    { intros Hin. simpl in Hin.
      repeat (apply elem_of_cons in Hin as [Hin | Hin]; [discriminate|]).
      apply elem_of_nil in Hin. exact Hin. }
    specialize (Houtside Hnot). vm_compute in Houtside. discriminate.
  - split; [vm_compute; reflexivity|].
    intros [Hentry _]. specialize (Hentry "error" "error").
    assert (Hin : ("error", "error") ∈ @ATTR_MAP_state sample_attribute_map_error).
    { simpl. apply elem_of_cons. right. apply elem_of_cons. left. reflexivity. }
    assert (Hnone : properties (device sample_fresh_world) !! "error" = None
                    ∨ properties (device sample_fresh_world) !! "error" = Some PNone).
    { right. vm_compute. reflexivity. }
    specialize (Hentry Hin Hnone). vm_compute in Hentry. discriminate.
  - assert (Hin : ("blade_time", "blades")
                  ∈ @ATTR_MAP_state sample_attribute_map_shared).
    { simpl. apply elem_of_cons. right. apply elem_of_cons. left. reflexivity. }
    split; [vm_compute; reflexivity|]. split; [|split; [exact Hin|]].
    + intros [Hentry _]. specialize (Hentry "blade_time" "blades" Hin).
      assert (Hnone : properties (device sample_world) !! "blade_time" = None
                      ∨ properties (device sample_world) !! "blade_time" = Some PNone).
      { right. vm_compute. reflexivity. }
      specialize (Hentry Hnone). vm_compute in Hentry. discriminate.
    + split; [vm_compute; reflexivity|].
      split; vm_compute; reflexivity.
Qed.

Lemma async_update_sticky_attributes_witness :
  let w' := snd (@async_update sample_const sample_host sample_attribute_map
                   sample_states sample_world) in
  (∀ a, a ≠ "error" →
     ((∀ prop v, (prop, a) ∈ @ATTR_MAP_state sample_attribute_map →
         properties (device sample_world) !! prop = Some v → v = PNone) →
      _attributes (self w') !! a = _attributes (self sample_world) !! a)
     ∧ (_attributes (self w') !! a ≠ _attributes (self sample_world) !! a →
        ∃ prop v, (prop, a) ∈ @ATTR_MAP_state sample_attribute_map
                  ∧ properties (device sample_world) !! prop = Some v ∧ v ≠ PNone
                  ∧ _attributes (self w') !! a = Some v)
     ∧ (a ∉ (@ATTR_MAP_state sample_attribute_map).*2 →
        _attributes (self w') !! a = _attributes (self sample_world) !! a))
  ∧ (∀ desc, @ERROR_TO_DESCRIPTION sample_states
               !! default 0 (error (device sample_world)) = Some desc →
       _attributes (self w') !! "error" = Some (PStr desc))
  ∧ (@ERROR_TO_DESCRIPTION sample_states
       !! default 0 (error (device sample_world)) = None →
     _attributes (self w') = _attributes (self sample_world)).
Proof.
  intros w'.
  refine (@async_update_sticky_attributes sample_const sample_host
            sample_attribute_map sample_states sample_world w'
            (fst (@async_update sample_const sample_host sample_attribute_map
                    sample_states sample_world)) _).
  apply surjective_pairing.
Defined.

(** C2 fails as worded.  A secondary edit in which Tuesday has a start and
    no end, on a mower that reports a primary schedule only: the edit
    raises when it reads Monday from the secondary schedule, before
    Tuesday is looked at, and the error is not the validation error. *)
Lemma missing_end_counterexample :
  (sample_day "tuesday" ∈ @SCHEDULE_TO_DAY sample_const
   ∧ missing_end sample_bad_edit (sample_day "tuesday"))
  ∧ @async_set_schedule sample_const sample_utils sample_bad_edit
      sample_primary_only_world
    = (Raise (KeyError "secondary"), sample_primary_only_world).
Proof.
  split; [split|].
  - apply elem_of_cons. right. apply elem_of_cons. left. reflexivity.
  - split; [eexists; vm_compute; reflexivity | vm_compute; reflexivity].
  - vm_compute. reflexivity.
Qed.

(** A primary edit in which Tuesday has a start and no end, on a mower
    that reports a primary schedule only: Monday is read from the device
    and the validation error names Tuesday. *)
Lemma async_set_schedule_missing_end_witness :
  Forall (λ x, ¬ missing_end sample_primary_bad_edit x) [sample_day "monday"]
  ∧ @async_set_schedule sample_const sample_utils sample_primary_bad_edit
      sample_primary_only_world
    = (Raise (HomeAssistantError
                ("No end time specified for " +:+ day_clear (sample_day "tuesday"))),
       sample_primary_only_world).
Proof.
  refine (proj2 (proj2 (@async_set_schedule_missing_end sample_const sample_utils
                          sample_primary_bad_edit sample_primary_only_world _))
                "primary" [sample_day "monday"] (sample_day "tuesday")
                (sample_day <$> ["wednesday"; "thursday"; "friday"; "saturday"; "sunday"])
                _ _ _ _ _ _).
  - exists (sample_day "tuesday"). split.
    + apply elem_of_cons. right. apply elem_of_cons. left. reflexivity.
    + split; [eexists; vm_compute; reflexivity | vm_compute; reflexivity].
  - vm_compute. reflexivity.
  - eexists. vm_compute. reflexivity.
  - reflexivity.
  - split; [eexists; vm_compute; reflexivity | vm_compute; reflexivity].
  - discriminate.
  - apply Forall_cons. split; [|apply Forall_nil; exact I].
    right. split; [vm_compute; reflexivity|].
    exists (sample_schedule "10:30" true).
    split; [vm_compute; reflexivity | eexists; vm_compute; reflexivity].
Defined.

(** The same run, computed. *)
Example missing_end_example :
  @async_set_schedule sample_const sample_utils sample_bad_edit sample_world
  = (Raise (HomeAssistantError "No end time specified for tuesday"), sample_world).
Proof. vm_compute. reflexivity. Qed.

Lemma async_set_schedule_document_witness :
  let w' := snd (@async_set_schedule sample_const sample_spec_utils sample_edit
                   sample_world) in
  ∃ primary_entry secondary_entry,
    sent_document sample_world w' [("d", primary_entry); ("dd", secondary_entry)]
    ∧ ("primary" = "secondary" →
       (∃ primary, schedules (device sample_world) !! "primary" = Some primary
                   ∧ @copied_through sample_const primary primary_entry)
       ∧ ∃ items, secondary_entry = PList items
                  ∧ Forall2 (@day_item sample_spec_utils (device sample_world)
                               "primary" sample_edit)
                      (@SCHEDULE_TO_DAY sample_const) items)
    ∧ ("primary" = "primary" →
       (∃ secondary, schedules (device sample_world) !! "secondary" = Some secondary
                     ∧ @copied_through sample_const secondary secondary_entry)
       ∧ ∃ items, primary_entry = PList items
                  ∧ Forall2 (@day_item sample_spec_utils (device sample_world)
                               "primary" sample_edit)
                      (@SCHEDULE_TO_DAY sample_const) items).
Proof.
  intros w'.
  refine (@async_set_schedule_document sample_const sample_spec_utils sample_edit
            sample_world w' "primary" "d" "dd" _ _ _ _ _ _ _).
  - intros of_type. reflexivity.
  - vm_compute. reflexivity.
  - left. reflexivity.
  - vm_compute. reflexivity.
  - vm_compute. reflexivity.
  - discriminate.
  - vm_compute. reflexivity.
Defined.

(** The same edit, computed: the secondary entry is the device's secondary
    schedule, triple by triple. *)
Example pass_thru_example :
  @async_set_schedule sample_const sample_spec_utils sample_edit sample_world
  = (Ok tt,
     dispatch
       (CallSend
          (PDict
             [("sc",
               PDict
                 [("d", PList (PList [PStr "08:00"; PInt 60; PInt 0]
                               :: replicate 6 (PList [PStr "10:30"; PInt 90; PInt 1])));
                  ("dd", PList (replicate 7 (PList [PStr "16:00"; PInt 90; PInt 0])))])]))
       sample_world).
Proof. vm_compute. reflexivity. Qed.

Lemma async_set_schedule_read_through_witness :
  let w' := snd (@async_set_schedule sample_const sample_utils sample_edit
                   sample_world) in
  ∃ doc key items,
    sent_document sample_world w' doc
    ∧ @SCHEDULE_TYPE_MAP sample_const !! "primary" = Some key
    ∧ dict_get doc key = Some (PList items)
    ∧ length items = length (@SCHEDULE_TO_DAY sample_const)
    ∧ ∀ (i : nat) (x : Day),
        @SCHEDULE_TO_DAY sample_const !! i = Some x →
        sample_edit !! day_start x = None →
        ∃ of_type entry,
          schedules (device sample_world) !! "primary" = Some of_type
          ∧ of_type !! day_clear x = Some entry
          ∧ items !! i = Some (PList [PStr (entry_start entry);
                                      PInt (entry_duration entry);
                                      PInt (Z.b2z (entry_boundary entry))]).
Proof.
  intros w'.
  apply (@async_set_schedule_read_through sample_const sample_utils sample_edit
           sample_world w' "primary" "d" "dd").
  - vm_compute. reflexivity.
  - left. reflexivity.
  - vm_compute. reflexivity.
  - vm_compute. reflexivity.
  - discriminate.
  - vm_compute. reflexivity.
Defined.

Lemma setup_aborts_witness :
  @_setup sample_host sample_builtins sample_cloud sample_config_entry ∅ = (Ok false, ∅).
Proof.
  apply (@setup_aborts sample_host sample_builtins sample_cloud sample_config_entry
           ∅ (PBool true)).
  - reflexivity.
  - right. eexists. reflexivity.
Defined.

(** * The further properties at the sample data *)

#[local] Existing Instance sample_const.
#[local] Existing Instance sample_host.
#[local] Existing Instance sample_builtins.
#[local] Existing Instance sample_attribute_map.
#[local] Existing Instance sample_states.
#[local] Existing Instance sample_utils.
#[local] Existing Instance sample_conf_keys.
#[local] Existing Instance sample_integration.

Lemma async_update_missing_description_witness :
  async_update sample_unlisted_world
  = (Raise (KeyError (py_str 9)),
     with_self (set_icon (Some "mdi:robot-mower")) sample_unlisted_world).
Proof.
  refine (async_update_missing_description sample_unlisted_world _).
  vm_compute. reflexivity.
Defined.

Lemma async_update_unsized_zone_probability_witness :
  ∃ w', async_update sample_unsized_world
        = (Raise (TypeError "object has no len()"), w')
        ∧ _attributes (self w') = merged_attributes sample_unsized_world "Lifted"
        ∧ _available (self w') = true
        ∧ _attr_state (self w') = "docked"
        ∧ _serialnumber (self w') = PNone
        ∧ _battery_level (self w') = PNone.
Proof.
  refine (async_update_unsized_zone_probability sample_unsized_world "Lifted"
            (PInt 3) (TypeError "object has no len()") _ _ _).
  - vm_compute. reflexivity.
  - vm_compute. reflexivity.
  - reflexivity.
Defined.

Lemma async_update_idempotent_witness :
  async_update (snd (async_update sample_world))
  = (Ok tt, snd (async_update sample_world)).
Proof.
  apply (async_update_idempotent sample_world). vm_compute. reflexivity.
Defined.

Lemma async_update_copies_property_witness :
  _attributes (self (snd (async_update sample_world))) !! "battery" = Some (PInt 80).
Proof.
  apply (async_update_copies_property sample_world _ "battery_percent" "battery").
  - simpl. repeat (apply NoDup_cons; split; [vm_compute; intros Hin;
      repeat (apply elem_of_cons in Hin as [Hin | Hin]; [discriminate|]);
      apply elem_of_nil in Hin; exact Hin|]).
    apply NoDup_nil. exact I.
  - apply elem_of_cons. left. reflexivity.
  - discriminate.
  - vm_compute. reflexivity.
  - discriminate.
  - vm_compute. reflexivity.
Defined.

Lemma async_update_keeps_names_witness :
  is_Some (_attributes (self (snd (async_update sample_unlisted_world))) !! "custom").
Proof.
  apply (async_update_keeps_names sample_unlisted_world _
           (fst (async_update sample_unlisted_world))).
  - apply surjective_pairing.
  - eexists. vm_compute. reflexivity.
Defined.

Lemma async_update_reads_only_witness :
  device (snd (async_update sample_world)) = device sample_world
  ∧ _attr_options (self (snd (async_update sample_world))) = ["0"]
  ∧ _attr_current_option (self (snd (async_update sample_world))) = None.
Proof.
  apply (async_update_reads_only sample_world _ (fst (async_update sample_world))).
  apply surjective_pairing.
Defined.

Lemma async_update_from_handle_witness :
  let w1 := snd (async_update sample_world) in
  let w2 := snd (async_update {| self := sample_entity []; device := sample_mower |}) in
  _attr_state (self w1) = _attr_state (self w2)
  ∧ _available (self w1) = _available (self w2)
  ∧ _serialnumber (self w1) = _serialnumber (self w2)
  ∧ _battery_level (self w1) = _battery_level (self w2)
  ∧ _attributes (self w1) !! "error" = _attributes (self w2) !! "error".
Proof.
  intros w1 w2.
  apply (async_update_from_handle (self sample_world) (sample_entity []) sample_mower).
  - vm_compute. reflexivity.
  - vm_compute. reflexivity.
Defined.

Lemma update_zone_valid_options_witness :
  ∃ w', _update_zone {| self := sample_entity ["0"; "2"];
                        device := sample_device (Ok [0; 5; 0; 7]) |} = (Ok tt, w')
        ∧ valid_options (_attr_options (self w'))
        ∧ device w' = sample_device (Ok [0; 5; 0; 7]).
Proof.
  apply (update_zone_valid_options
           {| self := sample_entity ["0"; "2"];
              device := sample_device (Ok [0; 5; 0; 7]) |}).
  unfold valid_options. simpl. repeat constructor.
Defined.

Lemma async_set_schedule_atomic_witness :
  (∃ e, fst (async_set_schedule sample_edit sample_world) = Raise e
        ∧ snd (async_set_schedule sample_edit sample_world) = sample_world)
  ∨ (fst (async_set_schedule sample_edit sample_world) = Ok tt
     ∧ ∃ doc, sent_document sample_world
                (snd (async_set_schedule sample_edit sample_world)) doc).
Proof.
  refine (async_set_schedule_atomic sample_edit sample_world _ _ _).
  apply surjective_pairing.
Defined.

Lemma async_set_schedule_bad_type_witness :
  async_set_schedule sample_untyped_edit sample_world
  = (Raise (KeyError "type"), sample_world).
Proof.
  refine (proj1 (async_set_schedule_bad_type sample_untyped_edit sample_world) _).
  vm_compute. reflexivity.
Defined.

Lemma async_set_schedule_parsed_days_witness :
  let w' := snd (async_set_schedule sample_edit sample_world) in
  ∃ doc key items,
    sent_document sample_world w' doc
    ∧ SCHEDULE_TYPE_MAP !! "primary" = Some key
    ∧ dict_get doc key = Some (PList items)
    ∧ ∀ (i : nat) (x : Day),
        SCHEDULE_TO_DAY !! i = Some x →
        is_Some (sample_edit !! day_start x) →
        is_Some (sample_edit !! day_end x)
        ∧ ∃ item, parseday x sample_edit = Ok item ∧ items !! i = Some item.
Proof.
  intros w'.
  refine (async_set_schedule_parsed_days sample_edit sample_world w'
            "primary" "d" "dd" _ _ _ _ _ _).
  - vm_compute. reflexivity.
  - left. reflexivity.
  - vm_compute. reflexivity.
  - vm_compute. reflexivity.
  - discriminate.
  - vm_compute. reflexivity.
Defined.

Lemma async_set_schedule_goes_through_witness :
  ∃ w' doc, async_set_schedule sample_secondary_edit sample_world = (Ok tt, w')
            ∧ sent_document sample_world w' doc.
Proof.
  refine (async_set_schedule_goes_through sample_secondary_edit sample_world
            "secondary" _ _ _ _ _ _ _).
  - vm_compute. reflexivity.
  - right. reflexivity.
  - eexists. vm_compute. reflexivity.
  - eexists. vm_compute. reflexivity.
  - intros t Ht.
    exists (if String.eqb t "primary" then sample_schedule "10:30" true
            else sample_schedule "16:00" false).
    split; [destruct Ht as [-> | ->]; vm_compute; reflexivity|].
    split; [eexists; reflexivity|].
    apply Forall_forall.
    destruct Ht as [-> | ->];
      repeat (apply Forall_cons; split; [eexists; vm_compute; reflexivity|]);
      apply Forall_nil; exact I.
  - intros x Hx [start Hstart] _. unfold parseday, sample_utils.
    rewrite Hstart. eexists. reflexivity.
  - apply Forall_forall.
    repeat (apply Forall_cons; split;
            [intros [[start Hstart] Hend]; vm_compute in Hstart, Hend; discriminate|]).
    apply Forall_nil. exact I.
Defined.

Lemma async_set_schedule_other_type_missing_witness :
  async_set_schedule sample_edit sample_primary_only_world
  = (Raise (KeyError "secondary"), sample_primary_only_world).
Proof.
  refine (proj2 (async_set_schedule_other_type_missing sample_edit
                   sample_primary_only_world) _ _ _ _).
  - vm_compute. reflexivity.
  - eexists. vm_compute. reflexivity.
  - vm_compute. reflexivity.
  - assert (Hprimary : schedules (device sample_primary_only_world) !! "primary"
                       = Some (sample_schedule "10:30" true))
      by (vm_compute; reflexivity).
    apply Forall_cons. split.
    { left. split; [eexists; vm_compute; reflexivity|].
      split; [eexists; vm_compute; reflexivity|]. eexists. vm_compute. reflexivity. }
    repeat (apply Forall_cons; split;
            [right; split; [vm_compute; reflexivity|];
             exists (sample_schedule "10:30" true);
             split; [exact Hprimary | eexists; vm_compute; reflexivity]|]).
    apply Forall_nil. exact I.
Defined.

Lemma setup_other_accounts_witness :
  snd (_setup (sample_cloud_devices 2 1) sample_config_entry sample_registry)
    !! "entry0"
  = sample_registry !! "entry0".
Proof.
  refine (setup_other_accounts (sample_cloud_devices 2 1) sample_config_entry
            sample_registry _
            (fst (_setup (sample_cloud_devices 2 1) sample_config_entry sample_registry))
            "entry0" _ _).
  - apply surjective_pairing.
  - discriminate.
Defined.

Lemma setup_no_devices_witness :
  _setup (sample_cloud_devices 0 0) sample_config_entry sample_registry
  = (Ok true, <["entry1" := fresh_account sample_config_entry 0]> sample_registry).
Proof.
  refine (setup_no_devices (sample_cloud_devices 0 0) sample_config_entry
            sample_registry (PBool true) 0 _ _ _ _).
  - reflexivity.
  - reflexivity.
  - reflexivity.
  - lia.
Defined.

Lemma setup_registers_witness :
  ∃ acc, _setup (sample_cloud_devices 2 2) sample_config_entry sample_registry
         = (Ok true, <["entry1" := acc]> sample_registry)
         ∧ count acc = 2
         ∧ ∀ i, slots acc !! i
                = if decide (i < Z.to_nat 2)%nat
                  then Some (registered_slot (sample_cloud_devices 2 2)
                               sample_config_entry "me@example.org" i)
                  else None.
Proof.
  refine (setup_registers (sample_cloud_devices 2 2) sample_config_entry
            sample_registry (PBool true) 2 "me@example.org" _ _ _ _ _).
  - reflexivity.
  - reflexivity.
  - reflexivity.
  - reflexivity.
  - intros i Hi. split; [eexists; reflexivity|].
    simpl. destruct (Nat.ltb_spec i 2); [reflexivity|]. simpl in Hi. lia.
Defined.

Lemma setup_connect_raises_witness :
  ∃ acc, _setup (sample_cloud_devices 2 1) sample_config_entry sample_registry
         = (Raise (CloudError "No connection"), <["entry1" := acc]> sample_registry)
         ∧ count acc = 2
         ∧ ∀ i, slots acc !! i
                = if decide (i < 1)%nat
                  then Some (registered_slot (sample_cloud_devices 2 1)
                               sample_config_entry "me@example.org" i)
                  else if decide (i = 1%nat)
                       then Some (unconnected_slot (sample_cloud_devices 2 1)
                                    sample_config_entry 1)
                       else None.
Proof.
  refine (setup_connect_raises (sample_cloud_devices 2 1) sample_config_entry
            sample_registry (PBool true) (PBool true) 2 "me@example.org" 1
            (CloudError "No connection") _ _ _ _ _ _ _ _).
  - reflexivity.
  - reflexivity.
  - reflexivity.
  - reflexivity.
  - simpl. lia.
  - intros i Hi. split; [eexists; reflexivity|].
    simpl. destruct (Nat.ltb_spec i 1); [reflexivity | lia].
  - reflexivity.
  - reflexivity.
Defined.

Lemma check_unique_id_assigns_witness :
  ∃ entry', check_unique_id (sample_hass None (sample_host_entry None sample_full_data))
            = (Ok tt, set_hass_entry entry'
                        (sample_hass None (sample_host_entry None sample_full_data)))
            ∧ config_id entry' = "entry1"
            ∧ config_unique_id entry' = Some ("me@example.org" +:+ "_" +:+ "worx")
            ∧ config_entry_of entry'
              = config_entry_of (sample_host_entry None sample_full_data)
            ∧ ∀ k, is_Some (config_data entry' !! k)
                   ↔ k = CONF_EMAIL ∨ k = CONF_PASSWORD ∨ k = CONF_TYPE.
Proof.
  refine (proj2 (check_unique_id_assigns
                   (sample_hass None (sample_host_entry None sample_full_data)))
                 "me@example.org" "secret" "worx" _ _ _ _ _ _ _).
  - reflexivity.
  - vm_compute. reflexivity.
  - vm_compute. reflexivity.
  - vm_compute. reflexivity.
  - discriminate.
  - discriminate.
  - discriminate.
Defined.

(** A first set-up, of an entry that has no unique id yet, with an account
    whose [enumerate()] raises. *)
Lemma async_setup_entry_forwards_failed_witness :
  ∃ h', async_setup_entry sample_cloud
          (sample_hass None (sample_host_entry None sample_full_data))
        = (Ok false, h')
        ∧ hass_data h' = Some ∅
        ∧ hass_forwarded h' = [] ++ [("entry1", PLATFORMS)]
        ∧ hass_flows h' = []
        ∧ hass_unsubscribed h' = []
        ∧ config_id (hass_entry h') = "entry1"
        ∧ (is_Some (@None string) →
           h' = add_forwarded ("entry1", PLATFORMS)
                  (after_setdefault
                     (sample_hass None (sample_host_entry None sample_full_data)))).
Proof.
  refine (async_setup_entry_forwards_failed sample_cloud
            (sample_hass None (sample_host_entry None sample_full_data))
            (PBool true) _ _ _).
  - right. split; [eexists; reflexivity|]. split; eexists; reflexivity.
  - reflexivity.
  - right. eexists. reflexivity.
Defined.

Lemma async_setup_entry_missing_key_witness :
  async_setup_entry (sample_cloud_devices 1 1)
    (sample_hass None (sample_host_entry None sample_data_without_type))
  = (Raise (KeyError "type"),
     after_setdefault
       (sample_hass None (sample_host_entry None sample_data_without_type))).
Proof.
  refine (async_setup_entry_missing_key (sample_cloud_devices 1 1)
            (sample_hass None (sample_host_entry None sample_data_without_type))
            "type" _ _).
  - reflexivity.
  - right. right. split; [reflexivity|].
    split; [eexists; vm_compute; reflexivity|].
    split; [eexists; vm_compute; reflexivity | vm_compute; reflexivity].
Defined.

Lemma async_unload_entry_one_device_witness :
  async_unload_entry true sample_listeners
    (sample_hass (Some (<["entry1" := sample_account 1]> sample_registry))
       (sample_host_entry None sample_full_data))
  = (Ok true,
     unloaded
       (sample_hass (Some (<["entry1" := sample_account 1]> sample_registry))
          (sample_host_entry None sample_full_data))
       (<["entry1" := sample_account 1]> sample_registry) "entry1" [0; 1]%nat).
Proof.
  refine (async_unload_entry_one_device sample_listeners
            (sample_hass (Some (<["entry1" := sample_account 1]> sample_registry))
               (sample_host_entry None sample_full_data))
            _ (sample_account 1) _ (sample_api 0) _ _ _ _ _).
  - reflexivity.
  - vm_compute. reflexivity.
  - reflexivity.
  - vm_compute. reflexivity.
  - reflexivity.
Defined.

Lemma async_unload_entry_no_device_witness :
  async_unload_entry true sample_listeners
    (sample_hass (Some sample_registry)
       {| config_id := "entry0"; config_unique_id := None;
          config_data := sample_full_data |})
  = (Ok true,
     sample_hass (Some sample_registry)
       {| config_id := "entry0"; config_unique_id := None;
          config_data := sample_full_data |}).
Proof.
  refine (async_unload_entry_no_device sample_listeners
            (sample_hass (Some sample_registry)
               {| config_id := "entry0"; config_unique_id := None;
                  config_data := sample_full_data |})
            sample_registry sample_other_account _ _ _).
  - reflexivity.
  - vm_compute. reflexivity.
  - simpl. lia.
Defined.

Lemma async_unload_entry_more_devices_witness :
  async_unload_entry true sample_listeners
    (sample_hass (Some (<["entry1" := sample_account 2]> sample_registry))
       (sample_host_entry None sample_full_data))
  = (Raise (KeyError "entry1"),
     unloaded
       (sample_hass (Some (<["entry1" := sample_account 2]> sample_registry))
          (sample_host_entry None sample_full_data))
       (<["entry1" := sample_account 2]> sample_registry) "entry1" [0; 1]%nat).
Proof.
  refine (async_unload_entry_more_devices sample_listeners
            (sample_hass (Some (<["entry1" := sample_account 2]> sample_registry))
               (sample_host_entry None sample_full_data))
            _ (sample_account 2) _ (sample_api 0) _ _ _ _ _).
  - reflexivity.
  - vm_compute. reflexivity.
  - simpl. lia.
  - vm_compute. reflexivity.
  - reflexivity.
Defined.

Lemma async_setup_imports_witness :
  async_setup (Some [sample_conf "a@example.org"; sample_conf "b@example.org"])
    (sample_hass None (sample_host_entry None sample_full_data))
  = (Ok true,
     imported (sample_hass None (sample_host_entry None sample_full_data))
       [sample_conf "a@example.org"; sample_conf "b@example.org"]).
Proof.
  refine (proj2 (async_setup_imports
                   (sample_hass None (sample_host_entry None sample_full_data)))
                 [sample_conf "a@example.org"; sample_conf "b@example.org"] _).
  intros conf Hconf.
  repeat (apply elem_of_cons in Hconf as [-> | Hconf];
          [eexists; vm_compute; reflexivity|]).
  apply elem_of_nil in Hconf. contradiction.
Defined.

Lemma async_setup_missing_email_witness :
  async_setup (Some ([sample_conf "a@example.org"]
                     ++ sample_conf_without_email :: [sample_conf "b@example.org"]))
    (sample_hass None (sample_host_entry None sample_full_data))
  = (Raise (KeyError "email"),
     imported (sample_hass None (sample_host_entry None sample_full_data))
       [sample_conf "a@example.org"]).
Proof.
  refine (async_setup_missing_email
            (sample_hass None (sample_host_entry None sample_full_data))
            [sample_conf "a@example.org"] [sample_conf "b@example.org"]
            sample_conf_without_email _ _).
  - intros conf Hconf.
    apply elem_of_cons in Hconf as [-> | Hconf]; [eexists; vm_compute; reflexivity|].
    apply elem_of_nil in Hconf. contradiction.
  - vm_compute. reflexivity.
Defined.
